(** * Shift scheduling: the data model and the allocation engine

    A shallow embedding of [models.py] and [scheduler.py].

    Representation choices, fixed once for the whole development:
    - a [datetime.time] is the number of microseconds since midnight, a
      naive [datetime.datetime] the number of microseconds since the start
      of proleptic-Gregorian ordinal day 0, a [datetime.date] its ordinal,
      a [timedelta] a number of microseconds; all are integers ([Z]);
    - the [float] hour quantities (caps, shift lengths, accumulated hours)
      are exact rationals ([Q]); [timedelta(hours=h)] rounds to the nearest
      microsecond, ties to even, as Python does;
    - a [dict] is a [gmap], a [list] a [list];
    - [_generate_shifts_for_day] mutates the shared [employee_hours]
      dictionary; here the dictionary is threaded through and returned. *)

From stdpp Require Import base option list gmap strings.
From Stdlib Require Import ZArith QArith Qround Lia.

#[local] Open Scope Z_scope.

(** ** Times, dates and durations *)

Abbreviation time := Z (only parsing).
Abbreviation datetime := Z (only parsing).
Abbreviation pydate := Z (only parsing).
Abbreviation timedelta := Z (only parsing).

Definition US_PER_HOUR : Z := 3600000000.
Definition US_PER_DAY : Z := 86400000000.

(** [dt.date()], [dt.time()] and [datetime.combine(d, t)]. *)
Definition datetime_date (dt : datetime) : pydate := dt / US_PER_DAY.
Definition datetime_time (dt : datetime) : time := dt mod US_PER_DAY.
Definition combine (d : pydate) (t : time) : datetime := d * US_PER_DAY + t.

(** A time of day as Python can hold it. *)
Definition valid_time (t : time) : Prop := 0 <= t < US_PER_DAY.

Definition hm (h m : Z) : time := h * US_PER_HOUR + m * 60000000.

(** [td.total_seconds() / 3600.0]. *)
Definition hours_of (td : timedelta) : Q := Qmake td 3600000000.

Definition Qlt_bool (a b : Q) : bool := negb (Qle_bool b a).

(** Rounding to the nearest integer, ties to the even one. *)
Definition round_half_even (q : Q) : Z :=
  let f := Qfloor q in
  let r := (q - inject_Z f)%Q in
  if Qlt_bool r (1 # 2) then f
  else if Qlt_bool (1 # 2) r then f + 1
  else if Z.even f then f else f + 1.

(** [timedelta(hours=h)] and [timedelta(minutes=15)]. *)
Definition timedelta_hours (h : Q) : timedelta :=
  round_half_even (h * inject_Z US_PER_HOUR)%Q.
Definition QUARTER_HOUR : timedelta := 900000000.

(** Python's [min(a, b)] and [max(a, b)]: the first argument wins a tie. *)
Definition qmin (a b : Q) : Q := if Qlt_bool b a then b else a.
Definition qmax (a b : Q) : Q := if Qlt_bool a b then b else a.

(** ** [DayOfWeek] *)

Inductive DayOfWeek :=
  MONDAY | TUESDAY | WEDNESDAY | THURSDAY | FRIDAY | SATURDAY | SUNDAY.

Definition DayOfWeek_value (d : DayOfWeek) : Z :=
  match d with
  | MONDAY => 0 | TUESDAY => 1 | WEDNESDAY => 2 | THURSDAY => 3
  | FRIDAY => 4 | SATURDAY => 5 | SUNDAY => 6
  end.

(** [DayOfWeek(v)]; Python raises [ValueError] outside 0..6. *)
Definition DayOfWeek_of_value (v : Z) : option DayOfWeek :=
  match v with
  | 0 => Some MONDAY | 1 => Some TUESDAY | 2 => Some WEDNESDAY
  | 3 => Some THURSDAY | 4 => Some FRIDAY | 5 => Some SATURDAY
  | 6 => Some SUNDAY | _ => None
  end.

#[global] Instance DayOfWeek_eq_dec : EqDecision DayOfWeek.
Proof. solve_decision. Defined.

#[global] Instance DayOfWeek_countable : Countable DayOfWeek.
Proof.
  apply (inj_countable DayOfWeek_value DayOfWeek_of_value).
  intros []; reflexivity.
Defined.

(** ** The calendar of the [datetime] module

    The proleptic Gregorian calendar as [datetime] implements it:
    ordinal 1 is 0001-01-01 and [weekday()] is [(ordinal + 6) % 7]. *)

Definition is_leap (y : Z) : bool :=
  (y mod 4 =? 0) && (negb (y mod 100 =? 0) || (y mod 400 =? 0)).

Definition days_in_month (y m : Z) : Z :=
  match m with
  | 2 => if is_leap y then 29 else 28
  | 4 | 6 | 9 | 11 => 30
  | _ => 31
  end.

Definition days_before_year (y : Z) : Z :=
  let p := y - 1 in p * 365 + p / 4 - p / 100 + p / 400.

Definition days_before_month (y m : Z) : Z :=
  foldr Z.add 0 (map (days_in_month y) (seqZ 1 (m - 1))).

Definition ymd2ord (y m d : Z) : pydate :=
  days_before_year y + days_before_month y m + d.

(** [datetime(year, month, 1)]: [ValueError] unless the year is in 1..9999
    and the month in 1..12. *)
Definition first_of_month (y m : Z) : option datetime :=
  if (1 <=? y) && (y <=? 9999) && (1 <=? m) && (m <=? 12)
  then Some (combine (ymd2ord y m 1) 0) else None.

Definition weekday (dt : datetime) : Z := (datetime_date dt + 6) mod 7.

(** [datetime(date.year, date.month, date.day)]: the time part dropped. *)
Definition _normalize_date (dt : datetime) : datetime :=
  combine (datetime_date dt) 0.

(** [datetime.today()] only ever supplies one common calendar day to the
    two ends of a time window; every day gives the same comparisons (see
    [_times_overlap_same_day] and [_is_within_range_same_day]), so the
    clock is not modelled and a fixed day stands for it. *)
Definition today : datetime := combine 1 0.

(** ** [StoreHours] *)

Record StoreHours := mkStoreHours {
  hours : gmap DayOfWeek (time * time);
  date_overrides : gmap Z (option (time * time))
}.

(** [get_hours(day, date=None)]: [None] is Python's [None], closed. *)
Definition get_hours (self : StoreHours) (dow : DayOfWeek)
    (d : option datetime) : option (time * time) :=
  match d with
  | Some dt =>
      match date_overrides self !! _normalize_date dt with
      | Some override => override
      | None => hours self !! dow
      end
  | None => hours self !! dow
  end.

Definition is_open (self : StoreHours) (dow : DayOfWeek)
    (d : option datetime) : bool :=
  match d with
  | Some dt =>
      match date_overrides self !! _normalize_date dt with
      | Some override => bool_decide (override ≠ None)
      | None => bool_decide (is_Some (hours self !! dow))
      end
  | None => bool_decide (is_Some (hours self !! dow))
  end.

(** ** [Employee]

    The legacy fields [preferred_start_time], [preferred_end_time] and
    [preferred_times_by_day] are read by [get_preferred_times] only, which
    the engine never calls; they are left out. *)

Record Employee := mkEmployee {
  name : string;
  preferred_days : list DayOfWeek;
  available_times_by_day : gmap DayOfWeek (time * time);
  unavailable_days : list DayOfWeek;
  unavailable_times_by_day : gmap DayOfWeek (time * time);
  preferred_dates : list datetime;
  preferred_times_by_date : gmap Z (time * time);
  unavailable_dates : list datetime;
  unavailable_times_by_date : gmap Z (time * time);
  available_times_by_date : gmap Z (time * time);
  max_hours_per_month : Q;
  min_hours_per_shift : Q;
  max_hours_per_shift : Q
}.

Definition can_work (self : Employee) (dow : DayOfWeek) : bool :=
  bool_decide (dow ∉ unavailable_days self).

Definition _time_to_datetime (date_or_today : datetime) (t : time)
    : datetime :=
  combine (datetime_date date_or_today) t.

Definition _times_overlap (start1 end1 start2 end2 : datetime) : bool :=
  let end1 := if end1 <? start1 then end1 + US_PER_DAY else end1 in
  let end2 := if end2 <? start2 then end2 + US_PER_DAY else end2 in
  (start1 <? end2) && (start2 <? end1).

Definition _is_within_range (start end_ range_start range_end : datetime)
    : bool :=
  let end_ := if end_ <? start then end_ + US_PER_DAY else end_ in
  let range_end :=
    if range_end <? range_start then range_end + US_PER_DAY else range_end in
  (range_start <=? start) && (end_ <=? range_end).

(** The weekday part of [is_available_at_time] (from the comment
    "Day-of-week preferences" on). *)
Definition weekday_available (self : Employee) (dow : DayOfWeek)
    (start_time end_time : time) : bool :=
  if bool_decide (dow ∈ unavailable_days self)
     && bool_decide (unavailable_times_by_day self !! dow = None)
  then false
  else
    let base_date := today in
    let shift_start := _time_to_datetime base_date start_time in
    let shift_end := _time_to_datetime base_date end_time in
    let blocked :=
      match unavailable_times_by_day self !! dow with
      | Some (unavail_start, unavail_end) =>
          _times_overlap shift_start shift_end
            (_time_to_datetime base_date unavail_start)
            (_time_to_datetime base_date unavail_end)
      | None => false
      end in
    if blocked then false
    else
      match available_times_by_day self !! dow with
      | Some (avail_start, avail_end) =>
          _is_within_range shift_start shift_end
            (_time_to_datetime base_date avail_start)
            (_time_to_datetime base_date avail_end)
      | None => true
      end.

Definition is_available_at_time (self : Employee) (dow : DayOfWeek)
    (start_time end_time : time) (d : option datetime) : bool :=
  match d with
  | Some dt =>
      let date_only := _normalize_date dt in
      let base_date := dt in
      let shift_start := _time_to_datetime base_date start_time in
      let shift_end := _time_to_datetime base_date end_time in
      if bool_decide (date_only ∈ unavailable_dates self) then
        match unavailable_times_by_date self !! date_only with
        | Some (unavail_start, unavail_end) =>
            negb (_times_overlap shift_start shift_end
                    (_time_to_datetime base_date unavail_start)
                    (_time_to_datetime base_date unavail_end))
        | None => false
        end
      else
        match available_times_by_date self !! date_only with
        | Some (avail_start, avail_end) =>
            _is_within_range shift_start shift_end
              (_time_to_datetime base_date avail_start)
              (_time_to_datetime base_date avail_end)
        | None => weekday_available self dow start_time end_time
        end
  | None => weekday_available self dow start_time end_time
  end.

Definition prefers_day (self : Employee) (dow : DayOfWeek)
    (d : option datetime) : bool :=
  match d with
  | Some dt =>
      let date_only := _normalize_date dt in
      if bool_decide (date_only ∈ preferred_dates self) then true
      else if bool_decide (is_Some (preferred_times_by_date self !! date_only))
      then true
      else bool_decide (dow ∈ preferred_days self)
  | None => bool_decide (dow ∈ preferred_days self)
  end.

(** ** [Shift] and [Schedule] *)

Record Shift := mkShift {
  employee_name : string;
  day : DayOfWeek;
  start_time : time;
  end_time : time;
  date : option datetime
}.

#[global] Instance Shift_eq_dec : EqDecision Shift.
Proof. solve_decision. Defined.

(** The length of the window from [s] to [e], a day added to [e] when it
    lies before [s]. *)
Definition wrapped_span (s e : time) : timedelta :=
  (if e <? s then e + US_PER_DAY else e) - s.

Definition duration_hours (self : Shift) : Q :=
  hours_of (wrapped_span (start_time self) (end_time self)).

Record Schedule := mkSchedule {
  month : Z;
  year : Z;
  shifts : list Shift
}.

Definition add_shift (self : Schedule) (s : Shift) : Schedule :=
  {| month := month self; year := year self; shifts := shifts self ++ [s] |}.

Definition get_shifts_for_employee (self : Schedule) (n : string)
    : list Shift :=
  filter (fun s => employee_name s = n) (shifts self).

(** [sum(...)]: the additions from the left, starting at 0. *)
Definition qsum (l : list Q) : Q := foldl Qplus 0%Q l.

Definition get_total_hours_for_employee (self : Schedule) (n : string) : Q :=
  qsum (map duration_hours (get_shifts_for_employee self n)).

Definition get_shifts_for_day (self : Schedule) (dow : DayOfWeek)
    (d : option datetime) : list Shift :=
  match d with
  | Some dt => filter (fun s => day s = dow ∧ date s = Some dt) (shifts self)
  | None => filter (fun s => day s = dow) (shifts self)
  end.

(** ** [ShiftScheduler] *)

Record ShiftScheduler := mkShiftScheduler {
  employees : list Employee;
  store_hours : StoreHours
}.

(** [employee_hours[n]] and [employee_hours.get(n, 0)].  Indexing a missing
    key raises [KeyError] in Python; [generate_schedule] enters every name
    of the roster before the first day and no key is ever removed, so the
    engine only indexes keys that are present (see
    [generate_schedule_state_sound]). *)
Definition hours_get (employee_hours : gmap string Q) (n : string) : Q :=
  default 0%Q (employee_hours !! n).

(** [employee_hours[n] += h]. *)
Definition hours_add (employee_hours : gmap string Q) (n : string) (h : Q)
    : gmap string Q :=
  <[n := (hours_get employee_hours n + h)%Q]> employee_hours.

(** The filter of both list comprehensions over [self.employees]. *)
Definition has_capacity (employee_hours : gmap string Q) (dow : DayOfWeek)
    (emp : Employee) : bool :=
  can_work emp dow
  && Qlt_bool (hours_get employee_hours (name emp)) (max_hours_per_month emp).

(** The sort key [(not e.prefers_day(day, date), hours / cap)] and the
    order of Python tuples on it.  The division is by the cap of an
    employee that passed [has_capacity], which is positive (see
    [has_capacity_cap_positive]), so [ZeroDivisionError] does not arise. *)
Definition sort_key (employee_hours : gmap string Q) (dow : DayOfWeek)
    (d : datetime) (e : Employee) : bool * Q :=
  (negb (prefers_day e dow (Some d)),
   (hours_get employee_hours (name e) / max_hours_per_month e)%Q).

Definition key_lt (k1 k2 : bool * Q) : bool :=
  match k1.1, k2.1 with
  | false, true => true
  | true, false => false
  | _, _ => Qlt_bool k1.2 k2.2
  end.

(** [list.sort(key=...)]: a stable sort, written as an insertion sort that
    never moves an element in front of an earlier one with an equal key. *)
Fixpoint insert_by {A} (lt : A -> A -> bool) (x : A) (l : list A) : list A :=
  match l with
  | [] => [x]
  | y :: l' => if lt y x then y :: insert_by lt x l' else x :: l
  end.

Definition sort_by {A} (lt : A -> A -> bool) (l : list A) : list A :=
  foldr (insert_by lt) [] l.

Definition sort_employees (employee_hours : gmap string Q) (dow : DayOfWeek)
    (d : datetime) (l : list Employee) : list Employee :=
  sort_by (fun a b => key_lt (sort_key employee_hours dow d a)
                             (sort_key employee_hours dow d b)) l.

(** [sorted(set(l), reverse=True)]: the distinct values, largest first. *)
Fixpoint insert_desc (x : Q) (l : list Q) : list Q :=
  match l with
  | [] => [x]
  | y :: l' =>
      if Qeq_bool x y then l
      else if Qlt_bool y x then x :: l
      else y :: insert_desc x l'
  end.

Definition sorted_set_desc (l : list Q) : list Q := foldr insert_desc [] l.

(** [min(emp.min_hours_per_shift for emp in l) if l else 0]. *)
Definition min_shift_duration_of (l : list Employee) : Q :=
  match l with
  | [] => 0%Q
  | e :: l' => foldl (fun m e' => qmin m (min_hours_per_shift e'))
                     (min_hours_per_shift e) l'
  end.

(** The variables of the [while] loop of [_generate_shifts_for_day]. *)
Record DayState := mkDayState {
  ds_shifts : list Shift;
  ds_current_dt : datetime;
  ds_last_current_dt : option datetime;
  ds_employee_hours : gmap string Q
}.

(** Lines 209-220 and 237-246: build the shift from the cursor to [end_dt],
    append it, add its hours, move the cursor. *)
Definition place_shift (dow : DayOfWeek) (d : datetime) (emp : Employee)
    (end_dt : datetime) (st : DayState) : DayState :=
  let shift := {| employee_name := name emp; day := dow;
                  start_time := datetime_time (ds_current_dt st);
                  end_time := datetime_time end_dt;
                  date := Some d |} in
  {| ds_shifts := ds_shifts st ++ [shift];
     ds_current_dt := end_dt;
     ds_last_current_dt := ds_last_current_dt st;
     ds_employee_hours :=
       hours_add (ds_employee_hours st) (name emp) (duration_hours shift) |}.

(** [allow_short_shift] of lines 189-194. *)
Definition allow_short_shift (nshifts : nat) (actual_shift_duration
    remaining_time min_hours : Q) : bool :=
  bool_decide (nshifts = 0%nat)
  && (Qle_bool (remaining_time * 0.8) actual_shift_duration
      || Qlt_bool remaining_time min_hours).

(** The two [continue] tests of lines 196-199: [true] when the candidate
    duration is skipped. *)
Definition rejects_duration (nshifts : nat) (actual_shift_duration
    remaining_time min_hours : Q) : bool :=
  let allow := allow_short_shift nshifts actual_shift_duration
                 remaining_time min_hours in
  (Qlt_bool actual_shift_duration min_hours && negb allow)
  || (allow && Qlt_bool actual_shift_duration 1).

(** The [for actual_shift_duration in potential_durations] loop: the end of
    the first duration that passes every test, if any. *)
Fixpoint try_durations (emp : Employee) (dow : DayOfWeek) (d : datetime)
    (nshifts : nat) (current_dt close_dt : datetime) (remaining_time : Q)
    (potential_durations : list Q) : option datetime :=
  match potential_durations with
  | [] => None
  | actual_shift_duration :: rest =>
      let next := try_durations emp dow d nshifts current_dt close_dt
                    remaining_time rest in
      if rejects_duration nshifts actual_shift_duration remaining_time
           (min_hours_per_shift emp)
      then next
      else
        let end_dt := current_dt + timedelta_hours actual_shift_duration in
        let clipped := bool_decide (close_dt < end_dt) in
        let end_dt := if clipped then close_dt else end_dt in
        if clipped
           && Qlt_bool (hours_of (end_dt - current_dt))
                (min_hours_per_shift emp)
        then next
        else if is_available_at_time emp dow (datetime_time current_dt)
                  (datetime_time end_dt) (Some d)
        then Some end_dt
        else next
  end.

Definition potential_durations (shift_duration remaining_hours
    remaining_time : Q) : list Q :=
  sorted_set_desc
    [qmin (qmin shift_duration remaining_hours) remaining_time;
     qmin remaining_hours remaining_time;
     remaining_time].

(** The inner [while attempts < len(available_employees) and not
    shift_created] loop; [fuel] is the number of attempts left and
    [employee_index] the running index. *)
Fixpoint try_employees (fuel : nat) (employee_index : nat)
    (available_employees : list Employee) (dow : DayOfWeek) (d : datetime)
    (shift_duration : Q) (close_dt : datetime) (remaining_time : Q)
    (st : DayState) : option (Employee * datetime) :=
  match fuel with
  | O => None
  | S fuel' =>
      match available_employees
              !! (employee_index mod length available_employees)%nat with
      | None => None
      | Some emp =>
          let remaining_hours :=
            (max_hours_per_month emp
             - hours_get (ds_employee_hours st) (name emp))%Q in
          match try_durations emp dow d (length (ds_shifts st))
                  (ds_current_dt st) close_dt remaining_time
                  (potential_durations shift_duration remaining_hours
                     remaining_time) with
          | Some end_dt => Some (emp, end_dt)
          | None =>
              try_employees fuel' (S employee_index) available_employees
                dow d shift_duration close_dt remaining_time st
          end
      end
  end.

(** Lines 232-248, "Try minimal shift duration as last resort". *)
Fixpoint try_minimal (available_employees : list Employee) (dow : DayOfWeek)
    (d : datetime) (close_dt : datetime) (remaining_time : Q)
    (current_dt : datetime) : option (Employee * datetime) :=
  match available_employees with
  | [] => None
  | emp :: rest =>
      let min_duration := min_hours_per_shift emp in
      let next := try_minimal rest dow d close_dt remaining_time current_dt in
      if Qle_bool min_duration remaining_time then
        let end_dt := Z.min (current_dt + timedelta_hours min_duration)
                        close_dt in
        if is_available_at_time emp dow (datetime_time current_dt)
             (datetime_time end_dt) (Some d)
        then Some (emp, end_dt)
        else next
      else next
  end.

(** One pass through the body of the outer [while]; the boolean is [false]
    when the pass ends in [break]. *)
Definition day_step (self : ShiftScheduler) (dow : DayOfWeek) (d : datetime)
    (close_dt : datetime) (shift_duration : Q) (st : DayState)
    : DayState * bool :=
  let available_employees :=
    filter (fun emp => has_capacity (ds_employee_hours st) dow emp = true)
      (employees self) in
  if bool_decide (available_employees = []) then (st, false)
  else
    let available_employees :=
      sort_employees (ds_employee_hours st) dow d available_employees in
    let remaining_time := hours_of (close_dt - ds_current_dt st) in
    let min_shift_duration := min_shift_duration_of available_employees in
    if Qlt_bool remaining_time min_shift_duration
       && (bool_decide (0 < length (ds_shifts st))%nat
           || Qlt_bool remaining_time 0.25)
    then (st, false)
    else
      match try_employees (length available_employees) 0 available_employees
              dow d shift_duration close_dt remaining_time st with
      | Some (emp, end_dt) => (place_shift dow d emp end_dt st, true)
      | None =>
          match (if bool_decide (length (ds_shifts st) = 0%nat)
                 then try_minimal available_employees dow d close_dt
                        remaining_time (ds_current_dt st)
                 else None) with
          | Some (emp, end_dt) => (place_shift dow d emp end_dt st, true)
          | None =>
              let next_dt := ds_current_dt st + QUARTER_HOUR in
              if bool_decide (ds_last_current_dt st = Some (ds_current_dt st))
                 || bool_decide (close_dt <= next_dt)
              then (st, false)
              else ({| ds_shifts := ds_shifts st;
                       ds_current_dt := next_dt;
                       ds_last_current_dt := Some (ds_current_dt st);
                       ds_employee_hours := ds_employee_hours st |}, true)
          end
      end.

(** [while current_dt < close_dt and iteration < max_iterations]: [fuel]
    is the number of passes left. *)
Fixpoint day_loop (fuel : nat) (self : ShiftScheduler) (dow : DayOfWeek)
    (d : datetime) (close_dt : datetime) (shift_duration : Q) (st : DayState)
    : DayState :=
  match fuel with
  | O => st
  | S fuel' =>
      if bool_decide (ds_current_dt st < close_dt) then
        match day_step self dow d close_dt shift_duration st with
        | (st', true) => day_loop fuel' self dow d close_dt shift_duration st'
        | (st', false) => st'
        end
      else st
  end.

Definition max_iterations : nat := 1000.

(** [int(x)] and the float [x % y]. *)
Definition Qint (x : Q) : Z := Z.quot (Qnum x) (Zpos (Qden x)).
Definition Qfmod (x y : Q) : Q := (x - y * inject_Z (Qfloor (x / y)))%Q.

(** Lines 118-128. *)
Definition target_shift_duration (total_hours : Q) : Q :=
  if Qle_bool total_hours 6 then total_hours
  else
    let max_shift_hours := 8%Q in
    let num_people :=
      Z.max 2 (Qint (total_hours / max_shift_hours)
               + (if Qlt_bool 0 (Qfmod total_hours max_shift_hours)
                  then 1 else 0)) in
    (total_hours / inject_Z num_people)%Q.

(** In the fallback [date_only] is [date.date()], a plain [date], while
    [unavailable_dates] and the keys of [unavailable_times_by_date] are
    [datetime] values.  Python never finds a [date] equal to a [datetime]
    (the comparison of [datetime] answers [False] for a plain [date]), so
    both membership tests of lines 266-267 fail whatever the values. *)
Definition date_eq_datetime (d : pydate) (dt : datetime) : bool := false.

Definition date_in_datetimes (d : pydate) (l : list datetime) : bool :=
  existsb (date_eq_datetime d) l.

Definition date_in_keys {V} (d : pydate) (m : gmap Z V) : bool :=
  existsb (date_eq_datetime d) (map fst (map_to_list m)).

(** The filter of [available_fallback], lines 261-268. *)
Definition fallback_candidate (dow : DayOfWeek) (date_only : pydate)
    (emp : Employee) : bool :=
  can_work emp dow
  && bool_decide (dow ∉ unavailable_days emp)
  && negb (date_in_datetimes date_only (unavailable_dates emp)
           && negb (date_in_keys date_only (unavailable_times_by_date emp))).

(** Lines 258-288, entered when the loop left [shifts] empty. *)
Definition fallback (self : ShiftScheduler) (dow : DayOfWeek) (d : datetime)
    (open_time : time) (open_dt close_dt : datetime)
    (employee_hours : gmap string Q) : list Shift * gmap string Q :=
  let date_only := datetime_date d in
  let available_fallback :=
    filter (fun emp => fallback_candidate dow date_only emp = true)
      (employees self) in
  match available_fallback with
  | [] => ([], employee_hours)
  | emp :: _ =>
      let total_hours_available := hours_of (close_dt - open_dt) in
      if Qlt_bool 0 total_hours_available then
        let remaining_hours :=
          (max_hours_per_month emp - hours_get employee_hours (name emp))%Q in
        let shift_duration :=
          qmin (qmin total_hours_available (qmax remaining_hours 1)) 8 in
        let shift_duration :=
          if Qle_bool 1 total_hours_available then qmax shift_duration 1
          else shift_duration in
        if Qlt_bool 0 shift_duration then
          let end_dt := Z.min (open_dt + timedelta_hours shift_duration)
                          close_dt in
          let shift := {| employee_name := name emp; day := dow;
                          start_time := open_time;
                          end_time := datetime_time end_dt;
                          date := Some d |} in
          ([shift], hours_add employee_hours (name emp) (duration_hours shift))
        else ([], employee_hours)
      else ([], employee_hours)
  end.

(** The opening and closing instants of lines 90-93. *)
Definition open_dt_of (d : datetime) (open_time : time) : datetime :=
  combine (datetime_date d) open_time.

Definition close_dt_of (d : datetime) (open_time close_time : time)
    : datetime :=
  let close_dt := combine (datetime_date d) close_time in
  if close_dt <? open_dt_of d open_time then close_dt + US_PER_DAY
  else close_dt.

(** The state the outer loop starts from and the state it ends in. *)
Definition main_loop (self : ShiftScheduler) (dow : DayOfWeek) (d : datetime)
    (open_time close_time : time) (employee_hours : gmap string Q)
    : DayState :=
  let open_dt := open_dt_of d open_time in
  let close_dt := close_dt_of d open_time close_time in
  day_loop max_iterations self dow d close_dt
    (target_shift_duration (hours_of (close_dt - open_dt)))
    {| ds_shifts := []; ds_current_dt := open_dt;
       ds_last_current_dt := None; ds_employee_hours := employee_hours |}.

(** [_generate_shifts_for_day]: the shifts of the day and the dictionary
    after it.  The sort of [initial_available_employees] (lines 111-116)
    has no effect on the result: the list is only tested for emptiness. *)
Definition _generate_shifts_for_day (self : ShiftScheduler) (dow : DayOfWeek)
    (d : datetime) (open_time close_time : time)
    (employee_hours : gmap string Q) : list Shift * gmap string Q :=
  let initial_available_employees :=
    filter (fun emp => has_capacity employee_hours dow emp = true)
      (employees self) in
  if bool_decide (initial_available_employees = []) then ([], employee_hours)
  else
    let st := main_loop self dow d open_time close_time employee_hours in
    if bool_decide (length (ds_shifts st) = 0%nat) then
      fallback self dow d open_time (open_dt_of d open_time)
        (close_dt_of d open_time close_time) (ds_employee_hours st)
    else (ds_shifts st, ds_employee_hours st).

(** [_get_dates_in_month].  [datetime(year, month, 1)] raises [ValueError]
    on a year or month out of range, and stepping past 9999-12-31 raises
    [OverflowError]; otherwise the loop collects the consecutive days of
    the month. *)
Definition _get_dates_in_month (y m : Z) : option (list datetime) :=
  match first_of_month y m with
  | None => None
  | Some first =>
      if (y =? 9999) && (m =? 12) then None
      else Some (map (fun i => first + i * US_PER_DAY)
                   (seqZ 0 (days_in_month y m)))
  end.

(** The body of [for date in dates] applied to the schedule and the
    dictionary built so far. *)
Definition schedule_date (self : ShiftScheduler)
    (acc : Schedule * gmap string Q) (d : datetime)
    : Schedule * gmap string Q :=
  match DayOfWeek_of_value (weekday d) with
  | None => acc
  | Some day_of_week =>
      if negb (is_open (store_hours self) day_of_week (Some d)) then acc
      else
        match get_hours (store_hours self) day_of_week (Some d) with
        | None => acc
        | Some (open_time, close_time) =>
            let '(day_shifts, employee_hours) :=
              _generate_shifts_for_day self day_of_week d open_time
                close_time acc.2 in
            (foldl add_shift acc.1 day_shifts, employee_hours)
        end
  end.

Definition initial_hours (l : list Employee) : gmap string Q :=
  list_to_map (map (fun emp => (name emp, 0%Q)) l).

(** [generate_schedule]: [None] stands for the exception raised on a month
    that [datetime] refuses. *)
Definition generate_schedule_state (self : ShiftScheduler) (y m : Z)
    : option (Schedule * gmap string Q) :=
  match _get_dates_in_month y m with
  | None => None
  | Some dates =>
      Some (foldl (schedule_date self)
              ({| month := m; year := y; shifts := [] |},
               initial_hours (employees self)) dates)
  end.

Definition generate_schedule (self : ShiftScheduler) (y m : Z)
    : option Schedule :=
  fst <$> generate_schedule_state self y m.

(** * Properties and example inputs *)

(** [Employee(name=n, preferred_days=prefs, max_hours_per_month=cap)]:
    every other field at the default of the dataclass. *)
Definition default_employee (n : string) (prefs : list DayOfWeek) (cap : Q)
    : Employee :=
  {| name := n; preferred_days := prefs; available_times_by_day := ∅;
     unavailable_days := []; unavailable_times_by_day := ∅;
     preferred_dates := []; preferred_times_by_date := ∅;
     unavailable_dates := []; unavailable_times_by_date := ∅;
     available_times_by_date := ∅;
     max_hours_per_month := cap; min_hours_per_shift := 4;
     max_hours_per_shift := 8 |}.

Definition all_days : list DayOfWeek :=
  [MONDAY; TUESDAY; WEDNESDAY; THURSDAY; FRIDAY; SATURDAY; SUNDAY].

(** [set_hours(day, open_time, close_time)] for every day of the week. *)
Definition open_every_day (open_time close_time : time)
    : gmap DayOfWeek (time * time) :=
  list_to_map (map (fun dow => (dow, (open_time, close_time))) all_days).


(** The rule of the specification for a date-keyed unavailable window:
    available iff the candidate window does not overlap it. *)
Definition clear_of_window (d : datetime) (start_time end_time : time)
    (w : time * time) : bool :=
  negb (_times_overlap (_time_to_datetime d start_time)
          (_time_to_datetime d end_time)
          (_time_to_datetime d w.1) (_time_to_datetime d w.2)).

(** The closing time on the axis of the opening day: a day later when it
    lies before the opening time. *)
Definition wrapped_close (open_time close_time : time) : Z :=
  if close_time <? open_time then close_time + US_PER_DAY else close_time.

(** A stored time of day of a shift on the axis of the opening day: times
    before the opening time belong to the next calendar day. *)
Definition on_open_axis (open_time t : time) : Z :=
  if t <? open_time then t + US_PER_DAY else t.

(** The shifts of [l], in order, follow one another between [lo] and [hi]
    on the axis of the opening day: each starts no earlier than the
    previous one ends and ends no earlier than it starts. *)
Fixpoint in_sequence (open_time : time) (lo : Z) (l : list Shift) (hi : Z)
    : Prop :=
  match l with
  | [] => lo <= hi
  | s :: l' =>
      lo <= on_open_axis open_time (start_time s)
      /\ on_open_axis open_time (start_time s)
         <= on_open_axis open_time (end_time s)
      /\ in_sequence open_time (on_open_axis open_time (end_time s)) l' hi
  end.

(** The same on the stored times as they are. *)
Fixpoint in_sequence_stored (lo : Z) (l : list Shift) (hi : Z) : Prop :=
  match l with
  | [] => lo <= hi
  | s :: l' =>
      lo <= start_time s /\ start_time s <= end_time s
      /\ in_sequence_stored (end_time s) l' hi
  end.

(** Every time of day held by the store hours is one Python can hold. *)
Definition valid_window (w : time * time) : Prop :=
  valid_time w.1 /\ valid_time w.2.

Definition store_hours_valid (sh : StoreHours) : Prop :=
  map_Forall (fun _ w => valid_window w) (hours sh)
  /\ map_Forall (fun _ override => from_option valid_window True override)
       (date_overrides sh).

(** No employee of the roster has a negative minimum shift length. *)
Definition min_shifts_nonneg (l : list Employee) : Prop :=
  Forall (fun emp => (0 <= min_hours_per_shift emp)%Q) l.

(** The property of the specification on one shift: its start is at or
    after the opening time, and its end, a day added when it lies before
    the start, is at or before the closing time, a day added when it lies
    before the opening time. *)
Definition inside_hours (open_time close_time : time) (s : Shift) : Prop :=
  open_time <= start_time s
  /\ (if end_time s <? start_time s then end_time s + US_PER_DAY
      else end_time s) <= wrapped_close open_time close_time.

(** 15 January 2024, a Monday, and 1 April 2024, a Monday. *)
Definition jan15 : datetime := combine (ymd2ord 2024 1 15) 0.
Definition apr1 : datetime := combine (ymd2ord 2024 4 1) 0.

(** Scenario C: open 10:00-20:00 on 15 January 2024 only, two employees
    with no restriction, both preferring Mondays. *)
Definition scenario_C : ShiftScheduler :=
  {| employees := [default_employee "A" [MONDAY] 160;
                   default_employee "B" [MONDAY] 160];
     store_hours :=
       {| hours := ∅;
          date_overrides := {[ jan15 := Some (hm 10 0, hm 20 0) ]} |} |}.

(** One employee with a cap of 5 hours, store open 09:00-15:00 every day. *)
Definition low_cap : ShiftScheduler :=
  {| employees := [default_employee "A" [] 5];
     store_hours := {| hours := open_every_day (hm 9 0) (hm 15 0);
                       date_overrides := ∅ |} |}.

(** An employee whose only rule is an unavailable window 12:00-14:00 on
    15 January 2024, stored the way the preference editor stores it: in
    [unavailable_times_by_date], with no entry in [unavailable_dates]. *)
Definition windowed_employee : Employee :=
  {| name := "A"; preferred_days := []; available_times_by_day := ∅;
     unavailable_days := []; unavailable_times_by_day := ∅;
     preferred_dates := []; preferred_times_by_date := ∅;
     unavailable_dates := [];
     unavailable_times_by_date := {[ jan15 := (hm 12 0, hm 14 0) ]};
     available_times_by_date := ∅;
     max_hours_per_month := 160; min_hours_per_shift := 4;
     max_hours_per_shift := 8 |}.

(** The stored times of a shift are times of day. *)
Definition stored_times_valid (s : Shift) : Prop :=
  valid_time (start_time s) /\ valid_time (end_time s).

(** The invariant of the loop of one day: the cursor stays inside the
    opening hours, the shifts placed so far follow one another up to the
    cursor, and their stored times are times of day. *)
Definition day_inv (d : datetime) (open_time close_time : time)
    (st : DayState) : Prop :=
  open_dt_of d open_time <= ds_current_dt st
    <= close_dt_of d open_time close_time
  /\ in_sequence open_time open_time (ds_shifts st)
       (ds_current_dt st - combine (datetime_date d) 0)
  /\ Forall stored_times_valid (ds_shifts st).

(** A shift of the weekday [dow] and the date [d]. *)
Definition dated (dow : DayOfWeek) (d : datetime) (s : Shift) : Prop :=
  day s = dow /\ date s = Some d.

(** What one pass of the loop over the dates may append for the date [d]:
    nothing, or the shifts of [_generate_shifts_for_day] for the resolved
    hours of [d]. *)
Definition day_output (self : ShiftScheduler) (d : datetime)
    (new : list Shift) : Prop :=
  new = []
  \/ exists dow o c h,
       DayOfWeek_of_value (weekday d) = Some dow
       /\ get_hours (store_hours self) dow (Some d) = Some (o, c)
       /\ new = (_generate_shifts_for_day self dow d o c h).1.

(** The shifts of [l] that carry the date [d]. *)
Definition shifts_dated (d : datetime) (l : list Shift) : list Shift :=
  filter (fun s => date s = Some d) l.

(** The shift lies inside the opening hours on the axis of the opening
    day. *)
Definition inside_hours_on_axis (open_time close_time : time) (s : Shift)
    : Prop :=
  open_time <= on_open_axis open_time (start_time s)
  /\ on_open_axis open_time (start_time s)
     <= on_open_axis open_time (end_time s)
  /\ on_open_axis open_time (end_time s)
     <= wrapped_close open_time close_time.

(** The opening hours resolved for the date of the shift. *)
Definition resolved_hours (self : ShiftScheduler) (s : Shift)
    (open_time close_time : time) : Prop :=
  exists d, date s = Some d
    /\ DayOfWeek_of_value (weekday d) = Some (day s)
    /\ get_hours (store_hours self) (day s) (Some d)
       = Some (open_time, close_time).

(** Of any two shifts of [l] the earlier one in the list ends, under the
    reading [f] of the stored times, no later than the later one starts,
    and neither ends before it starts. *)
Definition pairwise_in_order (f : Z -> Z) (l : list Shift) : Prop :=
  forall (i j : nat) s1 s2,
    l !! i = Some s1 -> l !! j = Some s2 -> (i < j)%nat ->
    f (start_time s1) <= f (end_time s1)
    /\ f (end_time s1) <= f (start_time s2)
    /\ f (start_time s2) <= f (end_time s2).

(** The months [generate_schedule] accepts. *)
Definition valid_month (y m : Z) : Prop :=
  1 <= y <= 9999 /\ 1 <= m <= 12 /\ ~ (y = 9999 /\ m = 12).

(** A store open 22:00-06:00 on 15 January 2024 only; "A" may only work
    22:00-02:00 on Mondays, "B" has no restriction. *)
Definition late_leaver : Employee :=
  {| name := "A"; preferred_days := [];
     available_times_by_day := {[ MONDAY := (hm 22 0, hm 2 0) ]};
     unavailable_days := []; unavailable_times_by_day := ∅;
     preferred_dates := []; preferred_times_by_date := ∅;
     unavailable_dates := []; unavailable_times_by_date := ∅;
     available_times_by_date := ∅;
     max_hours_per_month := 160; min_hours_per_shift := 4;
     max_hours_per_shift := 8 |}.

Definition night_shop : ShiftScheduler :=
  {| employees := [late_leaver; default_employee "B" [] 160];
     store_hours :=
       {| hours := ∅;
          date_overrides := {[ jan15 := Some (hm 22 0, hm 6 0) ]} |} |}.

Definition night_shift_A : Shift :=
  {| employee_name := "A"; day := MONDAY; start_time := hm 22 0;
     end_time := hm 2 0; date := Some jan15 |}.

Definition night_shift_B : Shift :=
  {| employee_name := "B"; day := MONDAY; start_time := hm 2 0;
     end_time := hm 6 0; date := Some jan15 |}.

(** A store open 09:00-09:30 on 15 January 2024 only, and an employee
    configured with a minimum shift length of minus one hour. *)
Definition negative_min : Employee :=
  {| name := "A"; preferred_days := []; available_times_by_day := ∅;
     unavailable_days := []; unavailable_times_by_day := ∅;
     preferred_dates := []; preferred_times_by_date := ∅;
     unavailable_dates := []; unavailable_times_by_date := ∅;
     available_times_by_date := ∅;
     max_hours_per_month := 160; min_hours_per_shift := -1;
     max_hours_per_shift := 8 |}.

Definition half_hour_shop : ShiftScheduler :=
  {| employees := [negative_min];
     store_hours :=
       {| hours := ∅;
          date_overrides := {[ jan15 := Some (hm 9 0, hm 9 30) ]} |} |}.

Definition backwards_shift : Shift :=
  {| employee_name := "A"; day := MONDAY; start_time := hm 9 0;
     end_time := hm 8 0; date := Some jan15 |}.

Definition early_shift : Shift :=
  {| employee_name := "A"; day := MONDAY; start_time := hm 8 0;
     end_time := hm 9 30; date := Some jan15 |}.

(** "Marked wholly unavailable for that weekday/date" in the words of the
    specification: the weekday is in [unavailable_days], or the date has a
    whole-day unavailable mark with no accompanying time window. *)
Definition wholly_unavailable (emp : Employee) (dow : DayOfWeek)
    (d : datetime) : Prop :=
  dow ∈ unavailable_days emp
  \/ (_normalize_date d ∈ unavailable_dates emp
      /\ unavailable_times_by_date emp !! _normalize_date d = None).

(** The length of the fallback shift in the words of the specification:
    min(total day hours, max(remaining monthly budget, 1 hour), 8 hours). *)
Definition fallback_length (total_hours remaining_hours : Q) : Q :=
  qmin (qmin total_hours (qmax remaining_hours 1)) 8.

(** The fallback shift of the specification for [emp]: it starts at the
    opening time and lasts [fallback_length], clipped to the closing
    time. *)
Definition fallback_shift (emp : Employee) (dow : DayOfWeek) (d : datetime)
    (open_time close_time : time) (employee_hours : gmap string Q) : Shift :=
  let open_dt := open_dt_of d open_time in
  let close_dt := close_dt_of d open_time close_time in
  let length :=
    fallback_length (hours_of (close_dt - open_dt))
      (max_hours_per_month emp - hours_get employee_hours (name emp)) in
  {| employee_name := name emp; day := dow; start_time := open_time;
     end_time := datetime_time (Z.min (open_dt + timedelta_hours length)
                                  close_dt);
     date := Some d |}.

(** An employee unavailable 09:00-15:00 on Mondays (a time window, not a
    whole-day mark), and a store open 09:00-15:00 on 15 January 2024. *)
Definition blocked_employee : Employee :=
  {| name := "A"; preferred_days := []; available_times_by_day := ∅;
     unavailable_days := [];
     unavailable_times_by_day := {[ MONDAY := (hm 9 0, hm 15 0) ]};
     preferred_dates := []; preferred_times_by_date := ∅;
     unavailable_dates := []; unavailable_times_by_date := ∅;
     available_times_by_date := ∅;
     max_hours_per_month := 160; min_hours_per_shift := 4;
     max_hours_per_shift := 8 |}.

Definition blocked_shop : ShiftScheduler :=
  {| employees := [blocked_employee];
     store_hours :=
       {| hours := ∅;
          date_overrides := {[ jan15 := Some (hm 9 0, hm 15 0) ]} |} |}.

(** One employee with a cap of 6 hours, store open 09:00-15:00 every day;
    2 April 2024 is a Tuesday. *)
Definition exact_cap : ShiftScheduler :=
  {| employees := [default_employee "A" [] 6];
     store_hours := {| hours := open_every_day (hm 9 0) (hm 15 0);
                       date_overrides := ∅ |} |}.

Definition apr2 : datetime := combine (ymd2ord 2024 4 2) 0.

(** The shift that covers the whole opening hours. *)
Definition whole_day_shift (emp : Employee) (dow : DayOfWeek) (d : datetime)
    (open_time close_time : time) : Shift :=
  {| employee_name := name emp; day := dow;
     start_time := datetime_time (open_dt_of d open_time);
     end_time := datetime_time (close_dt_of d open_time close_time);
     date := Some d |}.

(** Scenario B: one employee named [n] with no restriction and a cap of
    1000 hours, store open 09:00-15:00 on every day of the week. *)
Definition scenario_B (n : string) (prefs : list DayOfWeek) : ShiftScheduler :=
  {| employees := [default_employee n prefs 1000];
     store_hours := {| hours := open_every_day (hm 9 0) (hm 15 0);
                       date_overrides := ∅ |} |}.

(** [DayOfWeek(d.weekday())]. *)
Definition day_of_week (d : datetime) : DayOfWeek :=
  default MONDAY (DayOfWeek_of_value (weekday d)).

(** The shift 09:00-15:00 of [n] on the date [d]. *)
Definition six_hour_shift (n : string) (d : datetime) : Shift :=
  {| employee_name := n; day := day_of_week d; start_time := hm 9 0;
     end_time := hm 15 0; date := Some d |}.

(** "A" carries a whole-day unavailable mark for 15 January 2024; "B" is
    unavailable 09:00-15:00 on Mondays by a time window.  The store is open
    09:00-15:00 on that date. *)
Definition marked_employee : Employee :=
  {| name := "A"; preferred_days := []; available_times_by_day := ∅;
     unavailable_days := []; unavailable_times_by_day := ∅;
     preferred_dates := []; preferred_times_by_date := ∅;
     unavailable_dates := [jan15]; unavailable_times_by_date := ∅;
     available_times_by_date := ∅;
     max_hours_per_month := 160; min_hours_per_shift := 4;
     max_hours_per_shift := 8 |}.

Definition windowed_B : Employee :=
  {| name := "B"; preferred_days := []; available_times_by_day := ∅;
     unavailable_days := [];
     unavailable_times_by_day := {[ MONDAY := (hm 9 0, hm 15 0) ]};
     preferred_dates := []; preferred_times_by_date := ∅;
     unavailable_dates := []; unavailable_times_by_date := ∅;
     available_times_by_date := ∅;
     max_hours_per_month := 160; min_hours_per_shift := 4;
     max_hours_per_shift := 8 |}.

Definition marked_shop : ShiftScheduler :=
  {| employees := [marked_employee; windowed_B];
     store_hours :=
       {| hours := ∅;
          date_overrides := {[ jan15 := Some (hm 9 0, hm 15 0) ]} |} |}.

(** Every name of the roster is a key of the dictionary, and no
    accumulated value is negative. *)
Definition hours_sound (l : list Employee) (h : gmap string Q) : Prop :=
  (forall e, e ∈ l -> is_Some (h !! name e))
  /\ map_Forall (fun _ q => (0 <= q)%Q) h.

(** Scenario E: store open 09:00-15:00 every day of the week, with an
    override that closes Monday 15 January 2024. *)
Definition scenario_E : ShiftScheduler :=
  {| employees := [default_employee "A" [] 1000];
     store_hours := {| hours := open_every_day (hm 9 0) (hm 15 0);
                       date_overrides := {[ jan15 := None ]} |} |}.

(** * The rest of the data model and its callers *)

(** ** The setters of [StoreHours] *)

Definition set_hours (self : StoreHours) (dow : DayOfWeek)
    (open_time close_time : time) : StoreHours :=
  {| hours := <[dow := (open_time, close_time)]> (hours self);
     date_overrides := date_overrides self |}.

Definition set_hours_for_date (self : StoreHours) (d : datetime)
    (open_time close_time : time) : StoreHours :=
  {| hours := hours self;
     date_overrides :=
       <[_normalize_date d := Some (open_time, close_time)]>
         (date_overrides self) |}.

Definition set_closed_for_date (self : StoreHours) (d : datetime)
    : StoreHours :=
  {| hours := hours self;
     date_overrides := <[_normalize_date d := None]> (date_overrides self) |}.

Definition remove_date_override (self : StoreHours) (d : datetime)
    : StoreHours :=
  let date_only := _normalize_date d in
  if bool_decide (is_Some (date_overrides self !! date_only))
  then {| hours := hours self;
          date_overrides := delete date_only (date_overrides self) |}
  else self.

(** [get_date_override]: the outer [None] stands for [KeyError], the inner
    one for a closed override. *)
Definition get_date_override (self : StoreHours) (d : datetime)
    : option (option (time * time)) :=
  let date_only := _normalize_date d in
  if bool_decide (is_Some (date_overrides self !! date_only))
  then date_overrides self !! date_only
  else None.

Definition has_date_override (self : StoreHours) (d : datetime) : bool :=
  bool_decide (is_Some (date_overrides self !! _normalize_date d)).

(** Two instants of the same calendar day. *)
Definition same_day (d d' : datetime) : Prop :=
  datetime_date d = datetime_date d'.

(** ** Properties of a generated schedule *)

(** [sum(s.duration_hours() for s in l if s.employee_name == n)]: the hours
    of [n] in the shifts [l]. *)
Definition hours_in (l : list Shift) (n : string) : Q :=
  qsum (map duration_hours (filter (fun s => employee_name s = n) l)).

(** The shift went through the availability test of the main loop for an
    employee of the roster bearing its name. *)
Definition passed_availability (self : ShiftScheduler) (s : Shift) : Prop :=
  exists emp,
    emp ∈ employees self /\ name emp = employee_name s
    /\ is_available_at_time emp (day s) (start_time s) (end_time s) (date s)
       = true.

(** The dates of the shifts never decrease along the list. *)
Definition dates_in_order (l : list Shift) : Prop :=
  forall (i j : nat) s1 s2 d1 d2,
    l !! i = Some s1 -> l !! j = Some s2 -> (i <= j)%nat ->
    date s1 = Some d1 -> date s2 = Some d2 -> d1 <= d2.

(** The employee with [max_hours_per_shift] set to [f emp], every other
    field as it is. *)
Definition with_max_hours_per_shift (f : Employee -> Q) (emp : Employee)
    : Employee :=
  {| name := name emp; preferred_days := preferred_days emp;
     available_times_by_day := available_times_by_day emp;
     unavailable_days := unavailable_days emp;
     unavailable_times_by_day := unavailable_times_by_day emp;
     preferred_dates := preferred_dates emp;
     preferred_times_by_date := preferred_times_by_date emp;
     unavailable_dates := unavailable_dates emp;
     unavailable_times_by_date := unavailable_times_by_date emp;
     available_times_by_date := available_times_by_date emp;
     max_hours_per_month := max_hours_per_month emp;
     min_hours_per_shift := min_hours_per_shift emp;
     max_hours_per_shift := f emp |}.

(** Of any two elements of [l], the earlier one is related by [R] to the
    later one. *)
Definition in_rank_order {A} (R : A -> A -> Prop) (l : list A) : Prop :=
  forall (i j : nat) a b,
    l !! i = Some a -> l !! j = Some b -> (i < j)%nat -> R a b.

(** ** The calendar, continued

    [_ord2ymd] of the [datetime] module: year, month and day of a
    proleptic Gregorian ordinal, the inverse of [ymd2ord].  It gives the
    attributes [.month] and [.day] of a [datetime]. *)

Definition _DAYS_IN_MONTH : list Z :=
  [-1; 31; 28; 31; 30; 31; 30; 31; 31; 30; 31; 30; 31].

Definition _DAYS_BEFORE_MONTH : list Z :=
  [-1; 0; 31; 59; 90; 120; 151; 181; 212; 243; 273; 304; 334].

Definition table_get (l : list Z) (i : Z) : Z := default 0 (l !! Z.to_nat i).

(** The last lines of [_ord2ymd]: month and day of the [n]-th day of a
    year, counted from 0. *)
Definition month_and_day (n : Z) (leapyear : bool) : Z * Z :=
  let month := Z.shiftr (n + 50) 5 in
  let preceding :=
    table_get _DAYS_BEFORE_MONTH month
    + (if (2 <? month) && leapyear then 1 else 0) in
  if n <? preceding then
    let month := month - 1 in
    let preceding :=
      preceding - (table_get _DAYS_IN_MONTH month
                   + (if (month =? 2) && leapyear then 1 else 0)) in
    (month, n - preceding + 1)
  else (month, n - preceding + 1).

Definition ord2ymd (n : Z) : Z * Z * Z :=
  let n := n - 1 in
  let n400 := n / 146097 in
  let n := n mod 146097 in
  let year := n400 * 400 + 1 in
  let n100 := n / 36524 in
  let n := n mod 36524 in
  let n4 := n / 1461 in
  let n := n mod 1461 in
  let n1 := n / 365 in
  let n := n mod 365 in
  let year := year + n100 * 100 + n4 * 4 + n1 in
  if (n1 =? 4) || (n100 =? 4) then (year - 1, 12, 31)
  else
    let leapyear := (n1 =? 3) && (negb (n4 =? 24) || (n100 =? 3)) in
    let '(month, day) := month_and_day n leapyear in
    (year, month, day).

Definition datetime_month (dt : datetime) : Z :=
  (ord2ymd (datetime_date dt)).1.2.

Definition datetime_day (dt : datetime) : Z :=
  (ord2ymd (datetime_date dt)).2.

(** The ordinal of [date.max], 9999-12-31. *)
Definition MAXORDINAL : Z := 3652059.

(** How a loop run on fuel ends: it returns, it raises, or the fuel runs
    out before it has done either. *)
Inductive LoopOutcome :=
  | Returns (dates : list datetime)
  | Raises
  | OutOfFuel.

(** The [while] loop of [_get_dates_in_month] as it is written: collect
    [current_date] and step one day while the month is the one asked for.
    Stepping past [date.max] raises [OverflowError]. *)
Fixpoint dates_while (fuel : nat) (m : Z) (current_date : datetime)
    : LoopOutcome :=
  match fuel with
  | O => OutOfFuel
  | S fuel' =>
      if datetime_month current_date =? m then
        if MAXORDINAL <? datetime_date current_date + 1 then Raises
        else
          match dates_while fuel' m (current_date + US_PER_DAY) with
          | Returns dates => Returns (current_date :: dates)
          | outcome => outcome
          end
      else Returns []
  end.

(** [_get_dates_in_month] by its loop, run on 32 passes: a month has at
    most 31 days.  [datetime(year, month, 1)] raises [ValueError] on a
    year or month out of range. *)
Definition _get_dates_in_month_loop (y m : Z) : LoopOutcome :=
  match first_of_month y m with
  | None => Raises
  | Some current_date => dates_while 32 m current_date
  end.

(** [get_month_info] of the application: first day, last day, number of
    days and weekday of the first day; [None] when [datetime] refuses one
    of the two dates it builds. *)
Definition get_month_info (y m : Z) : option (datetime * datetime * Z * Z) :=
  match first_of_month y m with
  | None => None
  | Some first_day =>
      let next_month := m mod 12 + 1 in
      let next_year := y + (if m =? 12 then 1 else 0) in
      match first_of_month next_year next_month with
      | None => None
      | Some next_first =>
          let last_day := next_first - US_PER_DAY in
          Some (first_day, last_day, datetime_day last_day, weekday first_day)
      end
  end.

(** ** The preference editor of the application *)

(** [l.remove(x)]: the list without the first occurrence of [x]. *)
Fixpoint list_remove (x : Z) (l : list Z) : list Z :=
  match l with
  | [] => []
  | y :: l' => if decide (y = x) then l' else y :: list_remove x l'
  end.

(** The date-keyed fields of an employee replaced, the others kept. *)
Definition with_date_preferences (emp : Employee)
    (preferred : list datetime) (preferred_times : gmap Z (time * time))
    (unavailable : list datetime) (unavailable_times : gmap Z (time * time))
    (available_times : gmap Z (time * time)) : Employee :=
  {| name := name emp; preferred_days := preferred_days emp;
     available_times_by_day := available_times_by_day emp;
     unavailable_days := unavailable_days emp;
     unavailable_times_by_day := unavailable_times_by_day emp;
     preferred_dates := preferred;
     preferred_times_by_date := preferred_times;
     unavailable_dates := unavailable;
     unavailable_times_by_date := unavailable_times;
     available_times_by_date := available_times;
     max_hours_per_month := max_hours_per_month emp;
     min_hours_per_shift := min_hours_per_shift emp;
     max_hours_per_shift := max_hours_per_shift emp |}.

(** [remove_preference_from_all_lists]: [remove] on the two lists when
    the date is in them, [del] on the three dictionaries when the date is
    a key. *)
Definition remove_preference_from_all_lists (emp : Employee)
    (date_only : datetime) : Employee :=
  let removed (l : list datetime) :=
    if bool_decide (date_only ∈ l) then list_remove date_only l else l in
  with_date_preferences emp
    (removed (preferred_dates emp))
    (delete date_only (preferred_times_by_date emp))
    (removed (unavailable_dates emp))
    (delete date_only (unavailable_times_by_date emp))
    (delete date_only (available_times_by_date emp)).

Definition has_date_preference (emp : Employee) (date_only : datetime)
    : bool :=
  (bool_decide (date_only ∈ preferred_dates emp)
   || bool_decide (date_only ∈ unavailable_dates emp))
  || (bool_decide (is_Some (preferred_times_by_date emp !! date_only))
      || bool_decide (is_Some (unavailable_times_by_date emp !! date_only))
      || bool_decide (is_Some (available_times_by_date emp !! date_only))).

(** The radio button of the editor. *)
Inductive PreferenceType := Preferred | Unavailable | AvailableOnly.

(** The handler of the "Save" / "Set Preference" button of
    [show_employees_page] (the lines from [date_dt = ...] to the
    assignments under [pref_config]): what it does to the employee.
    [editing_pref_date] is the date of the preference being edited, if
    any; [pref_start] and [pref_end] are the hours chosen, if any. *)
Definition set_date_preference (emp : Employee)
    (editing_pref_date : option datetime) (date_dt : datetime)
    (pref_type : PreferenceType) (pref_start pref_end : option time)
    : Employee :=
  let date_only := _normalize_date date_dt in
  let emp :=
    match editing_pref_date with
    | Some old => remove_preference_from_all_lists emp (_normalize_date old)
    | None => emp
    end in
  let emp := remove_preference_from_all_lists emp date_only in
  match pref_start, pref_end with
  | Some s, Some e =>
      match pref_type with
      | Preferred =>
          with_date_preferences emp (preferred_dates emp)
            (<[date_only := (s, e)]> (preferred_times_by_date emp))
            (unavailable_dates emp) (unavailable_times_by_date emp)
            (available_times_by_date emp)
      | Unavailable =>
          with_date_preferences emp (preferred_dates emp)
            (preferred_times_by_date emp) (unavailable_dates emp)
            (<[date_only := (s, e)]> (unavailable_times_by_date emp))
            (available_times_by_date emp)
      | AvailableOnly =>
          with_date_preferences emp (preferred_dates emp)
            (preferred_times_by_date emp) (unavailable_dates emp)
            (unavailable_times_by_date emp)
            (<[date_only := (s, e)]> (available_times_by_date emp))
      end
  | _, _ =>
      match pref_type with
      | Preferred =>
          with_date_preferences emp (preferred_dates emp ++ [date_only])
            (preferred_times_by_date emp) (unavailable_dates emp)
            (unavailable_times_by_date emp) (available_times_by_date emp)
      | Unavailable =>
          with_date_preferences emp (preferred_dates emp)
            (preferred_times_by_date emp)
            (unavailable_dates emp ++ [date_only])
            (unavailable_times_by_date emp) (available_times_by_date emp)
      | AvailableOnly => emp
      end
  end.

(** ** The colours of the calendar views *)

Definition EMPLOYEE_COLOR_PALETTE : list string :=
  ["#2196F3"; "#9C27B0"; "#4CAF50"; "#FF9800"; "#E91E63"; "#00BCD4";
   "#FFEB3B"; "#795548"; "#3F51B5"; "#009688"; "#FF5722"; "#9E9E9E";
   "#607D8B"; "#8BC34A"; "#FFC107"].

(** [EMPLOYEE_COLOR_PALETTE[i % len(EMPLOYEE_COLOR_PALETTE)]]. *)
Definition palette_color (i : nat) : string :=
  default "" (EMPLOYEE_COLOR_PALETTE
                !! (i mod length EMPLOYEE_COLOR_PALETTE)%nat).

(** [get_employee_colors]: the dictionary filled in the order of
    [enumerate(employee_list)]. *)
Definition get_employee_colors (employee_list : list string)
    : gmap string string :=
  foldl (fun color_map p => <[p.2 := palette_color p.1]> color_map) ∅
    (zip (seq 0 (length employee_list)) employee_list).

(** ** The names of the days *)

Definition DayOfWeek_name (d : DayOfWeek) : string :=
  match d with
  | MONDAY => "MONDAY" | TUESDAY => "TUESDAY" | WEDNESDAY => "WEDNESDAY"
  | THURSDAY => "THURSDAY" | FRIDAY => "FRIDAY" | SATURDAY => "SATURDAY"
  | SUNDAY => "SUNDAY"
  end.

(** [DayOfWeek[n]]: the member of that name; [None] stands for
    [KeyError]. *)
Definition DayOfWeek_by_name (n : string) : option DayOfWeek :=
  head (filter (fun d => DayOfWeek_name d = n) all_days).

(** [str.upper], [str.lower] and [str.capitalize] on the letters of
    ASCII, the only ones the names of the days have. *)
Definition ascii_upper (c : Ascii.ascii) : Ascii.ascii :=
  let n := Ascii.nat_of_ascii c in
  if (97 <=? n)%nat && (n <=? 122)%nat then Ascii.ascii_of_nat (n - 32)
  else c.

Definition ascii_lower (c : Ascii.ascii) : Ascii.ascii :=
  let n := Ascii.nat_of_ascii c in
  if (65 <=? n)%nat && (n <=? 90)%nat then Ascii.ascii_of_nat (n + 32)
  else c.

Fixpoint string_map (f : Ascii.ascii -> Ascii.ascii) (s : string) : string :=
  match s with
  | EmptyString => EmptyString
  | String c s' => String (f c) (string_map f s')
  end.

Definition str_upper (s : string) : string := string_map ascii_upper s.

Definition str_capitalize (s : string) : string :=
  match s with
  | EmptyString => EmptyString
  | String c s' => String (ascii_upper c) (string_map ascii_lower s')
  end.

Definition day_name (d : DayOfWeek) : string :=
  str_capitalize (DayOfWeek_name d).

Definition day_from_name (n : string) : option DayOfWeek :=
  DayOfWeek_by_name (str_upper n).

(** ** [TimeSlot] *)

Record TimeSlot := mkTimeSlot {
  ts_day : DayOfWeek;
  ts_start_time : time;
  ts_end_time : time
}.

Definition TimeSlot_duration_hours (self : TimeSlot) : Q :=
  hours_of (wrapped_span (ts_start_time self) (ts_end_time self)).

(** * Basic facts *)

Section Arithmetic.

Lemma Qlt_bool_iff (a b : Q) : Qlt_bool a b = true <-> (a < b)%Q.
Proof.
  unfold Qlt_bool. destruct (Qle_bool b a) eqn:E; simpl.
  - apply Qle_bool_iff in E. split; [discriminate|].
    intros H. exfalso. exact (Qlt_not_le _ _ H E).
  - split; [intros _|reflexivity].
    apply Qnot_le_lt. intros H. apply Qle_bool_iff in H. congruence.
Qed.

Lemma Qlt_bool_false_iff (a b : Q) : Qlt_bool a b = false <-> (b <= a)%Q.
Proof.
  unfold Qlt_bool. rewrite negb_false_iff. apply Qle_bool_iff.
Qed.

Lemma round_half_even_nonneg (q : Q) : (0 <= q)%Q -> 0 <= round_half_even q.
Proof.
  intros Hq. unfold round_half_even.
  assert (0 <= Qfloor q).
  { change 0 with (Qfloor 0). now apply Qfloor_resp_le. }
  repeat case_match; lia.
Qed.

Lemma timedelta_hours_nonneg (h : Q) : (0 <= h)%Q -> 0 <= timedelta_hours h.
Proof.
  intros Hh. apply round_half_even_nonneg.
  apply Qmult_le_0_compat; [exact Hh|]. unfold Qle, US_PER_HOUR; simpl; lia.
Qed.

Lemma hours_of_nonneg (td : Z) : 0 <= td -> (0 <= hours_of td)%Q.
Proof. intros H. unfold hours_of, Qle; simpl. lia. Qed.

Lemma datetime_time_valid (dt : Z) : valid_time (datetime_time dt).
Proof.
  unfold valid_time, datetime_time, US_PER_DAY. apply Z.mod_pos_bound. lia.
Qed.

Lemma datetime_date_combine (d t : Z) :
  valid_time t -> datetime_date (combine d t) = d.
Proof.
  unfold valid_time, datetime_date, combine, US_PER_DAY. intros H.
  symmetry. apply (Z.div_unique_pos _ _ d t); lia.
Qed.

Lemma datetime_time_combine (d t : Z) :
  valid_time t -> datetime_time (combine d t) = t.
Proof.
  unfold valid_time, datetime_time, combine, US_PER_DAY. intros H.
  symmetry. apply (Z.mod_unique_pos _ _ d t); lia.
Qed.

(** The day that [datetime.today()] supplies is irrelevant: the two window
    tests depend on the times of day only. *)
Lemma _times_overlap_same_day (b b' s1 e1 s2 e2 : Z) :
  _times_overlap (combine b s1) (combine b e1) (combine b s2) (combine b e2)
  = _times_overlap (combine b' s1) (combine b' e1) (combine b' s2)
      (combine b' e2).
Proof.
  unfold _times_overlap, combine, US_PER_DAY. repeat case_match; lia.
Qed.

Lemma _is_within_range_same_day (b b' s e rs re : Z) :
  _is_within_range (combine b s) (combine b e) (combine b rs) (combine b re)
  = _is_within_range (combine b' s) (combine b' e) (combine b' rs)
      (combine b' re).
Proof.
  unfold _is_within_range, combine, US_PER_DAY. repeat case_match; lia.
Qed.

End Arithmetic.

(** * The operating-hours resolver *)

Section Resolver.

Context (self : StoreHours) (dow : DayOfWeek).

Lemma get_hours_override h o dt v :
  get_hours {| hours := h; date_overrides := <[_normalize_date dt := v]> o |}
    dow (Some dt) = v.
Proof. unfold get_hours; simpl. now rewrite lookup_insert_eq. Qed.

Lemma get_hours_no_override h o dt :
  get_hours {| hours := h; date_overrides := delete (_normalize_date dt) o |}
    dow (Some dt) = h !! dow.
Proof. unfold get_hours; simpl. now rewrite lookup_delete_eq. Qed.

Lemma is_open_get_hours d :
  is_open self dow d = bool_decide (is_Some (get_hours self dow d)).
Proof.
  unfold is_open, get_hours.
  destruct d as [dt|]; [|reflexivity].
  destruct (date_overrides self !! _normalize_date dt) as [override|];
    [|reflexivity].
  apply bool_decide_ext. destruct override; split; intros H.
  - eauto.
  - discriminate.
  - now contradict H.
  - destruct H; discriminate.
Qed.

End Resolver.

(** C4. [get_hours] returns the override of the date verbatim when a date
    is supplied and has one -- a closed override ([None]) wins over any
    weekday default -- and the weekday default (closed when there is none)
    when no date is supplied or the date has no override; [is_open] is the
    boolean view of [get_hours]. *)
Theorem get_hours_precedence (h : gmap DayOfWeek (Z * Z))
    (o : gmap Z (option (Z * Z))) (dow : DayOfWeek) (dt : Z)
    (v : option (Z * Z)) (d : option Z) :
  get_hours {| hours := h; date_overrides := <[_normalize_date dt := v]> o |}
    dow (Some dt) = v
  /\ get_hours
       {| hours := h; date_overrides := <[_normalize_date dt := None]> o |}
       dow (Some dt) = None
  /\ get_hours
       {| hours := h; date_overrides := delete (_normalize_date dt) o |}
       dow (Some dt) = h !! dow
  /\ get_hours {| hours := h; date_overrides := o |} dow None = h !! dow
  /\ is_open {| hours := h; date_overrides := o |} dow d
     = bool_decide (is_Some (get_hours {| hours := h; date_overrides := o |}
                               dow d)).
Proof.
  repeat split.
  - apply get_hours_override.
  - apply get_hours_override.
  - apply get_hours_no_override.
  - apply is_open_get_hours.
Qed.

(** * The availability resolver *)

(** What the date-keyed rules of [is_available_at_time] do decide: a
    whole-day mark with no window refuses, a whole-day mark with a window
    refuses exactly the overlapping candidates, and otherwise an
    available-only window admits exactly the candidates inside it. *)
Lemma is_available_whole_day_mark emp dow s e dt :
  _normalize_date dt ∈ unavailable_dates emp ->
  unavailable_times_by_date emp !! _normalize_date dt = None ->
  is_available_at_time emp dow s e (Some dt) = false.
Proof.
  intros Hin Hno. unfold is_available_at_time.
  rewrite bool_decide_eq_true_2 by exact Hin. now rewrite Hno.
Qed.

Lemma is_available_marked_window emp dow s e dt w :
  _normalize_date dt ∈ unavailable_dates emp ->
  unavailable_times_by_date emp !! _normalize_date dt = Some w ->
  is_available_at_time emp dow s e (Some dt) = clear_of_window dt s e w.
Proof.
  intros Hin Hw. unfold is_available_at_time.
  rewrite bool_decide_eq_true_2 by exact Hin. rewrite Hw.
  now destruct w.
Qed.

Lemma is_available_only_window emp dow s e dt w :
  _normalize_date dt ∉ unavailable_dates emp ->
  available_times_by_date emp !! _normalize_date dt = Some w ->
  is_available_at_time emp dow s e (Some dt)
  = _is_within_range (_time_to_datetime dt s) (_time_to_datetime dt e)
      (_time_to_datetime dt w.1) (_time_to_datetime dt w.2).
Proof.
  intros Hin Hw. unfold is_available_at_time.
  rewrite bool_decide_eq_false_2 by exact Hin. rewrite Hw.
  now destruct w.
Qed.

(** C3, at the failing input.  The employee has an unavailable window
    12:00-14:00 for 15 January 2024 and nothing else.  The candidate
    12:00-13:00 on that date overlaps the window, so the rule of the
    specification refuses it, yet [is_available_at_time] accepts it: the
    window is only consulted when the date is also in [unavailable_dates]. *)
Theorem unavailable_window_ignored :
  unavailable_times_by_date windowed_employee !! _normalize_date jan15
    = Some (hm 12 0, hm 14 0)
  /\ clear_of_window jan15 (hm 12 0) (hm 13 0) (hm 12 0, hm 14 0) = false
  /\ is_available_at_time windowed_employee MONDAY (hm 12 0) (hm 13 0)
       (Some jan15) = true.
Proof. repeat split; vm_compute; reflexivity. Qed.

(** * The minimum-shift-length check *)






(** * The two scenarios the largest-first order of candidate durations
      decides *)

(** C2, at the failing input.  Scenario C: the store is open 10:00-20:00 on
    Monday 15 January 2024 and closed otherwise, and both employees are
    unrestricted and prefer Mondays.  The target length is 5 hours, but the
    candidate durations are tried largest first and the largest is the
    whole remaining time: the schedule holds one shift of 10 hours for the
    first employee, not two shifts of 5 hours. *)
Theorem scenario_C_single_shift :
  target_shift_duration (hours_of (hm 20 0 - hm 10 0)) == 5
  /\ potential_durations 5 160 10 = [10%Q; 5%Q]
  /\ shifts <$> generate_schedule scenario_C 2024 1
     = Some [ {| employee_name := "A"; day := MONDAY;
                 start_time := hm 10 0; end_time := hm 20 0;
                 date := Some jan15 |} ]
  /\ duration_hours {| employee_name := "A"; day := MONDAY;
                       start_time := hm 10 0; end_time := hm 20 0;
                       date := Some jan15 |} == 10.
Proof. repeat split; vm_compute; reflexivity. Qed.

(** C1, at the failing input.  One employee with a cap of 5 hours, store
    open 09:00-15:00 every day, April 2024.  On 1 April the main loop, not
    the fallback, places a shift of 6 hours: the employee ends the month
    with 6 hours against a cap of 5. *)
Theorem low_cap_exceeded_by_main_loop :
  ds_shifts (main_loop low_cap MONDAY apr1 (hm 9 0) (hm 15 0)
               (initial_hours (employees low_cap)))
    = [ {| employee_name := "A"; day := MONDAY;
           start_time := hm 9 0; end_time := hm 15 0;
           date := Some apr1 |} ]
  /\ shifts <$> generate_schedule low_cap 2024 4
     = Some [ {| employee_name := "A"; day := MONDAY;
                 start_time := hm 9 0; end_time := hm 15 0;
                 date := Some apr1 |} ]
  /\ (flip get_total_hours_for_employee "A"
        <$> generate_schedule low_cap 2024 4)
     = Some (21600000000 # 3600000000)%Q
  /\ (5 < 21600000000 # 3600000000)%Q.
Proof. repeat split; vm_compute; reflexivity. Qed.

(** * The shifts of one day *)

Section Sequences.

Context (open_time : Z).

Lemma in_sequence_bounds lo l hi : in_sequence open_time lo l hi -> lo <= hi.
Proof.
  revert lo. induction l as [|s l IH]; simpl; intros lo H; [exact H|].
  destruct H as (H1 & H2 & H3). apply IH in H3. lia.
Qed.

Lemma in_sequence_mono lo l hi hi' :
  in_sequence open_time lo l hi -> hi <= hi' -> in_sequence open_time lo l hi'.
Proof.
  revert lo. induction l as [|s l IH]; simpl; intros lo H Hle; [lia|].
  destruct H as (H1 & H2 & H3). eauto.
Qed.

Lemma in_sequence_snoc lo l hi s :
  in_sequence open_time lo l hi ->
  hi <= on_open_axis open_time (start_time s) ->
  on_open_axis open_time (start_time s)
    <= on_open_axis open_time (end_time s) ->
  in_sequence open_time lo (l ++ [s]) (on_open_axis open_time (end_time s)).
Proof.
  revert lo. induction l as [|s' l IH]; simpl; intros lo H Hs He.
  - repeat split; lia.
  - destruct H as (H1 & H2 & H3). eauto.
Qed.

End Sequences.

Lemma wrapped_close_bounds (open_time close_time : Z) :
  valid_time open_time -> valid_time close_time ->
  open_time <= wrapped_close open_time close_time < open_time + US_PER_DAY.
Proof. unfold valid_time, wrapped_close, US_PER_DAY. case_match; lia. Qed.

Section Sorting.

Context {A : Type} (lt : A -> A -> bool).

Lemma insert_by_Permutation x l : insert_by lt x l ≡ₚ x :: l.
Proof.
  induction l as [|y l IH]; simpl; [reflexivity|].
  case_match; [|reflexivity].
  rewrite IH. apply Permutation_swap.
Qed.

Lemma sort_by_Permutation l : sort_by lt l ≡ₚ l.
Proof.
  induction l as [|x l IH]; simpl; [reflexivity|].
  rewrite insert_by_Permutation. now rewrite IH.
Qed.

End Sorting.

Section Day.

Context (self : ShiftScheduler) (dow : DayOfWeek) (d : Z)
  (open_time close_time : Z).
Hypothesis Hopen : valid_time open_time.
Hypothesis Hclose : valid_time close_time.
Hypothesis Hmin : min_shifts_nonneg (employees self).

Let base := combine (datetime_date d) 0.
Let open_dt := open_dt_of d open_time.
Let close_dt := close_dt_of d open_time close_time.

Lemma open_dt_eq : open_dt = base + open_time.
Proof. unfold open_dt, base, open_dt_of, combine. lia. Qed.

Lemma close_dt_eq : close_dt = base + wrapped_close open_time close_time.
Proof.
  unfold close_dt, base, close_dt_of, open_dt_of, wrapped_close, combine.
  repeat case_match; lia.
Qed.

Let Hbounds := wrapped_close_bounds open_time close_time Hopen Hclose.

Lemma on_open_axis_time x :
  open_dt <= x <= close_dt ->
  on_open_axis open_time (datetime_time x) = x - base.
Proof.
  rewrite open_dt_eq, close_dt_eq. pose proof Hbounds as Hw.
  intros Hx. unfold on_open_axis, datetime_time.
  remember (x - base) as y eqn:Hy.
  assert (x = base + y) as Hxy by lia. clear Hy. subst x.
  unfold base, combine. rewrite Z.add_0_r.
  rewrite Z.add_comm, Z_mod_plus_full.
  unfold valid_time, US_PER_DAY in *.
  destruct (Z_lt_ge_dec y 86400000000).
  - rewrite Z.mod_small by lia. case_match; lia.
  - assert (y mod 86400000000 = y - 86400000000) as ->.
    { symmetry. apply (Z.mod_unique_pos _ _ 1); lia. }
    case_match; lia.
Qed.

Lemma open_le_close_dt : open_dt <= close_dt.
Proof. rewrite open_dt_eq, close_dt_eq. pose proof Hbounds. lia. Qed.

Lemma place_shift_inv emp end_dt st :
  day_inv d open_time close_time st ->
  ds_current_dt st <= end_dt <= close_dt ->
  day_inv d open_time close_time (place_shift dow d emp end_dt st).
Proof.
  intros ([Hlo Hhi] & Hseq & Hall) [Hce Hec].
  fold open_dt close_dt base in Hlo, Hhi, Hseq.
  unfold day_inv, place_shift; simpl. fold open_dt close_dt base.
  split; [lia|]. split.
  - rewrite <- (on_open_axis_time end_dt) by lia.
    apply (in_sequence_snoc open_time open_time (ds_shifts st)
             (ds_current_dt st - base)
             {| employee_name := name emp; day := dow;
                start_time := datetime_time (ds_current_dt st);
                end_time := datetime_time end_dt; date := Some d |});
      [exact Hseq|simpl..].
    + rewrite on_open_axis_time by lia. lia.
    + rewrite !on_open_axis_time by lia. lia.
  - apply Forall_app. split; [exact Hall|].
    apply Forall_cons; split; [split|apply Forall_nil_2]; simpl;
      apply datetime_time_valid.
Qed.

Lemma not_rejected_nonneg n a rt m :
  (0 <= m)%Q -> rejects_duration n a rt m = false -> (0 <= a)%Q.
Proof.
  intros Hm. unfold rejects_duration.
  rewrite orb_false_iff, !andb_false_iff, negb_false_iff.
  rewrite !Qlt_bool_false_iff.
  assert (0 <= 1)%Q as H01 by (unfold Qle; simpl; lia).
  intros [[H|H] [H'|H']]; try congruence;
    first [ now apply (Qle_trans _ m) | now apply (Qle_trans _ 1) ].
Qed.

Lemma try_durations_bounds emp n current_dt rt ds end_dt :
  (0 <= min_hours_per_shift emp)%Q ->
  current_dt <= close_dt ->
  try_durations emp dow d n current_dt close_dt rt ds = Some end_dt ->
  current_dt <= end_dt <= close_dt.
Proof.
  intros Hm Hc. induction ds as [|a ds IH]; simpl; [discriminate|].
  destruct (rejects_duration n a rt (min_hours_per_shift emp)) eqn:Hrej;
    [exact IH|].
  pose proof (timedelta_hours_nonneg a (not_rejected_nonneg _ _ _ _ Hm Hrej)).
  case_bool_decide; simpl.
  - repeat case_match; try exact IH; intros [= <-]; lia.
  - repeat case_match; try exact IH; intros [= <-]; lia.
Qed.

Lemma try_employees_bounds fuel idx avail sd rt st emp end_dt :
  Forall (fun e => (0 <= min_hours_per_shift e)%Q) avail ->
  ds_current_dt st <= close_dt ->
  try_employees fuel idx avail dow d sd close_dt rt st = Some (emp, end_dt) ->
  ds_current_dt st <= end_dt <= close_dt.
Proof.
  intros Hall Hc. revert idx.
  induction fuel as [|fuel IH]; simpl; intros idx; [discriminate|].
  destruct (avail !! _) as [e|] eqn:He; [|discriminate].
  destruct (try_durations _ _ _ _ _ _ _ _) as [e'|] eqn:Ht.
  - intros [= <- <-]. eapply try_durations_bounds; [|exact Hc|exact Ht].
    rewrite Forall_forall in Hall. apply Hall.
    eapply list_elem_of_lookup_2; eauto.
  - apply IH.
Qed.

Lemma try_minimal_bounds avail rt current_dt emp end_dt :
  Forall (fun e => (0 <= min_hours_per_shift e)%Q) avail ->
  current_dt <= close_dt ->
  try_minimal avail dow d close_dt rt current_dt = Some (emp, end_dt) ->
  current_dt <= end_dt <= close_dt.
Proof.
  intros Hall Hc. induction Hall as [|e avail He Hall IH]; simpl;
    [discriminate|].
  pose proof (timedelta_hours_nonneg _ He).
  repeat case_match; try exact IH; intros [= <- <-]; lia.
Qed.

Lemma available_min_nonneg h :
  Forall (fun e => (0 <= min_hours_per_shift e)%Q)
    (sort_employees h dow d
       (filter (fun emp => has_capacity h dow emp = true) (employees self))).
Proof.
  unfold sort_employees. rewrite sort_by_Permutation.
  apply Forall_forall. intros e [_ He]%list_elem_of_filter.
  unfold min_shifts_nonneg in Hmin. rewrite Forall_forall in Hmin. auto.
Qed.

Lemma day_step_inv sd st st' b :
  day_inv d open_time close_time st ->
  ds_current_dt st < close_dt ->
  day_step self dow d close_dt sd st = (st', b) ->
  day_inv d open_time close_time st'.
Proof.
  intros Hinv Hlt. unfold day_step.
  case_bool_decide; [now intros [= <- <-]|].
  case_match; [now intros [= <- <-]|].
  pose proof (available_min_nonneg (ds_employee_hours st)) as Hav.
  destruct (try_employees _ _ _ _ _ _ _ _ _) as [[emp end_dt]|] eqn:Htry.
  { intros [= <- <-]. apply place_shift_inv; [exact Hinv|].
    eapply try_employees_bounds; [exact Hav| |exact Htry]. lia. }
  destruct (if bool_decide (length (ds_shifts st) = 0%nat)
            then try_minimal _ _ _ _ _ _ else None)
    as [[emp end_dt]|] eqn:Hrelaxed.
  { intros [= <- <-]. apply place_shift_inv; [exact Hinv|].
    case_bool_decide; [|discriminate].
    eapply try_minimal_bounds; [exact Hav| |exact Hrelaxed]. lia. }
  destruct (bool_decide (ds_last_current_dt st = _) || _) eqn:Hbreak;
    intros [= <- <-]; [exact Hinv|].
  destruct Hinv as ([Hlo Hhi] & Hseq & Hall).
  apply orb_false_iff in Hbreak as [_ Hnext].
  apply bool_decide_eq_false in Hnext.
  unfold day_inv; simpl. unfold QUARTER_HOUR in *.
  fold close_dt. repeat split; try lia; [|exact Hall].
  eapply in_sequence_mono; [exact Hseq|lia].
Qed.

Lemma day_loop_inv fuel sd st :
  day_inv d open_time close_time st ->
  day_inv d open_time close_time (day_loop fuel self dow d close_dt sd st).
Proof.
  revert st. induction fuel as [|fuel IH]; simpl; intros st Hinv; [exact Hinv|].
  case_bool_decide; [|exact Hinv].
  destruct (day_step self dow d close_dt sd st) as [st' b] eqn:Hstep.
  pose proof (day_step_inv _ _ _ _ Hinv ltac:(assumption) Hstep).
  destruct b; auto.
Qed.

Lemma main_loop_inv h :
  day_inv d open_time close_time
    (main_loop self dow d open_time close_time h).
Proof.
  apply day_loop_inv. unfold day_inv; simpl. fold open_dt close_dt base.
  pose proof open_le_close_dt. rewrite open_dt_eq in *.
  repeat split; try lia. constructor.
Qed.

Lemma fallback_shift_in_sequence n td :
  0 <= td ->
  in_sequence open_time open_time
    [ {| employee_name := n; day := dow; start_time := open_time;
         end_time := datetime_time (Z.min (open_dt + td) close_dt);
         date := Some d |} ]
    (wrapped_close open_time close_time).
Proof.
  intros Htd. pose proof Hbounds as Hw.
  pose proof open_le_close_dt as Hoc. simpl.
  rewrite (on_open_axis_time (Z.min (open_dt + td) close_dt)) by lia.
  unfold on_open_axis. rewrite Z.ltb_irrefl.
  rewrite open_dt_eq, close_dt_eq in *. lia.
Qed.

Lemma fallback_in_sequence h :
  in_sequence open_time open_time
    (fallback self dow d open_time open_dt close_dt h).1
    (wrapped_close open_time close_time)
  /\ Forall stored_times_valid
       (fallback self dow d open_time open_dt close_dt h).1.
Proof.
  pose proof Hbounds as Hw.
  unfold fallback.
  repeat case_match; cbn [fst];
    (split;
     [ first [ simpl; lia
             | apply fallback_shift_in_sequence, timedelta_hours_nonneg,
                 Qlt_le_weak, Qlt_bool_iff; assumption ]
     | first [ apply Forall_nil_2
             | apply Forall_cons; split; [split|apply Forall_nil_2]; simpl;
               [exact Hopen|apply datetime_time_valid] ] ]).
Qed.

(** The shifts of one day follow one another inside the opening hours. *)
Lemma day_shifts_in_sequence h :
  in_sequence open_time open_time
    (_generate_shifts_for_day self dow d open_time close_time h).1
    (wrapped_close open_time close_time)
  /\ Forall stored_times_valid
       (_generate_shifts_for_day self dow d open_time close_time h).1.
Proof.
  pose proof Hbounds as Hw.
  unfold _generate_shifts_for_day.
  case_bool_decide; simpl; [split; [lia|constructor]|].
  case_bool_decide; [apply fallback_in_sequence|]. simpl.
  destruct (main_loop_inv h) as ([Hlo Hhi] & Hseq & Hall).
  split; [|exact Hall].
  eapply in_sequence_mono; [exact Hseq|].
  fold close_dt base in Hhi |- *. rewrite close_dt_eq in Hhi. lia.
Qed.

End Day.

Section Dated.

Context (self : ShiftScheduler) (dow : DayOfWeek) (d : Z).

Lemma place_shift_dated emp end_dt st :
  Forall (dated dow d) (ds_shifts st) ->
  Forall (dated dow d) (ds_shifts (place_shift dow d emp end_dt st)).
Proof.
  intros H. unfold place_shift; simpl. apply Forall_app. split; [exact H|].
  apply Forall_cons; split; [split; reflexivity|apply Forall_nil_2].
Qed.

Lemma day_step_dated close_dt sd st :
  Forall (dated dow d) (ds_shifts st) ->
  Forall (dated dow d) (ds_shifts (day_step self dow d close_dt sd st).1).
Proof.
  intros H. unfold day_step.
  repeat case_match; cbn [fst]; auto using place_shift_dated.
Qed.

Lemma day_loop_dated fuel close_dt sd st :
  Forall (dated dow d) (ds_shifts st) ->
  Forall (dated dow d) (ds_shifts (day_loop fuel self dow d close_dt sd st)).
Proof.
  revert st. induction fuel as [|fuel IH]; simpl; intros st H; [exact H|].
  case_bool_decide; [|exact H].
  pose proof (day_step_dated close_dt sd st H) as Hstep.
  destruct (day_step self dow d close_dt sd st) as [st' []]; simpl in Hstep;
    auto.
Qed.

Lemma day_shifts_dated open_time close_time h :
  Forall (dated dow d)
    (_generate_shifts_for_day self dow d open_time close_time h).1.
Proof.
  unfold _generate_shifts_for_day.
  case_bool_decide; simpl; [apply Forall_nil_2|].
  case_bool_decide; simpl.
  - unfold fallback. repeat case_match; simpl; try apply Forall_nil_2.
    all: apply Forall_cons; split; [split; reflexivity|apply Forall_nil_2].
  - apply day_loop_dated, Forall_nil_2.
Qed.

End Dated.

Section Month.

Context (self : ShiftScheduler).

Lemma foldl_add_shift sched l :
  shifts (foldl add_shift sched l) = shifts sched ++ l.
Proof.
  revert sched. induction l as [|s l IH]; simpl; intros sched.
  - now rewrite app_nil_r.
  - rewrite IH. simpl. now rewrite <- app_assoc.
Qed.

Lemma schedule_date_shifts acc d :
  exists new, day_output self d new
    /\ shifts (schedule_date self acc d).1 = shifts acc.1 ++ new.
Proof.
  unfold schedule_date.
  destruct (DayOfWeek_of_value (weekday d)) as [dow|] eqn:Hdow;
    [|exists []; split; [now left|now rewrite app_nil_r]].
  destruct (negb _); [exists []; split; [now left|now rewrite app_nil_r]|].
  destruct (get_hours _ _ _) as [[o c]|] eqn:Hh;
    [|exists []; split; [now left|now rewrite app_nil_r]].
  destruct (_generate_shifts_for_day self dow d o c acc.2) as [l h'] eqn:Hg.
  exists l. split.
  - right. exists dow, o, c, acc.2. now rewrite Hg.
  - simpl. apply foldl_add_shift.
Qed.

Lemma day_output_dated d new s :
  day_output self d new -> s ∈ new -> date s = Some d.
Proof.
  intros [->|(dow & o & c & h & _ & _ & ->)] Hin.
  - now apply elem_of_nil in Hin.
  - pose proof (day_shifts_dated self dow d o c h) as Hall.
    rewrite Forall_forall in Hall. now apply Hall.
Qed.

(** A property of the list of shifts that every day's output preserves
    holds of the schedule of the month. *)
Lemma month_fold_inv (Good : list Shift -> Prop) :
  (forall l d new,
     Good l -> Forall (fun s => date s ≠ Some d) l -> day_output self d new ->
     Good (l ++ new)) ->
  forall dates acc,
    NoDup dates ->
    Good (shifts acc.1) ->
    Forall (fun s => forall d, d ∈ dates -> date s ≠ Some d)
      (shifts acc.1) ->
    Good (shifts (foldl (schedule_date self) acc dates).1).
Proof.
  intros Hstep dates. induction dates as [|d dates IH]; simpl;
    intros acc Hnd Hgood Hfresh; [exact Hgood|].
  apply NoDup_cons in Hnd as [Hd Hnd].
  destruct (schedule_date_shifts acc d) as (new & Hout & Heq).
  apply IH; [exact Hnd|rewrite Heq..].
  - apply (Hstep _ d new); [exact Hgood| |exact Hout].
    eapply Forall_impl; [exact Hfresh|]. intros s Hs. apply Hs. left.
  - apply Forall_app. split.
    + eapply Forall_impl; [exact Hfresh|]. intros s Hs d' Hd'. apply Hs.
      now right.
    + apply Forall_forall. intros s Hs d' Hd'.
      rewrite (day_output_dated d new s Hout Hs). intros [= ->]. contradiction.
Qed.

Lemma dates_in_month_NoDup y m dates :
  _get_dates_in_month y m = Some dates -> NoDup dates.
Proof.
  unfold _get_dates_in_month. destruct (first_of_month y m) as [first|];
    [|discriminate].
  case_match; [discriminate|]. intros [= <-].
  apply NoDup_fmap_2; [|apply NoDup_seqZ].
  intros i j. unfold US_PER_DAY. lia.
Qed.

Lemma generate_schedule_inv (Good : list Shift -> Prop) y m sched :
  (forall l d new,
     Good l -> Forall (fun s => date s ≠ Some d) l -> day_output self d new ->
     Good (l ++ new)) ->
  Good [] ->
  generate_schedule self y m = Some sched ->
  Good (shifts sched).
Proof.
  intros Hstep Hnil. unfold generate_schedule, generate_schedule_state.
  destruct (_get_dates_in_month y m) as [dates|] eqn:Hdates; [|discriminate].
  simpl. intros [= <-].
  apply month_fold_inv; simpl; auto using Forall_nil_2.
  eapply dates_in_month_NoDup; eauto.
Qed.

End Month.

Section Axis.

Context (open_time : Z).

Lemma in_sequence_elem lo l hi s :
  in_sequence open_time lo l hi -> s ∈ l ->
  lo <= on_open_axis open_time (start_time s)
  /\ on_open_axis open_time (start_time s)
     <= on_open_axis open_time (end_time s)
  /\ on_open_axis open_time (end_time s) <= hi.
Proof.
  revert lo. induction l as [|s' l IH]; simpl; intros lo H Hin.
  - now apply elem_of_nil in Hin.
  - destruct H as (H1 & H2 & H3). pose proof (in_sequence_bounds _ _ _ _ H3).
    apply elem_of_cons in Hin as [->|Hin]; [lia|].
    specialize (IH _ H3 Hin). lia.
Qed.

Lemma in_sequence_pairwise lo l hi :
  in_sequence open_time lo l hi ->
  pairwise_in_order (on_open_axis open_time) l.
Proof.
  revert lo. induction l as [|s l IH]; simpl; intros lo H i j s1 s2 Hi Hj Hij.
  - discriminate.
  - destruct H as (H1 & H2 & H3).
    destruct j as [|j]; [lia|]. simpl in Hj.
    destruct i as [|i]; simpl in Hi.
    + injection Hi as <-.
      pose proof (in_sequence_elem _ _ _ s2 H3
                    (list_elem_of_lookup_2 _ _ _ Hj)). lia.
    + apply (IH _ H3 i j); auto. lia.
Qed.

Lemma on_open_axis_stored x hi :
  valid_time x -> hi < US_PER_DAY -> on_open_axis open_time x <= hi ->
  on_open_axis open_time x = x.
Proof. unfold valid_time, on_open_axis. case_match; lia. Qed.

Lemma in_sequence_stored_of lo l hi :
  Forall stored_times_valid l -> hi < US_PER_DAY ->
  in_sequence open_time lo l hi -> in_sequence_stored lo l hi.
Proof.
  intros Hall Hhi. revert lo.
  induction Hall as [|s l [Hs He] Hall IH]; simpl; intros lo H; [exact H|].
  destruct H as (H1 & H2 & H3). pose proof (in_sequence_bounds _ _ _ _ H3).
  assert (on_open_axis open_time (end_time s) = end_time s) as Ee
    by (apply (on_open_axis_stored _ hi); [assumption..|lia]).
  assert (on_open_axis open_time (start_time s) = start_time s) as Es
    by (apply (on_open_axis_stored _ hi); [assumption..|lia]).
  rewrite Es in H1, H2. rewrite Ee in H2, H3.
  repeat split; [lia..|now apply IH].
Qed.

Lemma pairwise_in_order_stored l hi :
  Forall stored_times_valid l -> hi < US_PER_DAY ->
  in_sequence open_time open_time l hi ->
  pairwise_in_order id l.
Proof.
  intros Hall Hhi Hseq i j s1 s2 Hi Hj Hij.
  pose proof (in_sequence_pairwise _ _ _ Hseq i j s1 s2 Hi Hj Hij) as Hp.
  rewrite Forall_forall in Hall.
  destruct (Hall s1 (list_elem_of_lookup_2 _ _ _ Hi)) as [Hs1 He1].
  destruct (Hall s2 (list_elem_of_lookup_2 _ _ _ Hj)) as [Hs2 He2].
  pose proof (in_sequence_elem _ _ _ s1 Hseq (list_elem_of_lookup_2 _ _ _ Hi)).
  pose proof (in_sequence_elem _ _ _ s2 Hseq (list_elem_of_lookup_2 _ _ _ Hj)).
  rewrite <- (on_open_axis_stored (start_time s1) hi) by (auto; lia).
  rewrite <- (on_open_axis_stored (end_time s1) hi) by (auto; lia).
  rewrite <- (on_open_axis_stored (start_time s2) hi) by (auto; lia).
  rewrite <- (on_open_axis_stored (end_time s2) hi) by (auto; lia).
  exact Hp.
Qed.

End Axis.

Lemma get_hours_valid sh dow d o c :
  store_hours_valid sh -> get_hours sh dow d = Some (o, c) ->
  valid_time o /\ valid_time c.
Proof.
  intros [Hh Ho]. unfold get_hours.
  destruct d as [dt|]; [|apply (Hh dow (o, c))].
  destruct (date_overrides sh !! _normalize_date dt) as [ov|] eqn:Hov;
    [|apply (Hh dow (o, c))].
  intros ->. apply (Ho _ _ Hov).
Qed.

Section Filters.

Context {A : Type} (P : A -> Prop) `{forall x, Decision (P x)}.

Lemma filter_all l : Forall P l -> filter P l = l.
Proof.
  induction 1 as [|x l Hx Hl IH]; [reflexivity|].
  rewrite filter_cons_True by exact Hx. now rewrite IH.
Qed.

Lemma filter_none l : Forall (fun x => ~ P x) l -> filter P l = [].
Proof.
  induction 1 as [|x l Hx Hl IH]; [reflexivity|].
  now rewrite filter_cons_False by exact Hx.
Qed.

End Filters.

Lemma weekday_total d : exists dow, DayOfWeek_of_value (weekday d) = Some dow.
Proof.
  unfold weekday.
  pose proof (Z.mod_pos_bound (datetime_date d + 6) 7 ltac:(lia)) as Hb.
  assert (let w := (datetime_date d + 6) mod 7 in
          w = 0 \/ w = 1 \/ w = 2 \/ w = 3 \/ w = 4 \/ w = 5 \/ w = 6)
    as Hw by (simpl; lia).
  simpl in Hw.
  destruct Hw as [->|[->|[->|[->|[->|[->| ->]]]]]]; simpl; eauto.
Qed.

Lemma generate_schedule_is_Some self y m :
  valid_month y m -> is_Some (generate_schedule self y m).
Proof.
  intros (Hy & Hm & Hlast).
  unfold generate_schedule, generate_schedule_state, _get_dates_in_month,
    first_of_month.
  assert ((1 <=? y) && (y <=? 9999) && (1 <=? m) && (m <=? 12) = true)
    as -> by lia.
  assert ((y =? 9999) && (m =? 12) = false) as -> by lia.
  simpl. eauto.
Qed.

Section MonthTheorems.

Context (self : ShiftScheduler) (y m : Z) (sched : Schedule).
Hypothesis Hgen : generate_schedule self y m = Some sched.

(** Every shift of the schedule carries a date whose resolved hours are
    open, and the weekday of that date. *)
Lemma shifts_have_open_dates :
  Forall (fun s => exists o c, resolved_hours self s o c) (shifts sched).
Proof.
  apply (generate_schedule_inv self _ y m sched);
    [|apply Forall_nil_2|exact Hgen].
  intros l d new Hl _ Hout. apply Forall_app. split; [exact Hl|].
  destruct Hout as [->|(dow & o & c & h & Hdow & Hh & ->)];
    [apply Forall_nil_2|].
  eapply Forall_impl; [apply day_shifts_dated|].
  intros s [Hday Hdate]. exists o, c, d. rewrite Hday. auto.
Qed.

Lemma closed_date_no_shift d dow :
  DayOfWeek_of_value (weekday d) = Some dow ->
  get_hours (store_hours self) dow (Some d) = None ->
  shifts_dated d (shifts sched) = [].
Proof.
  intros Hdow Hclosed. apply filter_none.
  eapply Forall_impl; [exact shifts_have_open_dates|].
  intros s (o & c & d' & Hdate & Hdow' & Hh) Hd.
  rewrite Hdate in Hd. injection Hd as ->. congruence.
Qed.

Lemma get_shifts_for_day_dated d dow :
  DayOfWeek_of_value (weekday d) = Some dow ->
  get_shifts_for_day sched dow (Some d) = shifts_dated d (shifts sched).
Proof.
  intros Hdow. unfold get_shifts_for_day, shifts_dated.
  pose proof shifts_have_open_dates as Hall.
  induction Hall as [|s l (o & c & d' & Hdate & Hdow' & _) Hall IH];
    [reflexivity|].
  rewrite !filter_cons, IH.
  destruct (decide (date s = Some d)) as [Hd|Hd].
  - rewrite decide_True; [reflexivity|]. split; [|exact Hd]. congruence.
  - rewrite decide_False; [reflexivity|]. intros [_ ?]. contradiction.
Qed.

Section WellFormed.

Hypothesis Hvalid : store_hours_valid (store_hours self).
Hypothesis Hmin : min_shifts_nonneg (employees self).

Lemma stored_times_all_valid : Forall stored_times_valid (shifts sched).
Proof.
  apply (generate_schedule_inv self _ y m sched);
    [|apply Forall_nil_2|exact Hgen].
  intros l d new Hl _ Hout. apply Forall_app. split; [exact Hl|].
  destruct Hout as [->|(dow & o & c & h & Hdow & Hh & ->)];
    [apply Forall_nil_2|].
  destruct (get_hours_valid _ _ _ _ _ Hvalid Hh) as [Ho Hc].
  apply (day_shifts_in_sequence self dow d o c Ho Hc Hmin h).
Qed.

Lemma dated_shifts_in_sequence d dow o c :
  DayOfWeek_of_value (weekday d) = Some dow ->
  get_hours (store_hours self) dow (Some d) = Some (o, c) ->
  in_sequence o o (shifts_dated d (shifts sched)) (wrapped_close o c).
Proof.
  intros Hdow Hh.
  destruct (get_hours_valid _ _ _ _ _ Hvalid Hh) as [Ho Hc].
  pose proof (wrapped_close_bounds o c Ho Hc) as Hw.
  apply (generate_schedule_inv self
           (fun l => in_sequence o o (shifts_dated d l) (wrapped_close o c))
           y m sched); [|simpl; lia|exact Hgen].
  intros l d' new Hl Hfresh Hout. unfold shifts_dated in *.
  rewrite filter_app.
  destruct (decide (d' = d)) as [->|Hne].
  - rewrite (filter_none _ l) by exact Hfresh. simpl.
    destruct Hout as [->|(dow' & o' & c' & h & Hdow' & Hh' & ->)];
      [simpl; lia|].
    assert (dow' = dow) as -> by congruence.
    assert (o' = o /\ c' = c) as [-> ->] by (split; congruence).
    rewrite filter_all.
    + apply (day_shifts_in_sequence self dow d o c Ho Hc Hmin h).
    + eapply Forall_impl; [apply day_shifts_dated|]. now intros s [_ ?].
  - rewrite (filter_none _ new), app_nil_r; [exact Hl|].
    apply Forall_forall. intros s Hs.
    rewrite (day_output_dated self d' new s Hout Hs). congruence.
Qed.

End WellFormed.

End MonthTheorems.

(** * The schedule of a month *)

(** C8.  On every month that [generate_schedule] accepts it returns a
    schedule, and for every date whose resolved hours are closed the
    schedule holds no shift of that date; in particular it is empty when
    no weekday has hours and no date an override, and a closed override
    leaves its date without shifts whatever the weekday default is. *)
Theorem closed_dates_have_no_shifts (self : ShiftScheduler) (y m : Z) :
  valid_month y m ->
  exists sched,
    generate_schedule self y m = Some sched
    /\ (forall d dow,
          DayOfWeek_of_value (weekday d) = Some dow ->
          get_hours (store_hours self) dow (Some d) = None ->
          shifts_dated d (shifts sched) = []
          /\ get_shifts_for_day sched dow (Some d) = [])
    /\ (hours (store_hours self) = ∅ ->
        date_overrides (store_hours self) = ∅ ->
        shifts sched = [])
    /\ (forall d,
          date_overrides (store_hours self) !! _normalize_date d = Some None ->
          shifts_dated d (shifts sched) = []).
Proof.
  intros Hvm.
  destruct (generate_schedule_is_Some self y m Hvm) as [sched Hgen].
  exists sched. split; [exact Hgen|]. split; [|split].
  - intros d dow Hdow Hclosed.
    rewrite (get_shifts_for_day_dated self y m sched Hgen d dow Hdow).
    split; eapply closed_date_no_shift; eauto.
  - intros Hh Ho.
    pose proof (shifts_have_open_dates self y m sched Hgen) as Hall.
    destruct (shifts sched) as [|s l]; [reflexivity|].
    apply Forall_cons in Hall as [(o & c & d & _ & _ & Hget) _].
    unfold get_hours in Hget. rewrite Ho, Hh, !lookup_empty in Hget.
    discriminate.
  - intros d Hov. destruct (weekday_total d) as [dow Hdow].
    eapply closed_date_no_shift; eauto.
    unfold get_hours. now rewrite Hov.
Qed.

Lemma closed_dates_have_no_shifts_witness :
  valid_month 2024 1
  /\ hours (store_hours scenario_E) !! MONDAY = Some (hm 9 0, hm 15 0)
  /\ exists sched,
       generate_schedule scenario_E 2024 1 = Some sched
       /\ shifts_dated jan15 (shifts sched) = [].
Proof.
  assert (valid_month 2024 1) as Hvm by (unfold valid_month; lia).
  split; [exact Hvm|]. split; [vm_compute; reflexivity|].
  destruct (closed_dates_have_no_shifts scenario_E 2024 1 Hvm)
    as (sched & Hgen & _ & _ & Hoverride).
  exists sched. split; [exact Hgen|].
  apply Hoverride. vm_compute. reflexivity.
Defined.

(** C6, amended.  For a roster without negative minimum shift lengths,
    every shift of the schedule lies inside the opening hours resolved for
    its date once its stored times are read on the axis of the opening
    day: opening time <= start <= end <= closing time, where a stored time
    before the opening time and a closing time before the opening time
    belong to the next calendar day.  When the opening hours do not cross
    midnight the shift satisfies the property as the claim states it. *)
Theorem shifts_inside_opening_hours (self : ShiftScheduler) (y m : Z)
    (sched : Schedule) :
  store_hours_valid (store_hours self) ->
  min_shifts_nonneg (employees self) ->
  generate_schedule self y m = Some sched ->
  Forall (fun s =>
            exists o c,
              resolved_hours self s o c
              /\ inside_hours_on_axis o c s
              /\ (o <= c -> inside_hours o c s /\ start_time s <= end_time s))
    (shifts sched).
Proof.
  intros Hvalid Hmin Hgen. apply Forall_forall. intros s Hs.
  pose proof (shifts_have_open_dates self y m sched Hgen) as Hopen.
  pose proof (stored_times_all_valid self y m sched Hgen Hvalid Hmin) as Hst.
  rewrite Forall_forall in Hopen, Hst.
  destruct (Hopen s Hs) as (o & c & d & Hdate & Hdow & Hget).
  destruct (Hst s Hs) as [Hvs Hve].
  destruct (get_hours_valid _ _ _ _ _ Hvalid Hget) as [Ho Hc].
  exists o, c. split; [exists d; auto|].
  pose proof (dated_shifts_in_sequence self y m sched Hgen Hvalid Hmin
                d (day s) o c Hdow Hget) as Hseq.
  assert (s ∈ shifts_dated d (shifts sched)) as Hin
    by (apply list_elem_of_filter; auto).
  pose proof (in_sequence_elem _ _ _ _ s Hseq Hin) as Hb.
  split; [exact Hb|].
  intros Hoc. unfold inside_hours.
  assert (wrapped_close o c = c) as Hwc
    by (unfold wrapped_close; case_match; lia).
  rewrite Hwc in *. unfold valid_time in Hc.
  rewrite (on_open_axis_stored o (start_time s) c) in Hb by (auto; lia).
  rewrite (on_open_axis_stored o (end_time s) c) in Hb by (auto; lia).
  case_match; lia.
Qed.

Lemma night_shop_well_formed :
  store_hours_valid (store_hours night_shop)
  /\ min_shifts_nonneg (employees night_shop).
Proof.
  split; [split|].
  - apply map_Forall_empty.
  - apply map_Forall_singleton. vm_compute. intuition discriminate.
  - repeat apply Forall_cons_2; [| |apply Forall_nil_2];
      vm_compute; discriminate.
Defined.

Lemma shifts_inside_opening_hours_witness :
  Forall (fun s =>
            exists o c,
              resolved_hours night_shop s o c
              /\ inside_hours_on_axis o c s
              /\ (o <= c -> inside_hours o c s /\ start_time s <= end_time s))
    [night_shift_A; night_shift_B].
Proof.
  apply (shifts_inside_opening_hours night_shop 2024 1
           {| month := 1; year := 2024;
              shifts := [night_shift_A; night_shift_B] |}).
  - apply night_shop_well_formed.
  - apply night_shop_well_formed.
  - vm_compute. reflexivity.
Defined.

(** With a negative minimum shift length, which the code accepts, the
    relaxed pass places a shift that ends before it starts and moves the
    cursor backwards: in the store open 09:00-09:30 the shifts of the day
    are 09:00-08:00 and 08:00-09:30. *)
Lemma negative_minimum_escapes_hours :
  shifts <$> generate_schedule half_hour_shop 2024 1
    = Some [backwards_shift; early_shift]
  /\ get_hours (store_hours half_hour_shop) MONDAY (Some jan15)
     = Some (hm 9 0, hm 9 30).
Proof. split; vm_compute; reflexivity. Qed.

(** C6 as stated fails when the opening hours cross midnight.  The store
    is open 22:00-06:00 on 15 January 2024; "A" takes 22:00-02:00 and "B"
    02:00-06:00.  The stored start of the second shift, 02:00, lies before
    the opening time 22:00.  It also fails, on opening hours that do not
    cross midnight, for an employee with a negative minimum shift length:
    the second shift of the half-hour shop starts at 08:00, before the
    opening time 09:00. *)
Lemma night_shift_starts_before_opening :
  (generate_schedule night_shop 2024 1
     = Some {| month := 1; year := 2024;
               shifts := [night_shift_A; night_shift_B] |}
   /\ resolved_hours night_shop night_shift_B (hm 22 0) (hm 6 0)
   /\ ~ inside_hours (hm 22 0) (hm 6 0) night_shift_B)
  /\ (generate_schedule half_hour_shop 2024 1
        = Some {| month := 1; year := 2024;
                  shifts := [backwards_shift; early_shift] |}
      /\ resolved_hours half_hour_shop early_shift (hm 9 0) (hm 9 30)
      /\ ~ inside_hours (hm 9 0) (hm 9 30) early_shift).
Proof.
  split; (split; [vm_compute; reflexivity|]); split.
  - exists jan15. repeat split; vm_compute; reflexivity.
  - intros [H _]. revert H. vm_compute. intros H. now apply H.
  - exists jan15. repeat split; vm_compute; reflexivity.
  - intros [H _]. revert H. vm_compute. intros H. now apply H.
Qed.

(** C10, amended.  For a roster without negative minimum shift lengths,
    the shifts of one date, in generation order and across all employees,
    follow one another inside the opening hours on the axis of the opening
    day: each starts no earlier than the previous one ends, so any two of
    them are disjoint and their starts are nondecreasing.  When the opening
    hours do not cross midnight this holds of the stored times as they
    are. *)
Theorem day_shifts_disjoint_and_ordered (self : ShiftScheduler) (y m : Z)
    (sched : Schedule) (d : Z) (dow : DayOfWeek) (o c : Z) :
  store_hours_valid (store_hours self) ->
  min_shifts_nonneg (employees self) ->
  generate_schedule self y m = Some sched ->
  DayOfWeek_of_value (weekday d) = Some dow ->
  get_hours (store_hours self) dow (Some d) = Some (o, c) ->
  get_shifts_for_day sched dow (Some d) = shifts_dated d (shifts sched)
  /\ in_sequence o o (shifts_dated d (shifts sched)) (wrapped_close o c)
  /\ pairwise_in_order (on_open_axis o) (shifts_dated d (shifts sched))
  /\ (o <= c ->
      in_sequence_stored o (shifts_dated d (shifts sched)) c
      /\ pairwise_in_order id (shifts_dated d (shifts sched))).
Proof.
  intros Hvalid Hmin Hgen Hdow Hget.
  pose proof (dated_shifts_in_sequence self y m sched Hgen Hvalid Hmin
                d dow o c Hdow Hget) as Hseq.
  split; [now apply (get_shifts_for_day_dated self y m)|].
  split; [exact Hseq|]. split; [eapply in_sequence_pairwise; eauto|].
  intros Hoc.
  destruct (get_hours_valid _ _ _ _ _ Hvalid Hget) as [Ho Hc].
  assert (wrapped_close o c = c) as Hwc
    by (unfold wrapped_close; case_match; lia).
  rewrite Hwc in Hseq.
  assert (Forall stored_times_valid (shifts_dated d (shifts sched))) as Hst.
  { pose proof (stored_times_all_valid self y m sched Hgen Hvalid Hmin) as H.
    rewrite Forall_forall in H. apply Forall_forall.
    intros s [_ Hs]%list_elem_of_filter. auto. }
  unfold valid_time in Hc. split.
  - apply (in_sequence_stored_of o); [exact Hst|lia|exact Hseq].
  - apply (pairwise_in_order_stored o _ c); [exact Hst|lia|exact Hseq].
Qed.

Lemma day_shifts_disjoint_and_ordered_witness :
  let sched := {| month := 1; year := 2024;
                  shifts := [night_shift_A; night_shift_B] |} in
  get_shifts_for_day sched MONDAY (Some jan15)
    = shifts_dated jan15 (shifts sched)
  /\ in_sequence (hm 22 0) (hm 22 0) (shifts_dated jan15 (shifts sched))
       (wrapped_close (hm 22 0) (hm 6 0))
  /\ pairwise_in_order (on_open_axis (hm 22 0))
       (shifts_dated jan15 (shifts sched))
  /\ (hm 22 0 <= hm 6 0 ->
      in_sequence_stored (hm 22 0) (shifts_dated jan15 (shifts sched))
        (hm 6 0)
      /\ pairwise_in_order id (shifts_dated jan15 (shifts sched))).
Proof.
  apply (day_shifts_disjoint_and_ordered night_shop 2024 1).
  - apply night_shop_well_formed.
  - apply night_shop_well_formed.
  - vm_compute. reflexivity.
  - vm_compute. reflexivity.
  - vm_compute. reflexivity.
Defined.

(** C10 as stated fails on the stored times when the opening hours cross
    midnight: in the night shop the shifts of 15 January are generated in
    the order 22:00-02:00, 02:00-06:00, and the stored start times
    decrease from 22:00 to 02:00.  It also fails for an employee with a
    negative minimum shift length: the two shifts of the half-hour shop,
    09:00-08:00 and 08:00-09:30, overlap and the second starts before the
    first. *)
Lemma night_shifts_start_times_decrease :
  ((flip (flip get_shifts_for_day MONDAY) (Some jan15)
      <$> generate_schedule night_shop 2024 1)
     = Some [night_shift_A; night_shift_B]
   /\ start_time night_shift_B < start_time night_shift_A
   /\ ~ pairwise_in_order id [night_shift_A; night_shift_B])
  /\ ((flip (flip get_shifts_for_day MONDAY) (Some jan15)
         <$> generate_schedule half_hour_shop 2024 1)
        = Some [backwards_shift; early_shift]
      /\ start_time early_shift < start_time backwards_shift
      /\ _times_overlap (start_time backwards_shift)
           (end_time backwards_shift) (start_time early_shift)
           (end_time early_shift) = true).
Proof.
  split; [|repeat split; vm_compute; reflexivity].
  split; [vm_compute; reflexivity|]. split; [vm_compute; reflexivity|].
  intros H. destruct (H 0%nat 1%nat _ _ eq_refl eq_refl ltac:(lia)) as [H1 _].
  revert H1. vm_compute. intros H1. now apply H1.
Qed.

(** * The last-resort fallback *)

Section QMinMax.

Lemma qmin_case (P : Q -> Prop) a b : P a -> P b -> P (qmin a b).
Proof. unfold qmin. now case_match. Qed.

Lemma qmax_ge_r a b : (b <= qmax a b)%Q.
Proof.
  unfold qmax. destruct (Qlt_bool a b) eqn:E.
  - apply Qle_refl.
  - now apply Qlt_bool_false_iff.
Qed.

Lemma fallback_length_ge_1 total remaining :
  (1 <= total)%Q -> (1 <= fallback_length total remaining)%Q.
Proof.
  intros Ht. unfold fallback_length.
  apply qmin_case; [apply qmin_case; [exact Ht|apply qmax_ge_r]|].
  unfold Qle; simpl; lia.
Qed.

Lemma fallback_length_pos total remaining :
  (0 < total)%Q -> (0 < fallback_length total remaining)%Q.
Proof.
  intros Ht. unfold fallback_length.
  apply qmin_case; [apply qmin_case; [exact Ht|]|reflexivity].
  eapply Qlt_le_trans; [|apply qmax_ge_r]. reflexivity.
Qed.

End QMinMax.

Section NoShift.

Context (self : ShiftScheduler) (dow : DayOfWeek) (d close_dt : Z) (sd : Q).

Lemma day_step_length st :
  (length (ds_shifts st)
   <= length (ds_shifts (day_step self dow d close_dt sd st).1))%nat.
Proof.
  unfold day_step, place_shift.
  repeat case_match; simpl; rewrite ?length_app; simpl; lia.
Qed.

Lemma day_loop_length fuel st :
  (length (ds_shifts st)
   <= length (ds_shifts (day_loop fuel self dow d close_dt sd st)))%nat.
Proof.
  revert st. induction fuel as [|fuel IH]; simpl; intros st; [lia|].
  case_bool_decide; [|lia].
  pose proof (day_step_length st) as Hstep.
  destruct (day_step self dow d close_dt sd st) as [st' []]; simpl in Hstep;
    [|exact Hstep].
  etransitivity; [exact Hstep|apply IH].
Qed.

Lemma day_step_hours st :
  ds_shifts (day_step self dow d close_dt sd st).1 = [] ->
  ds_employee_hours (day_step self dow d close_dt sd st).1
  = ds_employee_hours st.
Proof.
  unfold day_step, place_shift.
  repeat case_match; simpl; try reflexivity;
    intros [? ?]%app_eq_nil; discriminate.
Qed.

(** A loop that ends without a shift leaves the dictionary as it was. *)
Lemma day_loop_hours fuel st :
  ds_shifts (day_loop fuel self dow d close_dt sd st) = [] ->
  ds_employee_hours (day_loop fuel self dow d close_dt sd st)
  = ds_employee_hours st.
Proof.
  revert st. induction fuel as [|fuel IH]; simpl; intros st; [reflexivity|].
  case_bool_decide; [|reflexivity].
  pose proof (day_step_hours st) as Hh.
  pose proof (day_loop_length fuel (day_step self dow d close_dt sd st).1)
    as Hlen.
  destruct (day_step self dow d close_dt sd st) as [st' []]; simpl in *;
    [|exact Hh].
  intros Hnil. rewrite (IH st' Hnil). apply Hh.
  rewrite Hnil in Hlen. destruct (ds_shifts st'); [reflexivity|].
  simpl in Hlen. lia.
Qed.

End NoShift.

Lemma date_in_datetimes_false d l : date_in_datetimes d l = false.
Proof. unfold date_in_datetimes. now induction l. Qed.

Lemma fallback_candidate_can_work dow date_only emp :
  fallback_candidate dow date_only emp = can_work emp dow.
Proof.
  unfold fallback_candidate, can_work.
  rewrite date_in_datetimes_false. simpl.
  rewrite andb_true_r. apply andb_diag.
Qed.

(** The dictionary [generate_schedule] starts from holds every name of
    the roster, at 0 hours. *)
Lemma initial_hours_sound l' : hours_sound l' (initial_hours l').
Proof.
  unfold initial_hours. induction l' as [|e l' [IH1 IH2]]; split.
  - intros e He. now apply elem_of_nil in He.
  - apply map_Forall_empty.
  - intros e' He'. cbn [map]. rewrite list_to_map_cons.
    destruct (decide (name e = name e')) as [->|Hne].
    + rewrite lookup_insert_eq. eauto.
    + rewrite lookup_insert_ne by exact Hne.
      apply elem_of_cons in He' as [->|He']; [contradiction|auto].
  - cbn [map]. rewrite list_to_map_cons.
    apply map_Forall_insert_2; [apply Qle_refl|exact IH2].
Qed.

(** C7, amended.  The dictionary of accumulated hours holds every name of
    the roster with a value that is not negative, as [generate_schedule]
    keeps it.  On a day with opening hours of positive length, on which
    at least one employee can work the weekday with accumulated hours
    below the cap, and on which the main loop produces no shift: if [emp]
    is not marked wholly unavailable for the weekday/date and every
    employee before [emp] in the roster has the weekday in
    [unavailable_days], then the day's result is exactly one shift,
    assigned to [emp], starting at the opening time and lasting
    [timedelta(hours = min(total, max(remaining budget, 1), 8))], clipped
    to the closing time, and its hours are added to the dictionary. *)
Theorem fallback_staffs_first_candidate (self : ShiftScheduler)
    (dow : DayOfWeek) (d o c : Z) (h : gmap string Q)
    (pre post : list Employee) (emp : Employee) :
  hours_sound (employees self) h ->
  employees self = pre ++ emp :: post ->
  Forall (fun e => dow ∈ unavailable_days e) pre ->
  ~ wholly_unavailable emp dow d ->
  (exists e, e ∈ employees self /\ has_capacity h dow e = true) ->
  open_dt_of d o < close_dt_of d o c ->
  ds_shifts (main_loop self dow d o c h) = [] ->
  _generate_shifts_for_day self dow d o c h
  = ([fallback_shift emp dow d o c h],
     hours_add h (name emp) (duration_hours (fallback_shift emp dow d o c h))).
Proof.
  intros _ Hroster Hpre Hemp (e & He & Hcap) Hlen Hnone.
  unfold _generate_shifts_for_day.
  rewrite bool_decide_eq_false_2.
  2:{ intros Hnil. eapply (filter_nil_not_elem_of _ _ e); eauto. }
  rewrite Hnone. simpl.
  assert (ds_employee_hours (main_loop self dow d o c h) = h) as ->
    by (apply (day_loop_hours self dow d _ _ max_iterations); exact Hnone).
  unfold fallback. rewrite Hroster, filter_app.
  rewrite (filter_none _ pre).
  2:{ eapply Forall_impl; [exact Hpre|]. intros e' He'.
      rewrite fallback_candidate_can_work. unfold can_work.
      rewrite bool_decide_eq_false_2; [discriminate|]. auto. }
  rewrite filter_cons_True.
  2:{ rewrite fallback_candidate_can_work. apply bool_decide_eq_true_2.
      intros Hin. apply Hemp. now left. }
  simpl.
  set (total := hours_of (close_dt_of d o c - open_dt_of d o)).
  set (remaining := (max_hours_per_month emp - hours_get h (name emp))%Q).
  assert (0 < total)%Q as Htotal by (unfold total, hours_of, Qlt; simpl; lia).
  rewrite (proj2 (Qlt_bool_iff 0 total) Htotal).
  fold (fallback_length total remaining).
  assert ((if Qle_bool 1 total then qmax (fallback_length total remaining) 1
           else fallback_length total remaining)
          = fallback_length total remaining) as ->.
  { destruct (Qle_bool 1 total) eqn:E; [|reflexivity].
    apply Qle_bool_iff in E. unfold qmax.
    now rewrite (proj2 (Qlt_bool_false_iff _ _)
                   (fallback_length_ge_1 total remaining E)). }
  rewrite (proj2 (Qlt_bool_iff 0 _) (fallback_length_pos total remaining
                                       Htotal)).
  reflexivity.
Qed.

Lemma fallback_staffs_first_candidate_witness :
  _generate_shifts_for_day blocked_shop MONDAY jan15 (hm 9 0) (hm 15 0)
    (initial_hours (employees blocked_shop))
  = ([fallback_shift blocked_employee MONDAY jan15 (hm 9 0) (hm 15 0)
        (initial_hours (employees blocked_shop))],
     hours_add (initial_hours (employees blocked_shop)) "A"
       (duration_hours
          (fallback_shift blocked_employee MONDAY jan15 (hm 9 0) (hm 15 0)
             (initial_hours (employees blocked_shop))))).
Proof.
  apply (fallback_staffs_first_candidate blocked_shop MONDAY jan15 (hm 9 0)
           (hm 15 0) (initial_hours (employees blocked_shop)) [] []
           blocked_employee).
  - apply initial_hours_sound.
  - reflexivity.
  - apply Forall_nil_2.
  - intros [H|[H _]]; vm_compute in H; inversion H.
  - exists blocked_employee. split; [apply list_elem_of_here|].
    vm_compute. reflexivity.
  - vm_compute. reflexivity.
  - vm_compute. reflexivity.
Defined.

(** C7 as stated fails when no employee is below the cap.  The only
    employee has a cap of 6 hours and works 6 hours on 1 April 2024.  On
    2 April the store is open and the employee is not marked unavailable,
    the main loop places nothing, and no fallback shift is assigned: the
    day returns before the loop and the fallback, and the month's schedule
    holds the shift of 1 April only. *)
Lemma capped_employee_gets_no_fallback :
  let emp := default_employee "A" [] 6 in
  let h := hours_add (initial_hours (employees exact_cap)) "A"
             (hours_of (hm 15 0 - hm 9 0)) in
  generate_schedule_state exact_cap 2024 4
    = Some ({| month := 4; year := 2024;
               shifts := [ {| employee_name := "A"; day := MONDAY;
                              start_time := hm 9 0; end_time := hm 15 0;
                              date := Some apr1 |} ] |}, h)
  /\ get_hours (store_hours exact_cap) TUESDAY (Some apr2)
     = Some (hm 9 0, hm 15 0)
  /\ ~ wholly_unavailable emp TUESDAY apr2
  /\ ds_shifts (main_loop exact_cap TUESDAY apr2 (hm 9 0) (hm 15 0) h) = []
  /\ _generate_shifts_for_day exact_cap TUESDAY apr2 (hm 9 0) (hm 15 0) h
     = ([], h).
Proof.
  repeat split; try (vm_compute; reflexivity).
  intros [H|[H _]]; vm_compute in H; inversion H.
Qed.

(** The date test of the fallback never excludes anyone: "A" is marked
    wholly unavailable for 15 January 2024 and refused by
    [is_available_at_time] all day, yet receives the fallback shift, ahead
    of "B", who carries no whole-day mark. *)
Lemma fallback_ignores_date_mark :
  wholly_unavailable marked_employee MONDAY jan15
  /\ ~ wholly_unavailable windowed_B MONDAY jan15
  /\ ds_shifts (main_loop marked_shop MONDAY jan15 (hm 9 0) (hm 15 0)
                  (initial_hours (employees marked_shop))) = []
  /\ shifts <$> generate_schedule marked_shop 2024 1
     = Some [ {| employee_name := "A"; day := MONDAY; start_time := hm 9 0;
                 end_time := hm 15 0; date := Some jan15 |} ].
Proof.
  split; [right; split; [apply list_elem_of_here|reflexivity]|].
  split; [intros [H|[H _]]; vm_compute in H; inversion H|].
  split; vm_compute; reflexivity.
Qed.

(** * The first-ranked employee and the whole day *)

Section WholeRemainingTime.

Lemma qmin_le_r x rt : Qlt_bool rt (qmin x rt) = false.
Proof.
  unfold qmin. destruct (Qlt_bool rt x) eqn:E; [|exact E].
  apply Qlt_bool_false_iff, Qle_refl.
Qed.

Lemma insert_desc_head x rt l :
  Qlt_bool rt x = false -> exists l', insert_desc x (rt :: l) = rt :: l'.
Proof. intros H. simpl. rewrite H. case_match; eauto. Qed.

(** The candidate durations always start with the whole remaining time. *)
Lemma potential_durations_head sd rh rt :
  exists rest, potential_durations sd rh rt = rt :: rest.
Proof.
  unfold potential_durations, sorted_set_desc. cbn [foldr].
  change (insert_desc rt []) with [rt].
  destruct (insert_desc_head (qmin rh rt) rt [] (qmin_le_r _ _)) as [l1 ->].
  apply insert_desc_head, qmin_le_r.
Qed.

Lemma round_half_even_inject (n : Z) : round_half_even (inject_Z n) = n.
Proof.
  unfold round_half_even. rewrite Qfloor_Z.
  assert (Qlt_bool (inject_Z n - inject_Z n) (1 # 2) = true) as ->;
    [|reflexivity].
  apply Qlt_bool_iff. unfold Qlt, Qminus, Qplus, Qopp, inject_Z; simpl. lia.
Qed.

Lemma round_half_even_Qeq (p q : Q) :
  p == q -> round_half_even p = round_half_even q.
Proof.
  intros H. unfold round_half_even, Qlt_bool.
  rewrite (Qfloor_comp p q H).
  assert (p - inject_Z (Qfloor q) == q - inject_Z (Qfloor q)) as Hr
    by now rewrite H.
  rewrite (Qleb_comp _ _ (Qeq_refl (1 # 2)) _ _ Hr).
  now rewrite (Qleb_comp _ _ Hr _ _ (Qeq_refl (1 # 2))).
Qed.

Lemma timedelta_hours_of (td : Z) : timedelta_hours (hours_of td) = td.
Proof.
  unfold timedelta_hours. rewrite <- (round_half_even_inject td) at 2.
  apply round_half_even_Qeq.
  unfold hours_of, US_PER_HOUR, Qeq, Qmult, inject_Z; simpl. lia.
Qed.

End WholeRemainingTime.

Lemma day_loop_unfold fuel self dow d close_dt sd st :
  day_loop (S fuel) self dow d close_dt sd st
  = if bool_decide (ds_current_dt st < close_dt) then
      match day_step self dow d close_dt sd st with
      | (st', true) => day_loop fuel self dow d close_dt sd st'
      | (st', false) => st'
      end
    else st.
Proof. reflexivity. Qed.

Lemma rejects_whole_remaining_time (rt m : Q) :
  (1 <= rt)%Q -> rejects_duration 0 rt rt m = false.
Proof.
  intros Hrt. unfold rejects_duration, allow_short_shift.
  assert (Qle_bool (rt * 0.8) rt = true) as ->.
  { apply Qle_bool_iff. rewrite <- (Qmult_1_r rt) at 2.
    apply Qmult_le_l; [|unfold Qle; simpl; lia].
    eapply Qlt_le_trans; [|exact Hrt]. reflexivity. }
  rewrite (proj2 (Qlt_bool_false_iff rt 1) Hrt). simpl.
  now rewrite andb_false_r.
Qed.

Section WholeDay.

Context (self : ShiftScheduler) (dow : DayOfWeek) (d : Z)
  (open_time close_time : Z) (h : gmap string Q).

Let open_dt := open_dt_of d open_time.
Let close_dt := close_dt_of d open_time close_time.

Context (emp : Employee) (rest : list Employee).
Hypothesis Hfirst :
  sort_employees h dow d
    (filter (fun e => has_capacity h dow e = true) (employees self))
  = emp :: rest.
Hypothesis Hopen : open_dt < close_dt.
Hypothesis Hhour : (1 <= hours_of (close_dt - open_dt))%Q.
Hypothesis Havailable :
  is_available_at_time emp dow (datetime_time open_dt)
    (datetime_time close_dt) (Some d) = true.

Let st0 : DayState :=
  {| ds_shifts := []; ds_current_dt := open_dt; ds_last_current_dt := None;
     ds_employee_hours := h |}.

Lemma eligible_nonempty :
  filter (fun e => has_capacity h dow e = true) (employees self) ≠ [].
Proof. intros Hnil. rewrite Hnil in Hfirst. discriminate. Qed.

Lemma first_step_takes_whole_day sd :
  day_step self dow d close_dt sd st0
  = (place_shift dow d emp close_dt st0, true).
Proof.
  subst st0. unfold day_step. cbn [ds_employee_hours ds_shifts ds_current_dt].
  rewrite (bool_decide_eq_false_2 _ eligible_nonempty), Hfirst.
  set (rt := hours_of (close_dt - open_dt)) in *.
  assert (Qlt_bool rt 0.25 = false) as ->.
  { apply Qlt_bool_false_iff. eapply Qle_trans; [|exact Hhour].
    unfold Qle; simpl; lia. }
  rewrite andb_false_r.
  cbn [length try_employees]. rewrite Nat.Div0.mod_0_l.
  cbn [lookup list_lookup]. cbn [ds_employee_hours ds_shifts ds_current_dt].
  destruct (potential_durations_head sd
              (max_hours_per_month emp - hours_get h (name emp)) rt)
    as [ds ->].
  cbn [try_durations length].
  rewrite (rejects_whole_remaining_time rt _ Hhour).
  unfold rt. rewrite timedelta_hours_of.
  replace (open_dt + (close_dt - open_dt)) with close_dt by lia.
  rewrite bool_decide_eq_false_2 by lia. cbn [andb].
  now rewrite Havailable.
Qed.

Lemma main_loop_takes_whole_day :
  main_loop self dow d open_time close_time h
  = place_shift dow d emp close_dt st0.
Proof.
  unfold main_loop. fold open_dt close_dt st0.
  change max_iterations with (S (S 998)).
  rewrite day_loop_unfold. cbn [ds_current_dt st0].
  rewrite bool_decide_eq_true_2 by exact Hopen.
  rewrite first_step_takes_whole_day, day_loop_unfold.
  cbn [place_shift ds_current_dt].
  now rewrite bool_decide_eq_false_2 by lia.
Qed.

(** Whenever the employee ranked first is available over the whole opening
    hours and these last an hour or more, the day is one shift covering
    them, whatever the target length, the employee's remaining budget or
    maximum shift length. *)
Lemma first_ranked_takes_whole_day :
  _generate_shifts_for_day self dow d open_time close_time h
  = ([whole_day_shift emp dow d open_time close_time],
     hours_add h (name emp)
       (duration_hours (whole_day_shift emp dow d open_time close_time))).
Proof.
  unfold _generate_shifts_for_day.
  rewrite (bool_decide_eq_false_2 _ eligible_nonempty).
  rewrite main_loop_takes_whole_day. reflexivity.
Qed.

End WholeDay.

Section ScenarioB.

Context (n : string) (prefs : list DayOfWeek).

Let self := scenario_B n prefs.
Let emp := default_employee n prefs 1000.

Lemma scenario_B_day dow d h :
  (hours_get h n < 1000)%Q ->
  _generate_shifts_for_day self dow d (hm 9 0) (hm 15 0) h
  = ([ {| employee_name := n; day := dow; start_time := hm 9 0;
          end_time := hm 15 0; date := Some d |} ],
     hours_add h n (hours_of (hm 15 0 - hm 9 0))).
Proof.
  intros Hcap.
  assert (valid_time (hm 9 0)) as H9 by (vm_compute; intuition discriminate).
  assert (valid_time (hm 15 0)) as H15 by (vm_compute; intuition discriminate).
  assert (close_dt_of d (hm 9 0) (hm 15 0) - open_dt_of d (hm 9 0)
          = hm 15 0 - hm 9 0) as Hspan.
  { unfold close_dt_of, open_dt_of, combine, hm, US_PER_HOUR, US_PER_DAY.
    case_match; lia. }
  rewrite (first_ranked_takes_whole_day self dow d (hm 9 0) (hm 15 0) h
             emp []).
  - unfold whole_day_shift, close_dt_of, duration_hours.
    unfold open_dt_of. cbv zeta.
    assert ((combine (datetime_date d) (hm 15 0)
             <? combine (datetime_date d) (hm 9 0)) = false) as ->
      by (unfold combine, hm, US_PER_HOUR, US_PER_DAY; lia).
    cbn [start_time end_time].
    rewrite !datetime_time_combine by assumption. reflexivity.
  - unfold self, scenario_B, sort_employees. cbn [employees].
    rewrite filter_cons_True; [reflexivity|].
    unfold has_capacity, emp, default_employee, can_work; cbn.
    now apply Qlt_bool_iff.
  - revert Hspan. unfold hm, US_PER_HOUR. lia.
  - rewrite Hspan. vm_compute. discriminate.
  - unfold is_available_at_time, weekday_available, emp, default_employee.
    cbn. rewrite !lookup_empty. reflexivity.
Qed.

Lemma scenario_B_open d :
  is_open (store_hours self) (day_of_week d) (Some d) = true
  /\ get_hours (store_hours self) (day_of_week d) (Some d)
     = Some (hm 9 0, hm 15 0).
Proof.
  unfold is_open, get_hours, self, scenario_B.
  cbn [store_hours date_overrides hours].
  rewrite lookup_empty.
  destruct (day_of_week d); split; vm_compute; reflexivity.
Qed.

Lemma scenario_B_date sched h d :
  (hours_get h n < 1000)%Q ->
  schedule_date self (sched, h) d
  = (add_shift sched (six_hour_shift n d),
     hours_add h n (hours_of (hm 15 0 - hm 9 0))).
Proof.
  intros Hcap. unfold schedule_date.
  destruct (weekday_total d) as [dow Hdow].
  pose proof (scenario_B_open d) as [Ho Hg].
  assert (day_of_week d = dow) as Hd
    by (unfold day_of_week; now rewrite Hdow).
  unfold six_hour_shift. rewrite Hd in *.
  rewrite Hdow, Ho, Hg. cbn [negb snd fst].
  now rewrite scenario_B_day.
Qed.

Lemma hours_get_add h q : hours_get (hours_add h n q) n = (hours_get h n + q)%Q.
Proof. unfold hours_add, hours_get at 1. now rewrite lookup_insert_eq. Qed.

Lemma scenario_B_fold dates : forall sched h k,
  0 <= k -> k + Z.of_nat (length dates) <= 166 ->
  hours_get h n == inject_Z (6 * k) ->
  shifts (foldl (schedule_date self) (sched, h) dates).1
    = shifts sched ++ map (six_hour_shift n) dates
  /\ hours_get (foldl (schedule_date self) (sched, h) dates).2 n
     == inject_Z (6 * (k + Z.of_nat (length dates))).
Proof.
  induction dates as [|d dates IH]; intros sched h k Hk Hlen Hh.
  - simpl. rewrite app_nil_r, Z.add_0_r. auto.
  - cbn [foldl]. cbn [length] in *.
    rewrite scenario_B_date.
    2:{ rewrite Hh. unfold Qlt; simpl. lia. }
    destruct (IH (add_shift sched (six_hour_shift n d))
                (hours_add h n (hours_of (hm 15 0 - hm 9 0))) (k + 1))
      as [IH1 IH2]; [lia|lia| |].
    + rewrite hours_get_add, Hh.
      change (hours_of (hm 15 0 - hm 9 0)) with (21600000000 # 3600000000).
      unfold Qeq, Qplus, inject_Z; cbn [Qnum Qden]. lia.
    + split.
      * rewrite IH1. simpl. now rewrite <- app_assoc.
      * rewrite IH2. apply inject_Z_injective. lia.
Qed.

End ScenarioB.

Section ScenarioBMonth.

Context (n : string) (prefs : list DayOfWeek).

Lemma six_hour_shifts_dated dates d :
  NoDup dates -> d ∈ dates ->
  shifts_dated d (map (six_hour_shift n) dates) = [six_hour_shift n d].
Proof.
  unfold shifts_dated. induction 1 as [|d' dates Hd' Hnd IH]; intros Hin.
  - now apply elem_of_nil in Hin.
  - cbn [map]. apply elem_of_cons in Hin as [->|Hin].
    + rewrite filter_cons_True by reflexivity. f_equal.
      apply filter_none, Forall_forall.
      intros s (d'' & -> & Hd'')%list_elem_of_fmap. simpl.
      intros [= ->]. contradiction.
    + rewrite filter_cons_False; [now apply IH|].
      simpl. intros [= ->]. contradiction.
Qed.

Lemma six_hour_shifts_sum dates : forall acc : Q,
  foldl Qplus acc (map duration_hours (map (six_hour_shift n) dates))
  == acc + inject_Z (6 * Z.of_nat (length dates)).
Proof.
  induction dates as [|d dates IH]; intros acc.
  - simpl. now rewrite Qplus_0_r.
  - cbn [map foldl length]. rewrite IH.
    change (duration_hours (six_hour_shift n d))
      with (21600000000 # 3600000000).
    rewrite <- Qplus_assoc. apply Qplus_comp; [reflexivity|].
    unfold Qeq, Qplus, inject_Z; cbn [Qnum Qden]. lia.
Qed.

Lemma six_hour_shifts_total dates :
  qsum (map duration_hours (map (six_hour_shift n) dates))
  == inject_Z (6 * Z.of_nat (length dates)).
Proof. unfold qsum. rewrite six_hour_shifts_sum. apply Qplus_0_l. Qed.

(** C9.  One employee without restrictions and with a cap of 1000 hours,
    store open 09:00-15:00 every day: on every month of 30 days the
    schedule is exactly one shift 09:00-15:00 per day, in the order of the
    days, all for that employee; it has 30 shifts of 6 hours, 180 hours in
    total. *)
Theorem scenario_B_one_shift_per_day (y m : Z) :
  valid_month y m ->
  days_in_month y m = 30 ->
  exists dates sched,
    _get_dates_in_month y m = Some dates
    /\ generate_schedule (scenario_B n prefs) y m = Some sched
    /\ shifts sched = map (six_hour_shift n) dates
    /\ length (shifts sched) = 30%nat
    /\ Forall (fun s => employee_name s = n /\ duration_hours s == 6)
         (shifts sched)
    /\ (forall d, d ∈ dates ->
          shifts_dated d (shifts sched) = [six_hour_shift n d])
    /\ get_total_hours_for_employee sched n == 180.
Proof.
  intros Hvm Hdim.
  destruct (generate_schedule_is_Some (scenario_B n prefs) y m Hvm)
    as [sched Hgen].
  pose proof Hgen as Hgen'.
  unfold generate_schedule, generate_schedule_state in Hgen'.
  destruct (_get_dates_in_month y m) as [dates|] eqn:Hdates; [|discriminate].
  assert (length dates = 30%nat) as Hlen.
  { revert Hdates. unfold _get_dates_in_month.
    destruct (first_of_month y m); [|discriminate].
    case_match; [discriminate|]. intros [= <-].
    rewrite length_map, length_seqZ, Hdim. reflexivity. }
  destruct (scenario_B_fold n prefs dates
              {| month := m; year := y; shifts := [] |}
              (initial_hours (employees (scenario_B n prefs))) 0)
    as [Hshifts _]; [lia|lia| |].
  { unfold hours_get, initial_hours. cbn. rewrite lookup_insert_eq.
    reflexivity. }
  match type of Hgen' with
  | context [foldl ?f ?a ?l] => set (r := foldl f a l) in *
  end.
  change (Some r.1 = Some sched) in Hgen'. injection Hgen' as <-.
  cbn [shifts app] in Hshifts.
  exists dates, r.1. split; [reflexivity|]. split; [exact Hgen|].
  split; [exact Hshifts|]. rewrite Hshifts.
  split; [now rewrite length_map|]. split; [|split].
  - apply Forall_forall. intros s (d & -> & _)%list_elem_of_fmap.
    split; reflexivity.
  - intros d Hd. apply six_hour_shifts_dated; [|exact Hd].
    eapply dates_in_month_NoDup; eauto.
  - unfold get_total_hours_for_employee, get_shifts_for_employee.
    rewrite Hshifts, filter_all.
    + rewrite six_hour_shifts_total, Hlen. reflexivity.
    + apply Forall_forall. now intros s (d & -> & _)%list_elem_of_fmap.
Qed.

End ScenarioBMonth.

Lemma scenario_B_one_shift_per_day_witness :
  exists dates sched,
    _get_dates_in_month 2024 4 = Some dates
    /\ generate_schedule (scenario_B "A" []) 2024 4 = Some sched
    /\ shifts sched = map (six_hour_shift "A") dates
    /\ length (shifts sched) = 30%nat
    /\ Forall (fun s => employee_name s = "A" /\ duration_hours s == 6)
         (shifts sched)
    /\ (forall d, d ∈ dates ->
          shifts_dated d (shifts sched) = [six_hour_shift "A" d])
    /\ get_total_hours_for_employee sched "A" == 180.
Proof.
  apply (scenario_B_one_shift_per_day "A" [] 2024 4).
  - unfold valid_month. lia.
  - reflexivity.
Defined.

(** * The exceptions the model leaves out

    A lookup [employee_hours[emp.name]] of an absent name raises
    [KeyError], and the sort key divides by the cap.  The lemmas of this
    section show that neither arises in a run of [generate_schedule]: the
    dictionary keeps every name of the roster with a value that is not
    negative, so an employee below the cap has a positive cap.

    Not modelled: the range errors of [timedelta] and of [datetime]
    arithmetic inside a day.  They need a minimum shift length beyond
    999999999 days in absolute value, or a cursor moved before year 1 by
    a negative minimum shift length; the last day of year 9999 is refused
    by [_get_dates_in_month] before any day is generated. *)

Section Exceptions.

Context (l : list Employee).

Lemma hours_get_nonneg h n :
  map_Forall (fun _ q => (0 <= q)%Q) h -> (0 <= hours_get h n)%Q.
Proof.
  intros Hh. unfold hours_get.
  destruct (h !! n) as [q|] eqn:E; simpl; [exact (Hh n q E)|apply Qle_refl].
Qed.

Lemma hours_add_sound h n q :
  (0 <= q)%Q -> hours_sound l h -> hours_sound l (hours_add h n q).
Proof.
  intros Hq [Hk Hn]. unfold hours_add. split.
  - intros e He. destruct (decide (n = name e)) as [->|Hne].
    + rewrite lookup_insert_eq. eauto.
    + rewrite lookup_insert_ne by exact Hne. auto.
  - apply map_Forall_insert_2; [|exact Hn].
    rewrite <- (Qplus_0_r 0). apply Qplus_le_compat; [|exact Hq].
    now apply hours_get_nonneg.
Qed.

Lemma duration_hours_nonneg s :
  stored_times_valid s -> (0 <= duration_hours s)%Q.
Proof.
  intros [Hs He]. apply hours_of_nonneg.
  unfold wrapped_span, valid_time in *. case_match; lia.
Qed.

(** The divisor of the sort key is positive: an employee that passes the
    filter has a cap above its accumulated hours, which are not negative. *)
Lemma has_capacity_cap_positive h dow e :
  hours_sound l h -> has_capacity h dow e = true ->
  (0 < max_hours_per_month e)%Q.
Proof.
  intros [_ Hn]. unfold has_capacity.
  intros [_ Hlt%Qlt_bool_iff]%andb_true_iff.
  eapply Qle_lt_trans; [|exact Hlt]. now apply hours_get_nonneg.
Qed.

Section OneDay.

Context (self : ShiftScheduler) (dow : DayOfWeek) (d : Z).

Lemma place_shift_sound emp end_dt st :
  hours_sound l (ds_employee_hours st) ->
  hours_sound l (ds_employee_hours (place_shift dow d emp end_dt st)).
Proof.
  intros H. unfold place_shift. cbn [ds_employee_hours].
  apply hours_add_sound; [|exact H].
  apply duration_hours_nonneg. split; apply datetime_time_valid.
Qed.

Lemma day_step_sound close_dt sd st :
  hours_sound l (ds_employee_hours st) ->
  hours_sound l (ds_employee_hours (day_step self dow d close_dt sd st).1).
Proof.
  intros H. unfold day_step.
  repeat case_match; cbn [fst]; auto using place_shift_sound.
Qed.

Lemma day_loop_sound fuel close_dt sd st :
  hours_sound l (ds_employee_hours st) ->
  hours_sound l (ds_employee_hours (day_loop fuel self dow d close_dt sd st)).
Proof.
  revert st. induction fuel as [|fuel IH]; simpl; intros st H; [exact H|].
  case_bool_decide; [|exact H].
  pose proof (day_step_sound close_dt sd st H) as Hstep.
  destruct (day_step self dow d close_dt sd st) as [st' []]; simpl in Hstep;
    auto.
Qed.

Lemma day_sound open_time close_time h :
  valid_time open_time ->
  hours_sound l h ->
  hours_sound l (_generate_shifts_for_day self dow d open_time close_time h).2.
Proof.
  intros Ho H. unfold _generate_shifts_for_day.
  case_bool_decide; [exact H|].
  pose proof (day_loop_sound max_iterations
                (close_dt_of d open_time close_time)
                (target_shift_duration
                   (hours_of (close_dt_of d open_time close_time
                              - open_dt_of d open_time)))
                {| ds_shifts := []; ds_current_dt := open_dt_of d open_time;
                   ds_last_current_dt := None; ds_employee_hours := h |} H)
    as Hloop.
  fold (main_loop self dow d open_time close_time h) in Hloop.
  case_bool_decide; [|exact Hloop].
  unfold fallback. repeat case_match; cbn [snd]; try exact Hloop;
    (apply hours_add_sound; [|exact Hloop]);
    apply duration_hours_nonneg; (split; [exact Ho|apply datetime_time_valid]).
Qed.

End OneDay.

Context (self : ShiftScheduler).
Hypothesis Hvalid : store_hours_valid (store_hours self).

Lemma schedule_date_sound acc d :
  hours_sound l acc.2 -> hours_sound l (schedule_date self acc d).2.
Proof.
  intros H. unfold schedule_date.
  destruct (DayOfWeek_of_value (weekday d)) as [dow|]; [|exact H].
  destruct (negb _); [exact H|].
  destruct (get_hours _ _ _) as [[o c]|] eqn:Hg; [|exact H].
  destruct (get_hours_valid _ _ _ _ _ Hvalid Hg) as [Ho _].
  pose proof (day_sound self dow d o c acc.2 Ho H) as Hday.
  now destruct (_generate_shifts_for_day self dow d o c acc.2).
Qed.

Lemma month_fold_sound dates : forall acc,
  hours_sound l acc.2 ->
  hours_sound l (foldl (schedule_date self) acc dates).2.
Proof.
  induction dates as [|d dates IH]; intros acc Hacc; [exact Hacc|].
  simpl. apply IH. now apply schedule_date_sound.
Qed.

(** The dictionary stays sound through the whole month: the engine never
    indexes a missing key and never divides by a zero cap. *)
Lemma generate_schedule_state_sound y m sched h :
  l = employees self ->
  generate_schedule_state self y m = Some (sched, h) ->
  hours_sound l h.
Proof.
  intros Hl. unfold generate_schedule_state.
  destruct (_get_dates_in_month y m) as [dates|]; [|discriminate].
  intros [= Hfold].
  pose proof (initial_hours_sound (employees self)) as Hinit.
  rewrite <- Hl in Hinit at 1.
  pose proof (month_fold_sound dates
                ({| month := m; year := y; shifts := [] |},
                 initial_hours (employees self)) Hinit) as Hall.
  now rewrite Hfold in Hall.
Qed.

End Exceptions.

(** * The setters of the store hours *)

Lemma normalize_date_same_day d d' :
  _normalize_date d = _normalize_date d' <-> same_day d d'.
Proof.
  unfold _normalize_date, same_day, combine, US_PER_DAY. lia.
Qed.

(** X1.  An override governs every instant of its calendar day.  After
    [set_hours_for_date] the hours of the date are the ones given and the
    store is open, and after [set_closed_for_date] the date has no hours
    and the store is closed, whatever the time of day carried by either
    [datetime] and whatever the weekday table holds. *)
Theorem override_governs_its_day (self : StoreHours) (dow : DayOfWeek)
    (d d' : Z) (o c : Z) :
  same_day d d' ->
  get_hours (set_hours_for_date self d o c) dow (Some d') = Some (o, c)
  /\ is_open (set_hours_for_date self d o c) dow (Some d') = true
  /\ get_hours (set_closed_for_date self d) dow (Some d') = None
  /\ is_open (set_closed_for_date self d) dow (Some d') = false.
Proof.
  intros Hd. apply normalize_date_same_day in Hd.
  unfold get_hours, is_open, set_hours_for_date, set_closed_for_date; simpl.
  rewrite <- Hd, !lookup_insert_eq. repeat split.
Qed.

Lemma override_governs_its_day_witness :
  get_hours (set_hours_for_date (store_hours scenario_E) jan15 (hm 10 0)
               (hm 12 0)) MONDAY (Some (jan15 + hm 17 30))
    = Some (hm 10 0, hm 12 0)
  /\ is_open (set_hours_for_date (store_hours scenario_E) jan15 (hm 10 0)
                (hm 12 0)) MONDAY (Some (jan15 + hm 17 30)) = true
  /\ get_hours (set_closed_for_date (store_hours scenario_E) jan15) MONDAY
       (Some (jan15 + hm 17 30)) = None
  /\ is_open (set_closed_for_date (store_hours scenario_E) jan15) MONDAY
       (Some (jan15 + hm 17 30)) = false.
Proof.
  apply (override_governs_its_day (store_hours scenario_E) MONDAY jan15
           (jan15 + hm 17 30) (hm 10 0) (hm 12 0)).
  vm_compute. reflexivity.
Defined.

(** X2.  The setters are local.  An override set or removed for one
    calendar day changes the resolved hours of no other day, and
    [set_hours] for one weekday changes the resolved hours of no other
    weekday, with or without a date. *)
Theorem setters_are_local (self : StoreHours) (dow dow' : DayOfWeek)
    (d d' : Z) (o c : Z) (od : option Z) :
  ~ same_day d d' -> dow' <> dow ->
  get_hours (set_hours_for_date self d o c) dow (Some d')
    = get_hours self dow (Some d')
  /\ get_hours (set_closed_for_date self d) dow (Some d')
     = get_hours self dow (Some d')
  /\ get_hours (remove_date_override self d) dow (Some d')
     = get_hours self dow (Some d')
  /\ get_hours (set_hours self dow o c) dow' od = get_hours self dow' od.
Proof.
  intros Hd Hne. rewrite <- normalize_date_same_day in Hd.
  unfold get_hours, set_hours_for_date, set_closed_for_date,
    remove_date_override, set_hours; simpl.
  rewrite !lookup_insert_ne by auto.
  repeat split.
  case_bool_decide; [simpl|reflexivity].
  now rewrite lookup_delete_ne by exact Hd.
Qed.

Lemma setters_are_local_witness :
  get_hours (set_hours_for_date (store_hours scenario_E) jan15 (hm 10 0)
               (hm 12 0)) TUESDAY (Some (jan15 + US_PER_DAY))
    = get_hours (store_hours scenario_E) TUESDAY (Some (jan15 + US_PER_DAY))
  /\ get_hours (set_closed_for_date (store_hours scenario_E) jan15) TUESDAY
       (Some (jan15 + US_PER_DAY))
     = get_hours (store_hours scenario_E) TUESDAY (Some (jan15 + US_PER_DAY))
  /\ get_hours (remove_date_override (store_hours scenario_E) jan15) TUESDAY
       (Some (jan15 + US_PER_DAY))
     = get_hours (store_hours scenario_E) TUESDAY (Some (jan15 + US_PER_DAY))
  /\ get_hours (set_hours (store_hours scenario_E) TUESDAY (hm 10 0)
                  (hm 12 0)) MONDAY (Some jan15)
     = get_hours (store_hours scenario_E) MONDAY (Some jan15).
Proof.
  apply (setters_are_local (store_hours scenario_E) TUESDAY MONDAY jan15
           (jan15 + US_PER_DAY) (hm 10 0) (hm 12 0) (Some jan15)).
  - vm_compute. discriminate.
  - discriminate.
Defined.

(** X3.  [remove_date_override] undoes an override.  On a store that has
    no override for the day, setting one (open or closed) and removing it
    gives the store back; in every case the day is left without override
    and resolves to the weekday table; and removing where there is no
    override changes nothing. *)
Theorem remove_date_override_undoes (self : StoreHours) (dow : DayOfWeek)
    (d d' : Z) (o c : Z) :
  same_day d d' ->
  (has_date_override self d = false ->
     remove_date_override (set_hours_for_date self d o c) d' = self
     /\ remove_date_override (set_closed_for_date self d) d' = self
     /\ remove_date_override self d' = self)
  /\ has_date_override (remove_date_override self d) d' = false
  /\ get_hours (remove_date_override self d) dow (Some d') = hours self !! dow.
Proof.
  intros Hd. apply normalize_date_same_day in Hd.
  unfold has_date_override, remove_date_override, set_hours_for_date,
    set_closed_for_date, get_hours; simpl.
  rewrite <- Hd. split; [|split].
  - intros Hno%bool_decide_eq_false.
    assert (date_overrides self !! _normalize_date d = None) as Hnone.
    { destruct (date_overrides self !! _normalize_date d) eqn:E; [|easy].
      contradict Hno. eauto. }
    rewrite !lookup_insert_eq, Hnone.
    rewrite !bool_decide_eq_true_2 by eauto.
    rewrite bool_decide_eq_false_2 by (intros [? ?]; discriminate).
    rewrite !delete_insert_eq, !delete_id by exact Hnone.
    now destruct self.
  - destruct (date_overrides self !! _normalize_date d) as [v|] eqn:E.
    + rewrite (bool_decide_eq_true_2 (is_Some (Some v))) by eauto. simpl.
      apply bool_decide_eq_false_2. rewrite lookup_delete_eq.
      intros [? ?]; discriminate.
    + rewrite (bool_decide_eq_false_2 (is_Some None))
        by (intros [? ?]; discriminate).
      rewrite E. apply bool_decide_eq_false_2. intros [? ?]; discriminate.
  - destruct (date_overrides self !! _normalize_date d) as [v|] eqn:E.
    + rewrite (bool_decide_eq_true_2 (is_Some (Some v))) by eauto. simpl.
      now rewrite lookup_delete_eq.
    + rewrite (bool_decide_eq_false_2 (is_Some None))
        by (intros [? ?]; discriminate).
      now rewrite E.
Qed.

Lemma remove_date_override_undoes_witness :
  remove_date_override
    (set_hours_for_date (store_hours low_cap) jan15 (hm 10 0) (hm 12 0))
    (jan15 + hm 8 0) = store_hours low_cap.
Proof.
  apply (remove_date_override_undoes (store_hours low_cap) MONDAY jan15
           (jan15 + hm 8 0) (hm 10 0) (hm 12 0)).
  - vm_compute. reflexivity.
  - vm_compute. reflexivity.
Defined.

(** X4.  [get_date_override] raises [KeyError] exactly when
    [has_date_override] answers [False]; when it returns, it returns what
    [get_hours] resolves for the date on any weekday, and [is_open] is
    [True] exactly when that override is not a closed one. *)
Theorem get_date_override_agrees (self : StoreHours) (dow : DayOfWeek)
    (d : Z) :
  (get_date_override self d = None <-> has_date_override self d = false)
  /\ (forall v, get_date_override self d = Some v ->
        get_hours self dow (Some d) = v
        /\ is_open self dow (Some d) = bool_decide (v <> None)).
Proof.
  unfold get_date_override, has_date_override, get_hours, is_open.
  destruct (date_overrides self !! _normalize_date d) as [v|] eqn:E.
  - rewrite bool_decide_eq_true_2 by eauto. split.
    + split; discriminate.
    + intros v' [= ->]. auto.
  - rewrite bool_decide_eq_false_2 by (intros [? ?]; discriminate). split.
    + split; reflexivity.
    + discriminate.
Qed.

(** * More on availability and durations *)

Lemma normalize_date_date d :
  datetime_date (_normalize_date d) = datetime_date d.
Proof.
  unfold _normalize_date. apply datetime_date_combine.
  unfold valid_time, US_PER_DAY. lia.
Qed.

Lemma _times_overlap_narrow b s e s' e' us ue :
  s <= s' -> s' <= e' -> e' <= e ->
  _times_overlap (combine b s) (combine b e) (combine b us) (combine b ue)
    = false ->
  _times_overlap (combine b s') (combine b e') (combine b us) (combine b ue)
    = false.
Proof.
  unfold _times_overlap, combine, US_PER_DAY. intros H1 H2 H3.
  repeat case_match; lia.
Qed.

Lemma _is_within_range_narrow b s e s' e' rs re :
  s <= s' -> s' <= e' -> e' <= e ->
  _is_within_range (combine b s) (combine b e) (combine b rs) (combine b re)
    = true ->
  _is_within_range (combine b s') (combine b e') (combine b rs)
    (combine b re) = true.
Proof.
  unfold _is_within_range, combine, US_PER_DAY. intros H1 H2 H3.
  repeat case_match; lia.
Qed.

Lemma weekday_available_narrow emp dow s e s' e' :
  s <= s' -> s' <= e' -> e' <= e ->
  weekday_available emp dow s e = true ->
  weekday_available emp dow s' e' = true.
Proof.
  intros H1 H2 H3. unfold weekday_available, _time_to_datetime.
  destruct (_ && _); [discriminate|].
  destruct (unavailable_times_by_day emp !! dow) as [[us ue]|].
  - destruct (_times_overlap _ _ (combine _ us) _) eqn:E; [discriminate|].
    rewrite (_times_overlap_narrow _ s e s' e' us ue H1 H2 H3 E).
    destruct (available_times_by_day emp !! dow) as [[rs re]|]; [|reflexivity].
    now apply _is_within_range_narrow.
  - destruct (available_times_by_day emp !! dow) as [[rs re]|]; [|reflexivity].
    now apply _is_within_range_narrow.
Qed.

(** X5.  Availability is inherited by shorter windows.  If
    [is_available_at_time] accepts the window from [s] to [e], it accepts
    every window from [s'] to [e'] that lies inside it, with the same day
    and date. *)
Theorem is_available_at_time_narrower (emp : Employee) (dow : DayOfWeek)
    (s e s' e' : Z) (d : option Z) :
  s <= s' -> s' <= e' -> e' <= e ->
  is_available_at_time emp dow s e d = true ->
  is_available_at_time emp dow s' e' d = true.
Proof.
  intros H1 H2 H3. unfold is_available_at_time.
  destruct d as [dt|]; [|now apply weekday_available_narrow].
  unfold _time_to_datetime. case_bool_decide.
  - destruct (unavailable_times_by_date emp !! _) as [[us ue]|]; [|easy].
    rewrite !negb_true_iff. now apply _times_overlap_narrow.
  - destruct (available_times_by_date emp !! _) as [[rs re]|].
    + now apply _is_within_range_narrow.
    + now apply weekday_available_narrow.
Qed.

Lemma is_available_at_time_narrower_witness :
  is_available_at_time late_leaver MONDAY (hm 23 0) (hm 23 30) (Some jan15)
  = true.
Proof.
  apply (is_available_at_time_narrower late_leaver MONDAY (hm 22 0)
           (hm 23 45) (hm 23 0) (hm 23 30) (Some jan15));
    vm_compute; first [reflexivity | discriminate].
Defined.

(** X6.  Only the calendar day of a date argument matters.  Two
    [datetime] values of the same calendar day give the same answer in
    [is_available_at_time], [prefers_day], [get_hours] and [is_open]. *)
Theorem date_argument_by_calendar_day (emp : Employee) (sh : StoreHours)
    (dow : DayOfWeek) (s e : Z) (d d' : Z) :
  same_day d d' ->
  is_available_at_time emp dow s e (Some d)
    = is_available_at_time emp dow s e (Some d')
  /\ prefers_day emp dow (Some d) = prefers_day emp dow (Some d')
  /\ get_hours sh dow (Some d) = get_hours sh dow (Some d')
  /\ is_open sh dow (Some d) = is_open sh dow (Some d').
Proof.
  intros Hd. pose proof Hd as Hn. apply normalize_date_same_day in Hn.
  unfold same_day in Hd.
  unfold is_available_at_time, prefers_day, get_hours, is_open,
    _time_to_datetime.
  now rewrite Hn, Hd.
Qed.

Lemma date_argument_by_calendar_day_witness :
  is_available_at_time marked_employee MONDAY (hm 9 0) (hm 10 0)
    (Some jan15)
  = is_available_at_time marked_employee MONDAY (hm 9 0) (hm 10 0)
      (Some (jan15 + hm 13 20)).
Proof.
  apply (date_argument_by_calendar_day marked_employee
           (store_hours marked_shop) MONDAY (hm 9 0) (hm 10 0) jan15
           (jan15 + hm 13 20)).
  vm_compute. reflexivity.
Defined.

Lemma wrapped_span_bounds s e :
  valid_time s -> valid_time e ->
  0 <= wrapped_span s e < US_PER_DAY /\ (wrapped_span s e = 0 <-> s = e).
Proof.
  unfold valid_time, wrapped_span, US_PER_DAY. intros Hs He.
  case_match; lia.
Qed.

(** X7.  The length of a shift is at least 0 and below 24 hours, and it
    is 0 exactly when the shift ends at the time of day it starts at: a
    window of a full day cannot be told from an empty one.
    [TimeSlot.duration_hours] computes the same length from the same two
    times. *)
Theorem duration_hours_range (s : Shift) :
  valid_time (start_time s) -> valid_time (end_time s) ->
  (0 <= duration_hours s)%Q /\ (duration_hours s < 24)%Q
  /\ (duration_hours s == 0 <-> start_time s = end_time s)%Q
  /\ TimeSlot_duration_hours
       {| ts_day := day s; ts_start_time := start_time s;
          ts_end_time := end_time s |} = duration_hours s.
Proof.
  intros Hs He. destruct (wrapped_span_bounds _ _ Hs He) as [Hb Hz].
  unfold duration_hours, hours_of, Qle, Qlt, Qeq, US_PER_DAY in *.
  cbn [Qnum Qden]. rewrite <- Hz. repeat split; lia.
Qed.

Lemma duration_hours_range_witness :
  (0 <= duration_hours night_shift_A)%Q
  /\ (duration_hours night_shift_A < 24)%Q
  /\ (duration_hours night_shift_A == 0
      <-> start_time night_shift_A = end_time night_shift_A)%Q
  /\ TimeSlot_duration_hours
       {| ts_day := day night_shift_A;
          ts_start_time := start_time night_shift_A;
          ts_end_time := end_time night_shift_A |}
     = duration_hours night_shift_A.
Proof.
  apply (duration_hours_range night_shift_A);
    vm_compute; split; first [discriminate | reflexivity].
Defined.

(** * What every pass of the allocation loop does *)

Section Passes.

Context (self : ShiftScheduler) (dow : DayOfWeek) (d : Z).

Lemma try_durations_available emp n current_dt close_dt rt ds end_dt :
  try_durations emp dow d n current_dt close_dt rt ds = Some end_dt ->
  is_available_at_time emp dow (datetime_time current_dt)
    (datetime_time end_dt) (Some d) = true.
Proof.
  induction ds as [|a ds IH]; cbn [try_durations]; [discriminate|].
  destruct (rejects_duration _ _ _ _); [exact IH|]. cbv zeta.
  destruct (_ && _); [exact IH|].
  destruct (is_available_at_time emp dow (datetime_time current_dt)
              (datetime_time
                 (if bool_decide (close_dt < current_dt + timedelta_hours a)
                  then close_dt else current_dt + timedelta_hours a))
              (Some d)) eqn:E;
    [|exact IH].
  now intros [= <-].
Qed.

Lemma try_employees_available fuel idx avail sd close_dt rt st emp end_dt :
  try_employees fuel idx avail dow d sd close_dt rt st = Some (emp, end_dt) ->
  emp ∈ avail
  /\ is_available_at_time emp dow (datetime_time (ds_current_dt st))
       (datetime_time end_dt) (Some d) = true.
Proof.
  revert idx. induction fuel as [|fuel IH]; simpl; intros idx; [discriminate|].
  destruct (avail !! _) as [e|] eqn:El; [|discriminate].
  destruct (try_durations _ _ _ _ _ _ _ _) as [dt|] eqn:Ed; [|apply IH].
  intros [= <- <-]. split.
  - eapply list_elem_of_lookup_2; eauto.
  - eapply try_durations_available; eauto.
Qed.

Lemma try_minimal_available avail close_dt rt current_dt emp end_dt :
  try_minimal avail dow d close_dt rt current_dt = Some (emp, end_dt) ->
  emp ∈ avail
  /\ is_available_at_time emp dow (datetime_time current_dt)
       (datetime_time end_dt) (Some d) = true.
Proof.
  induction avail as [|e avail IH]; cbn [try_minimal]; [discriminate|].
  assert (try_minimal avail dow d close_dt rt current_dt = Some (emp, end_dt)
          -> emp ∈ e :: avail
             /\ is_available_at_time emp dow (datetime_time current_dt)
                  (datetime_time end_dt) (Some d) = true) as IH'.
  { intros H. destruct (IH H). split; [now right|assumption]. }
  cbv zeta. destruct (Qle_bool _ _); [|exact IH'].
  destruct (is_available_at_time e dow (datetime_time current_dt)
              (datetime_time
                 (Z.min (current_dt + timedelta_hours (min_hours_per_shift e))
                    close_dt)) (Some d)) eqn:E; [|exact IH'].
  intros [= <- <-]. split; [now left|exact E].
Qed.

Lemma sort_employees_elem h l e :
  e ∈ sort_employees h dow d l <-> e ∈ l.
Proof.
  unfold sort_employees. now rewrite sort_by_Permutation.
Qed.

(** One pass of the loop leaves the shifts and the dictionary as they
    were, or places one shift for an employee of the roster who is below
    the cap, can work the weekday and is available for the window. *)
Lemma day_step_cases close_dt sd st :
  (ds_shifts (day_step self dow d close_dt sd st).1 = ds_shifts st
   /\ ds_employee_hours (day_step self dow d close_dt sd st).1
      = ds_employee_hours st)
  \/ exists emp end_dt,
       emp ∈ employees self
       /\ has_capacity (ds_employee_hours st) dow emp = true
       /\ is_available_at_time emp dow (datetime_time (ds_current_dt st))
            (datetime_time end_dt) (Some d) = true
       /\ (day_step self dow d close_dt sd st).1
          = place_shift dow d emp end_dt st.
Proof.
  unfold day_step.
  set (avail := filter _ (employees self)).
  assert (forall e, e ∈ sort_employees (ds_employee_hours st) dow d avail ->
            e ∈ employees self
            /\ has_capacity (ds_employee_hours st) dow e = true) as Hav.
  { intros e He. apply sort_employees_elem in He.
    now apply list_elem_of_filter in He as [? ?]. }
  case_bool_decide; [now left|].
  destruct (_ && _); [now left|].
  destruct (try_employees _ _ _ _ _ _ _ _ _) as [[emp end_dt]|] eqn:Et.
  - apply try_employees_available in Et as [Hin Ha].
    destruct (Hav _ Hin). right. exists emp, end_dt. auto.
  - destruct (if bool_decide (length (ds_shifts st) = 0%nat) then _ else None)
      as [[emp end_dt]|] eqn:Em.
    + case_bool_decide; [|discriminate].
      apply try_minimal_available in Em as [Hin Ha].
      destruct (Hav _ Hin). right. exists emp, end_dt. auto.
    + destruct (_ || _); now left.
Qed.

(** What every pass preserves holds when the loop ends. *)
Lemma day_loop_preserves (P : DayState -> Prop) close_dt sd :
  (forall st, P st -> P (day_step self dow d close_dt sd st).1) ->
  forall fuel st, P st -> P (day_loop fuel self dow d close_dt sd st).
Proof.
  intros Hstep fuel. induction fuel as [|fuel IH]; simpl; intros st H;
    [exact H|].
  case_bool_decide; [|exact H].
  pose proof (Hstep st H) as H'.
  destruct (day_step self dow d close_dt sd st) as [st' []]; simpl in H';
    auto.
Qed.

(** The fallback returns nothing and leaves the dictionary as it was, or
    returns one shift, starting at the opening time, for an employee of
    the roster who can work the weekday. *)
Lemma fallback_cases open_time open_dt close_dt h :
  fallback self dow d open_time open_dt close_dt h = ([], h)
  \/ exists emp end_dt,
       emp ∈ employees self /\ can_work emp dow = true
       /\ let shift := {| employee_name := name emp; day := dow;
                          start_time := open_time;
                          end_time := datetime_time end_dt;
                          date := Some d |} in
          fallback self dow d open_time open_dt close_dt h
          = ([shift], hours_add h (name emp) (duration_hours shift)).
Proof.
  unfold fallback.
  destruct (filter _ (employees self)) as [|emp rest] eqn:Ef; [now left|].
  assert (emp ∈ employees self /\ can_work emp dow = true) as [Hin Hcan].
  { assert (emp ∈ filter
              (fun emp => fallback_candidate dow (datetime_date d) emp = true)
              (employees self)) as Hx by (rewrite Ef; left).
    apply list_elem_of_filter in Hx as [Hc ?]. split; [assumption|].
    now rewrite <- fallback_candidate_can_work
      with (date_only := datetime_date d). }
  destruct (Qlt_bool 0 _); [|now left].
  destruct (Qlt_bool 0 _); [|now left].
  right. eexists emp, _. split; [exact Hin|]. split; [exact Hcan|].
  reflexivity.
Qed.

End Passes.

(** * What every date of the month does *)

Section Dates.

Context (self : ShiftScheduler).

Lemma foldl_add_shift_eq sched l :
  foldl add_shift sched l
  = {| month := month sched; year := year sched;
       shifts := shifts sched ++ l |}.
Proof.
  revert sched. induction l as [|s l IH]; intros sched; simpl.
  - rewrite app_nil_r. now destruct sched.
  - rewrite IH. simpl. now rewrite <- app_assoc.
Qed.

(** The body of the loop over the dates skips the date, or appends the
    shifts of [_generate_shifts_for_day] for the weekday and the resolved
    hours of the date and keeps the dictionary it returns. *)
Lemma schedule_date_cases acc d :
  schedule_date self acc d = acc
  \/ exists dow o c,
       DayOfWeek_of_value (weekday d) = Some dow
       /\ get_hours (store_hours self) dow (Some d) = Some (o, c)
       /\ schedule_date self acc d
          = ({| month := month acc.1; year := year acc.1;
                shifts :=
                  shifts acc.1
                  ++ (_generate_shifts_for_day self dow d o c acc.2).1 |},
             (_generate_shifts_for_day self dow d o c acc.2).2).
Proof.
  unfold schedule_date.
  destruct (DayOfWeek_of_value (weekday d)) as [dow|]; [|now left].
  destruct (negb _); [now left|].
  destruct (get_hours _ _ _) as [[o c]|] eqn:Hh; [|now left].
  right. exists dow, o, c. split; [reflexivity|]. split; [exact Hh|].
  destruct (_generate_shifts_for_day self dow d o c acc.2) as [l h'].
  cbn beta iota. now rewrite foldl_add_shift_eq.
Qed.

(** Induction over the dates of the month, with the dates already
    handled. *)
Lemma month_fold_prefix (Good : list Z -> Schedule * gmap string Q -> Prop)
    (all : list Z) :
  (forall pre d post acc,
     all = pre ++ d :: post -> Good pre acc ->
     Good (pre ++ [d]) (schedule_date self acc d)) ->
  forall dates pre acc,
    all = pre ++ dates -> Good pre acc ->
    Good all (foldl (schedule_date self) acc dates).
Proof.
  intros Hstep dates. induction dates as [|d dates IH]; simpl;
    intros pre acc Hall H.
  - rewrite app_nil_r in Hall. now subst.
  - apply (IH (pre ++ [d])).
    + now rewrite <- app_assoc.
    + eapply Hstep; eauto.
Qed.

Lemma generate_schedule_state_prefix
    (Good : list Z -> Schedule * gmap string Q -> Prop) y m dates r :
  _get_dates_in_month y m = Some dates ->
  generate_schedule_state self y m = Some r ->
  Good [] ({| month := m; year := y; shifts := [] |},
           initial_hours (employees self)) ->
  (forall pre d post acc,
     dates = pre ++ d :: post -> Good pre acc ->
     Good (pre ++ [d]) (schedule_date self acc d)) ->
  Good dates r.
Proof.
  intros Hd. unfold generate_schedule_state. rewrite Hd. intros [= <-] H0 Hs.
  now apply (month_fold_prefix Good dates Hs dates []).
Qed.

(** A property of the shifts and the dictionary that the shifts of every
    day preserve holds of the schedule of the month. *)
Lemma generate_schedule_state_inv
    (Good : list Shift -> gmap string Q -> Prop) y m sched h :
  generate_schedule_state self y m = Some (sched, h) ->
  Good [] (initial_hours (employees self)) ->
  (forall l h dow d o c,
     Good l h ->
     Good (l ++ (_generate_shifts_for_day self dow d o c h).1)
       (_generate_shifts_for_day self dow d o c h).2) ->
  Good (shifts sched) h.
Proof.
  intros Hgen H0 Hstep.
  destruct (_get_dates_in_month y m) as [dates|] eqn:Hd.
  2:{ unfold generate_schedule_state in Hgen. now rewrite Hd in Hgen. }
  apply (generate_schedule_state_prefix
           (fun _ acc => Good (shifts acc.1) acc.2) y m dates (sched, h) Hd
           Hgen H0).
  intros pre d post acc _ H.
  destruct (schedule_date_cases acc d) as [->|(dow & o & c & _ & _ & ->)];
    [exact H|].
  simpl. now apply Hstep.
Qed.

End Dates.

(** * Who gets the shifts *)

Section Staffing.

Context (self : ShiftScheduler).

(** The shift is assigned to an employee of the roster who can work its
    weekday. *)
Let staffed (s : Shift) : Prop :=
  exists emp, emp ∈ employees self /\ name emp = employee_name s
              /\ can_work emp (day s) = true.

Lemma has_capacity_can_work h dow emp :
  has_capacity h dow emp = true -> can_work emp dow = true.
Proof. unfold has_capacity. now intros [? _]%andb_true_iff. Qed.

Lemma main_loop_staffed dow d o c h :
  Forall (fun s => staffed s /\ passed_availability self s)
    (ds_shifts (main_loop self dow d o c h)).
Proof.
  unfold main_loop.
  apply (day_loop_preserves self dow d
           (fun st => Forall (fun s => staffed s /\ passed_availability self s)
                        (ds_shifts st))); [|apply Forall_nil_2].
  intros st H.
  destruct (day_step_cases self dow d (close_dt_of d o c)
              (target_shift_duration
                 (hours_of (close_dt_of d o c - open_dt_of d o))) st)
    as [[-> _]|(emp & end_dt & Hin & Hcap & Hav & ->)]; [exact H|].
  unfold place_shift; cbn [ds_shifts]. apply Forall_app. split; [exact H|].
  apply Forall_cons; split; [|apply Forall_nil_2]. split.
  - exists emp. eauto using has_capacity_can_work.
  - exists emp. auto.
Qed.

(** The shifts of a day are the shifts of the main loop, all of which
    passed the availability test, or the loop placed none and the day has
    at most the one shift of the fallback. *)
Lemma day_shifts_cases dow d o c h :
  Forall staffed (_generate_shifts_for_day self dow d o c h).1
  /\ (Forall (passed_availability self)
        (_generate_shifts_for_day self dow d o c h).1
      \/ (length (_generate_shifts_for_day self dow d o c h).1 <= 1)%nat).
Proof.
  unfold _generate_shifts_for_day.
  case_bool_decide; [split; [apply Forall_nil_2|left; apply Forall_nil_2]|].
  pose proof (main_loop_staffed dow d o c h) as Hmain.
  case_bool_decide.
  - destruct (fallback_cases self dow d o (open_dt_of d o) (close_dt_of d o c)
                (ds_employee_hours (main_loop self dow d o c h)))
      as [->|(emp & end_dt & Hin & Hcan & ->)]; simpl.
    + split; [apply Forall_nil_2|left; apply Forall_nil_2].
    + split; [|right; lia].
      apply Forall_cons; split; [|apply Forall_nil_2]. exists emp. auto.
  - simpl. split; [|left]; (eapply Forall_impl; [exact Hmain|]);
      now intros s [? ?].
Qed.

End Staffing.

(** X8.  Every shift of a generated schedule is assigned to an employee of
    the roster (one bearing the shift's name) whose [unavailable_days] do
    not hold the weekday of the shift: neither the main loop nor the
    fallback staffs a weekday marked unavailable. *)
Theorem shifts_go_to_employees_who_can_work (self : ShiftScheduler)
    (y m : Z) (sched : Schedule) (s : Shift) :
  generate_schedule self y m = Some sched ->
  s ∈ shifts sched ->
  exists emp,
    emp ∈ employees self /\ name emp = employee_name s
    /\ day s ∉ unavailable_days emp.
Proof.
  intros Hgen Hs.
  assert (Forall (fun s => exists emp, emp ∈ employees self
                     /\ name emp = employee_name s
                     /\ can_work emp (day s) = true) (shifts sched)) as Hall.
  { apply (generate_schedule_inv self _ y m sched);
      [|apply Forall_nil_2|exact Hgen].
    intros l d new Hl _ Hout. apply Forall_app. split; [exact Hl|].
    destruct Hout as [->|(dow & o & c & h & _ & _ & ->)];
      [apply Forall_nil_2|].
    apply day_shifts_cases. }
  rewrite Forall_forall in Hall.
  destruct (Hall s Hs) as (emp & Hin & Hname & Hcan).
  exists emp. repeat split; auto.
  unfold can_work in Hcan. now apply bool_decide_eq_true in Hcan.
Qed.

Lemma shifts_go_to_employees_who_can_work_witness :
  exists emp,
    emp ∈ employees night_shop /\ name emp = employee_name night_shift_B
    /\ day night_shift_B ∉ unavailable_days emp.
Proof.
  apply (shifts_go_to_employees_who_can_work night_shop 2024 1
           {| month := 1; year := 2024;
              shifts := [night_shift_A; night_shift_B] |} night_shift_B).
  - vm_compute. reflexivity.
  - right. left.
Defined.

(** X9.  Only the fallback overrides availability.  In a generated
    schedule every shift passed [is_available_at_time] for its employee,
    its window and its date, unless it is the only shift of its date. *)
Theorem only_a_lone_shift_skips_availability (self : ShiftScheduler)
    (y m : Z) (sched : Schedule) (s : Shift) (d : Z) :
  generate_schedule self y m = Some sched ->
  s ∈ shifts sched -> date s = Some d ->
  passed_availability self s \/ shifts_dated d (shifts sched) = [s].
Proof.
  intros Hgen Hs Hd.
  assert (forall s, s ∈ shifts sched ->
            passed_availability self s
            \/ exists d, date s = Some d
                         /\ shifts_dated d (shifts sched) = [s]) as Hall.
  { apply (generate_schedule_inv self
             (fun l => forall s, s ∈ l ->
                passed_availability self s
                \/ exists d, date s = Some d /\ shifts_dated d l = [s])
             y m sched); [|intros ? []%elem_of_nil|exact Hgen].
    intros l d' new Hl Hfresh Hout s' Hs'.
    assert (Forall (fun x => date x = Some d') new) as Hnew.
    { apply Forall_forall. intros x Hx.
      exact (day_output_dated self d' new x Hout Hx). }
    unfold shifts_dated in *.
    apply elem_of_app in Hs' as [Hin|Hin].
    - destruct (Hl s' Hin) as [?|(d0 & Hd0 & Hone)]; [now left|].
      right. exists d0. split; [exact Hd0|].
      rewrite filter_app, Hone, (filter_none _ new); [reflexivity|].
      eapply Forall_impl; [exact Hnew|]. intros x Hx Hx'.
      rewrite Forall_forall in Hfresh. apply (Hfresh s' Hin). congruence.
    - destruct Hout as [->|(dow & o & c & h & _ & _ & ->)];
        [now apply elem_of_nil in Hin|].
      destruct (day_shifts_cases self dow d' o c h) as [_ [Hav|Hlen]].
      + left. rewrite Forall_forall in Hav. auto.
      + right. exists d'. rewrite Forall_forall in Hnew.
        split; [now apply Hnew|].
        rewrite filter_app, (filter_none _ l) by exact Hfresh.
        rewrite filter_all by (apply Forall_forall; exact Hnew). simpl.
        destruct (_generate_shifts_for_day self dow d' o c h).1
          as [|x [|x' rest]]; simpl in Hlen.
        * now apply elem_of_nil in Hin.
        * now apply list_elem_of_singleton in Hin as ->.
        * lia. }
  destruct (Hall s Hs) as [?|(d0 & Hd0 & Hone)]; [now left|].
  right. congruence.
Qed.

Lemma only_a_lone_shift_skips_availability_witness :
  passed_availability night_shop night_shift_A
  \/ shifts_dated jan15 [night_shift_A; night_shift_B] = [night_shift_A].
Proof.
  apply (only_a_lone_shift_skips_availability night_shop 2024 1
           {| month := 1; year := 2024;
              shifts := [night_shift_A; night_shift_B] |} night_shift_A
           jan15).
  - vm_compute. reflexivity.
  - left.
  - reflexivity.
Defined.

(** * The dictionary of accumulated hours *)

Lemma hours_in_snoc l s n :
  hours_in (l ++ [s]) n
  = if decide (employee_name s = n)
    then (hours_in l n + duration_hours s)%Q else hours_in l n.
Proof.
  unfold hours_in, qsum. rewrite filter_app, filter_cons, filter_nil.
  destruct (decide (employee_name s = n)).
  - now rewrite map_app, foldl_app.
  - now rewrite app_nil_r.
Qed.

Lemma hours_get_hours_add h k q n :
  hours_get (hours_add h k q) n
  = if decide (k = n) then (hours_get h k + q)%Q else hours_get h n.
Proof.
  unfold hours_get at 1. unfold hours_add.
  destruct (decide (k = n)) as [->|Hne].
  - now rewrite lookup_insert_eq.
  - now rewrite lookup_insert_ne by exact Hne.
Qed.

Lemma hours_get_initial l n : hours_get (initial_hours l) n = 0%Q.
Proof.
  unfold hours_get, initial_hours. induction l as [|e l IH]; [reflexivity|].
  cbn [map]. rewrite list_to_map_cons.
  destruct (decide (name e = n)) as [->|Hne].
  - now rewrite lookup_insert_eq.
  - now rewrite lookup_insert_ne by exact Hne.
Qed.

Section Tracking.

Context (self : ShiftScheduler) (l : list Shift).

Let tracks (new : list Shift) (h : gmap string Q) : Prop :=
  forall n, hours_get h n = hours_in (l ++ new) n.

Lemma place_shift_tracks dow d emp end_dt st :
  tracks (ds_shifts st) (ds_employee_hours st) ->
  tracks (ds_shifts (place_shift dow d emp end_dt st))
    (ds_employee_hours (place_shift dow d emp end_dt st)).
Proof.
  intros H n. unfold place_shift; cbn [ds_shifts ds_employee_hours].
  rewrite hours_get_hours_add, app_assoc, hours_in_snoc.
  cbn [employee_name]. destruct (decide (name emp = n)) as [->|]; now rewrite H.
Qed.

Lemma day_tracks dow d o c h :
  tracks [] h ->
  tracks (_generate_shifts_for_day self dow d o c h).1
    (_generate_shifts_for_day self dow d o c h).2.
Proof.
  intros H. unfold _generate_shifts_for_day.
  case_bool_decide; [exact H|].
  assert (tracks (ds_shifts (main_loop self dow d o c h))
            (ds_employee_hours (main_loop self dow d o c h))) as Hmain.
  { unfold main_loop.
    apply (day_loop_preserves self dow d
             (fun st => tracks (ds_shifts st) (ds_employee_hours st)));
      [|exact H].
    intros st Hst.
    destruct (day_step_cases self dow d (close_dt_of d o c)
                (target_shift_duration
                   (hours_of (close_dt_of d o c - open_dt_of d o))) st)
      as [[-> ->]|(emp & end_dt & _ & _ & _ & ->)]; [exact Hst|].
    now apply place_shift_tracks. }
  case_bool_decide as Hlen; [|exact Hmain].
  apply nil_length_inv in Hlen. rewrite Hlen in Hmain.
  destruct (fallback_cases self dow d o (open_dt_of d o) (close_dt_of d o c)
              (ds_employee_hours (main_loop self dow d o c h)))
    as [->|(emp & end_dt & _ & _ & ->)]; [exact Hmain|].
  intros n. cbn [fst snd].
  rewrite hours_get_hours_add, hours_in_snoc. cbn [employee_name].
  destruct (decide (name emp = n)) as [->|]; now rewrite Hmain, app_nil_r.
Qed.

End Tracking.

(** X10.  The dictionary [employee_hours] follows the schedule.  When
    [generate_schedule] ends, the hours it has accumulated for a name are
    the total that [get_total_hours_for_employee] computes from the shifts
    of the schedule, for every name. *)
Theorem employee_hours_are_schedule_totals (self : ShiftScheduler)
    (y m : Z) (sched : Schedule) (h : gmap string Q) (n : string) :
  generate_schedule_state self y m = Some (sched, h) ->
  hours_get h n = get_total_hours_for_employee sched n.
Proof.
  intros Hgen. revert n.
  apply (generate_schedule_state_inv self
           (fun l h => forall n, hours_get h n = hours_in l n) y m sched h
           Hgen).
  - intros n. apply hours_get_initial.
  - intros l h' dow d o c H. apply (day_tracks self l dow d o c h').
    intros n. now rewrite app_nil_r.
Qed.

Lemma employee_hours_are_schedule_totals_witness :
  hours_get
    (hours_add (initial_hours (employees exact_cap)) "A"
       (hours_of (hm 15 0 - hm 9 0))) "A"
  = get_total_hours_for_employee
      {| month := 4; year := 2024;
         shifts := [ {| employee_name := "A"; day := MONDAY;
                        start_time := hm 9 0; end_time := hm 15 0;
                        date := Some apr1 |} ] |} "A".
Proof.
  apply (employee_hours_are_schedule_totals exact_cap 2024 4).
  vm_compute. reflexivity.
Defined.

(** * Rosters without capacity *)

(** X11.  When no employee of the roster has a positive monthly cap -- in
    particular when the roster is empty -- the generated schedule has no
    shift: every day returns before the loop and the fallback. *)
Theorem no_capacity_no_shifts (self : ShiftScheduler) (y m : Z)
    (sched : Schedule) :
  Forall (fun emp => (max_hours_per_month emp <= 0)%Q) (employees self) ->
  generate_schedule self y m = Some sched ->
  shifts sched = [].
Proof.
  intros Hcap. unfold generate_schedule.
  destruct (generate_schedule_state self y m) as [[sched' h]|] eqn:Hgen;
    [|discriminate].
  intros [= <-]. simpl.
  apply (generate_schedule_state_inv self
           (fun l h => l = [] /\ h = initial_hours (employees self))
           y m sched' h Hgen); [now split|].
  intros l h' dow d o c [-> ->]. unfold _generate_shifts_for_day.
  rewrite bool_decide_eq_true_2; [now split|].
  apply filter_none. eapply Forall_impl; [exact Hcap|].
  intros emp Hemp. unfold has_capacity. rewrite hours_get_initial.
  rewrite (proj2 (Qlt_bool_false_iff _ _) Hemp), andb_false_r. discriminate.
Qed.

Lemma no_capacity_no_shifts_witness :
  shifts {| month := 1; year := 2024; shifts := [] |} = [].
Proof.
  apply (no_capacity_no_shifts
           {| employees := [default_employee "A" [] 0];
              store_hours := store_hours low_cap |} 2024 1).
  - apply Forall_cons; split; [|apply Forall_nil_2]. vm_compute. discriminate.
  - vm_compute. reflexivity.
Defined.

(** * The iteration bound *)

Lemma day_loop_length_le self dow d close_dt sd fuel st :
  (length (ds_shifts (day_loop fuel self dow d close_dt sd st))
   <= length (ds_shifts st) + fuel)%nat.
Proof.
  revert st. induction fuel as [|fuel IH]; simpl; intros st; [lia|].
  case_bool_decide; [|lia].
  assert (length (ds_shifts (day_step self dow d close_dt sd st).1)
          <= S (length (ds_shifts st)))%nat as Hstep.
  { destruct (day_step_cases self dow d close_dt sd st)
      as [[-> _]|(emp & end_dt & _ & _ & _ & ->)]; [lia|].
    unfold place_shift; cbn [ds_shifts]. rewrite length_app. simpl. lia. }
  destruct (day_step self dow d close_dt sd st) as [st' []]; simpl in Hstep.
  - specialize (IH st'). lia.
  - lia.
Qed.

Lemma day_shifts_length self dow d o c h :
  (length (_generate_shifts_for_day self dow d o c h).1 <= max_iterations)%nat.
Proof.
  unfold _generate_shifts_for_day.
  case_bool_decide; [simpl; lia|].
  case_bool_decide.
  - destruct (fallback_cases self dow d o (open_dt_of d o) (close_dt_of d o c)
                (ds_employee_hours (main_loop self dow d o c h)))
      as [->|(emp & end_dt & _ & _ & ->)]; simpl; unfold max_iterations; lia.
  - simpl. unfold main_loop.
    pose proof (day_loop_length_le self dow d (close_dt_of d o c)
                  (target_shift_duration
                     (hours_of (close_dt_of d o c - open_dt_of d o)))
                  max_iterations
                  {| ds_shifts := []; ds_current_dt := open_dt_of d o;
                     ds_last_current_dt := None; ds_employee_hours := h |})
      as H'.
    simpl in H'. exact H'.
Qed.

(** X12.  No date of a generated schedule carries more than 1000 shifts,
    the bound [max_iterations] of the passes of one day. *)
Theorem at_most_max_iterations_shifts_per_date (self : ShiftScheduler)
    (y m : Z) (sched : Schedule) (d : Z) :
  generate_schedule self y m = Some sched ->
  (length (shifts_dated d (shifts sched)) <= 1000)%nat.
Proof.
  intros Hgen.
  apply (generate_schedule_inv self
           (fun l => (length (shifts_dated d l) <= 1000)%nat) y m sched);
    [|simpl; lia|exact Hgen].
  intros l d' new Hl Hfresh Hout. unfold shifts_dated in *.
  rewrite filter_app, length_app.
  destruct (decide (d' = d)) as [->|Hne].
  - rewrite (filter_none _ l) by exact Hfresh. simpl.
    etransitivity; [apply length_filter|].
    destruct Hout as [->|(dow & o & c & h & _ & _ & ->)]; [simpl; lia|].
    apply day_shifts_length.
  - rewrite (filter_none _ new); [simpl; lia|].
    apply Forall_forall. intros s Hs.
    rewrite (day_output_dated self d' new s Hout Hs). congruence.
Qed.

Lemma at_most_max_iterations_shifts_per_date_witness :
  (length (shifts_dated jan15 [night_shift_A; night_shift_B]) <= 1000)%nat.
Proof.
  apply (at_most_max_iterations_shifts_per_date night_shop 2024 1
           {| month := 1; year := 2024;
              shifts := [night_shift_A; night_shift_B] |} jan15).
  vm_compute. reflexivity.
Defined.

(** * The dates of the shifts *)

Lemma dates_in_month_lookup y m dates (i : nat) d :
  _get_dates_in_month y m = Some dates -> dates !! i = Some d ->
  d = combine (ymd2ord y m (Z.of_nat i + 1)) 0
  /\ Z.of_nat i < days_in_month y m.
Proof.
  unfold _get_dates_in_month, first_of_month.
  destruct (_ && _ && _ && _); [|discriminate].
  destruct (_ && _); [discriminate|]. intros [= <-].
  rewrite list_lookup_fmap. intros Hi.
  destruct (seqZ 0 (days_in_month y m) !! i) as [k|] eqn:Ek; [|discriminate].
  apply lookup_seqZ in Ek as [-> Hlt]. simpl in Hi. injection Hi as <-.
  split; [|lia]. unfold combine, ymd2ord, US_PER_DAY. lia.
Qed.

Lemma dates_in_month_elem y m dates d :
  _get_dates_in_month y m = Some dates -> d ∈ dates ->
  exists k, 1 <= k <= days_in_month y m /\ d = combine (ymd2ord y m k) 0.
Proof.
  intros Hd [i Hi]%list_elem_of_lookup_1.
  destruct (dates_in_month_lookup y m dates i d Hd Hi) as [-> Hlt].
  exists (Z.of_nat i + 1). split; [lia|reflexivity].
Qed.

Lemma dates_in_month_increase y m dates pre d post x :
  _get_dates_in_month y m = Some dates -> dates = pre ++ d :: post ->
  x ∈ pre -> x < d.
Proof.
  intros Hd -> [i Hi]%list_elem_of_lookup_1.
  pose proof (lookup_lt_Some _ _ _ Hi) as Hlt.
  destruct (dates_in_month_lookup y m _ i x Hd) as [-> _].
  { now rewrite lookup_app_l. }
  destruct (dates_in_month_lookup y m _ (length pre) d Hd) as [-> _].
  { now rewrite list_lookup_middle. }
  unfold combine, ymd2ord, US_PER_DAY. lia.
Qed.

Section DatesOfShifts.

Context (self : ShiftScheduler) (y m : Z) (dates : list Z).
Hypothesis Hdates : _get_dates_in_month y m = Some dates.

(** The shift carries a date of [pre], its weekday is the weekday of the
    date, and the store is open on it. *)
Let on_date (pre : list Z) (s : Shift) : Prop :=
  exists d, d ∈ pre /\ date s = Some d
            /\ DayOfWeek_of_value (weekday d) = Some (day s)
            /\ is_open (store_hours self) (day s) (Some d) = true.

Lemma schedule_date_on_date pre d acc :
  Forall (on_date pre) (shifts acc.1) ->
  Forall (on_date (pre ++ [d])) (shifts (schedule_date self acc d).1)
  /\ exists new, shifts (schedule_date self acc d).1 = shifts acc.1 ++ new
                 /\ Forall (fun s => date s = Some d) new.
Proof.
  intros H.
  assert (Forall (on_date (pre ++ [d])) (shifts acc.1)) as H'.
  { eapply Forall_impl; [exact H|]. intros s (d0 & Hin & ?).
    exists d0. split; [|assumption]. apply elem_of_app. now left. }
  destruct (schedule_date_cases self acc d)
    as [->|(dow & o & c & Hdow & Hh & ->)].
  - split; [exact H'|]. exists []. now rewrite app_nil_r.
  - cbn [fst shifts]. split.
    + apply Forall_app. split; [exact H'|].
      eapply Forall_impl; [apply day_shifts_dated|].
      intros s [Hday Hdate]. exists d. rewrite Hday.
      split; [apply elem_of_app; right; left|]. repeat split; auto.
      rewrite is_open_get_hours, Hh. apply bool_decide_eq_true_2. eauto.
    + eexists. split; [reflexivity|].
      eapply Forall_impl; [apply day_shifts_dated|]. now intros s [_ ?].
Qed.

Lemma generated_shifts_on_dates r :
  generate_schedule_state self y m = Some r ->
  Forall (on_date dates) (shifts r.1) /\ dates_in_order (shifts r.1).
Proof.
  intros Hgen.
  apply (generate_schedule_state_prefix self
           (fun pre acc => Forall (on_date pre) (shifts acc.1)
                           /\ dates_in_order (shifts acc.1))
           y m dates r Hdates Hgen).
  - split; [apply Forall_nil_2|]. intros i j s1 s2 d1 d2 Hi. discriminate.
  - intros pre d post acc Hall [Hon Hord].
    destruct (schedule_date_on_date pre d acc Hon)
      as [Hon' (new & Heq & Hnew)].
    split; [exact Hon'|]. rewrite Heq.
    intros i j s1 s2 d1 d2 Hi Hj Hij Hd1 Hd2.
    rewrite Forall_forall in Hon, Hnew.
    assert (forall s dx, s ∈ shifts acc.1 -> date s = Some dx -> dx < d)
      as Hold.
    { intros s dx Hs Hdx. destruct (Hon s Hs) as (d0 & Hin & Hd0 & _).
      assert (d0 = dx) as -> by congruence.
      eapply dates_in_month_increase; eauto. }
    destruct (decide (j < length (shifts acc.1))%nat) as [Hj'|Hj'].
    + rewrite lookup_app_l in Hi, Hj by lia.
      exact (Hord i j s1 s2 d1 d2 Hi Hj Hij Hd1 Hd2).
    + rewrite lookup_app_r in Hj by lia.
      apply list_elem_of_lookup_2 in Hj. apply Hnew in Hj.
      assert (d2 = d) as -> by congruence.
      destruct (decide (i < length (shifts acc.1))%nat) as [Hi'|Hi'].
      * rewrite lookup_app_l in Hi by lia.
        apply list_elem_of_lookup_2 in Hi.
        pose proof (Hold s1 d1 Hi Hd1). lia.
      * rewrite lookup_app_r in Hi by lia.
        apply list_elem_of_lookup_2 in Hi. apply Hnew in Hi.
        assert (d1 = d) as -> by congruence. lia.
Qed.

End DatesOfShifts.

Lemma generate_schedule_from_state self y m sched :
  generate_schedule self y m = Some sched ->
  exists h dates,
    generate_schedule_state self y m = Some (sched, h)
    /\ _get_dates_in_month y m = Some dates.
Proof.
  unfold generate_schedule, generate_schedule_state.
  destruct (_get_dates_in_month y m) as [dates|]; [|discriminate].
  simpl. intros [= <-].
  match goal with |- context [foldl ?f ?a ?l] => set (r := foldl f a l) end.
  exists r.2, dates. split; [now destruct r|reflexivity].
Qed.

(** X13.  Every shift of a generated schedule carries a date: midnight of
    a day of the month asked for.  The weekday of the shift is the weekday
    of that date, and the store is open on it. *)
Theorem shifts_are_dated_in_the_month (self : ShiftScheduler) (y m : Z)
    (sched : Schedule) (s : Shift) :
  generate_schedule self y m = Some sched ->
  s ∈ shifts sched ->
  exists k,
    1 <= k <= days_in_month y m
    /\ date s = Some (combine (ymd2ord y m k) 0)
    /\ DayOfWeek_of_value (weekday (combine (ymd2ord y m k) 0))
       = Some (day s)
    /\ is_open (store_hours self) (day s)
         (Some (combine (ymd2ord y m k) 0)) = true.
Proof.
  intros (h & dates & Hgen & Hdates)%generate_schedule_from_state Hs.
  destruct (generated_shifts_on_dates self y m dates Hdates _ Hgen)
    as [Hon _].
  rewrite Forall_forall in Hon.
  destruct (Hon s Hs) as (d & Hin & Hd & Hdow & Hopen).
  destruct (dates_in_month_elem y m dates d Hdates Hin) as (k & Hk & ->).
  exists k. auto.
Qed.

Lemma shifts_are_dated_in_the_month_witness :
  exists k,
    1 <= k <= days_in_month 2024 1
    /\ date night_shift_A = Some (combine (ymd2ord 2024 1 k) 0)
    /\ DayOfWeek_of_value (weekday (combine (ymd2ord 2024 1 k) 0))
       = Some (day night_shift_A)
    /\ is_open (store_hours night_shop) (day night_shift_A)
         (Some (combine (ymd2ord 2024 1 k) 0)) = true.
Proof.
  apply (shifts_are_dated_in_the_month night_shop 2024 1
           {| month := 1; year := 2024;
              shifts := [night_shift_A; night_shift_B] |} night_shift_A).
  - vm_compute. reflexivity.
  - left.
Defined.

(** X14.  The shifts of a generated schedule stand in the order of their
    dates: a shift never comes before a shift of an earlier date. *)
Theorem shifts_in_date_order (self : ShiftScheduler) (y m : Z)
    (sched : Schedule) :
  generate_schedule self y m = Some sched -> dates_in_order (shifts sched).
Proof.
  intros (h & dates & Hgen & Hdates)%generate_schedule_from_state.
  now destruct (generated_shifts_on_dates self y m dates Hdates _ Hgen).
Qed.

Lemma shifts_in_date_order_witness :
  dates_in_order [night_shift_A; night_shift_B].
Proof.
  apply (shifts_in_date_order night_shop 2024 1
           {| month := 1; year := 2024;
              shifts := [night_shift_A; night_shift_B] |}).
  vm_compute. reflexivity.
Defined.

(** X15.  [get_shifts_for_day] compares the date as it is given.  On a
    generated schedule it returns no shift for a [datetime] that is not at
    midnight, whatever shifts its calendar day has, and none when the
    weekday asked for is not the weekday of the date. *)
Theorem get_shifts_for_day_wants_the_exact_date (self : ShiftScheduler)
    (y m : Z) (sched : Schedule) (dow : DayOfWeek) (dt : Z) :
  generate_schedule self y m = Some sched ->
  datetime_time dt <> 0 \/ DayOfWeek_of_value (weekday dt) <> Some dow ->
  get_shifts_for_day sched dow (Some dt) = [].
Proof.
  intros (h & dates & Hgen & Hdates)%generate_schedule_from_state Hdt.
  destruct (generated_shifts_on_dates self y m dates Hdates _ Hgen)
    as [Hon _].
  unfold get_shifts_for_day. apply filter_none.
  eapply Forall_impl; [exact Hon|].
  intros s (d & Hin & Hd & Hdow & _) [Hday Hdate].
  assert (d = dt) as -> by congruence.
  destruct Hdt as [Ht|Hw]; [|congruence].
  destruct (dates_in_month_elem y m dates dt Hdates Hin) as (k & _ & ->).
  apply Ht. apply datetime_time_combine. unfold valid_time, US_PER_DAY. lia.
Qed.

Lemma get_shifts_for_day_wants_the_exact_date_witness :
  get_shifts_for_day
    {| month := 1; year := 2024; shifts := [night_shift_A; night_shift_B] |}
    MONDAY (Some (jan15 + hm 22 0)) = [].
Proof.
  apply (get_shifts_for_day_wants_the_exact_date night_shop 2024 1).
  - vm_compute. reflexivity.
  - left. vm_compute. discriminate.
Defined.

(** * The field the engine never reads *)

Section MappedRoster.

Context {A : Type} (g : A -> A).

Lemma filter_map_same (P : A -> bool) l :
  (forall x, P (g x) = P x) ->
  filter (fun x => P x = true) (map g l)
  = map g (filter (fun x => P x = true) l).
Proof.
  intros HP. induction l as [|x l IH]; [reflexivity|].
  cbn [map]. rewrite !filter_cons, IH, HP.
  now destruct (decide (P x = true)).
Qed.

Lemma insert_by_map (lt : A -> A -> bool) x l :
  (forall a b, lt (g a) (g b) = lt a b) ->
  insert_by lt (g x) (map g l) = map g (insert_by lt x l).
Proof.
  intros Hlt. induction l as [|a l IH]; [reflexivity|].
  simpl. rewrite Hlt, IH. now destruct (lt a x).
Qed.

Lemma sort_by_map (lt : A -> A -> bool) l :
  (forall a b, lt (g a) (g b) = lt a b) ->
  sort_by lt (map g l) = map g (sort_by lt l).
Proof.
  intros Hlt. unfold sort_by. induction l as [|a l IH]; [reflexivity|].
  simpl. now rewrite IH, insert_by_map.
Qed.

End MappedRoster.

Section MaxHoursPerShift.

Context (f : Employee -> Q).

Let g := with_max_hours_per_shift f.

Lemma try_durations_max emp dow d n current_dt close_dt rt ds :
  try_durations (g emp) dow d n current_dt close_dt rt ds
  = try_durations emp dow d n current_dt close_dt rt ds.
Proof.
  induction ds as [|a ds IH]; [reflexivity|].
  cbn [try_durations]. now rewrite IH.
Qed.

Lemma try_employees_max fuel idx avail dow d sd close_dt rt st :
  try_employees fuel idx (map g avail) dow d sd close_dt rt st
  = prod_map g id <$> try_employees fuel idx avail dow d sd close_dt rt st.
Proof.
  revert idx. induction fuel as [|fuel IH]; intros idx; [reflexivity|].
  cbn [try_employees]. rewrite length_map, list_lookup_fmap.
  destruct (avail !! _) as [emp|]; [|reflexivity].
  cbn [fmap option_fmap option_map].
  rewrite try_durations_max. cbn [g with_max_hours_per_shift name
                                  max_hours_per_month].
  destruct (try_durations _ _ _ _ _ _ _ _); [reflexivity|apply IH].
Qed.

Lemma try_minimal_max avail dow d close_dt rt current_dt :
  try_minimal (map g avail) dow d close_dt rt current_dt
  = prod_map g id <$> try_minimal avail dow d close_dt rt current_dt.
Proof.
  induction avail as [|emp avail IH]; [reflexivity|].
  cbn [map try_minimal]. rewrite IH. cbv zeta.
  change (min_hours_per_shift (g emp)) with (min_hours_per_shift emp).
  destruct (Qle_bool _ _); [|reflexivity].
  change (is_available_at_time (g emp)) with (is_available_at_time emp).
  now destruct (is_available_at_time emp _ _ _ _).
Qed.

Lemma min_shift_duration_of_max l :
  min_shift_duration_of (map g l) = min_shift_duration_of l.
Proof.
  destruct l as [|e l]; [reflexivity|]. cbn [map min_shift_duration_of].
  change (min_hours_per_shift (g e)) with (min_hours_per_shift e).
  generalize (min_hours_per_shift e).
  induction l as [|e' l IH]; intros q; [reflexivity|]. simpl. apply IH.
Qed.

Context (self : ShiftScheduler).

Let self' : ShiftScheduler :=
  {| employees := map g (employees self); store_hours := store_hours self |}.

Lemma day_step_max dow d close_dt sd st :
  day_step self' dow d close_dt sd st = day_step self dow d close_dt sd st.
Proof.
  unfold day_step. cbn [employees self'].
  rewrite (filter_map_same g (has_capacity (ds_employee_hours st) dow))
    by reflexivity.
  set (avail := filter _ (employees self)).
  assert (bool_decide (map g avail = []) = bool_decide (avail = [])) as ->.
  { apply bool_decide_ext. split; [apply fmap_nil_inv|now intros ->]. }
  destruct (bool_decide (avail = [])); [reflexivity|].
  unfold sort_employees. rewrite sort_by_map by reflexivity.
  set (sorted := sort_by _ avail).
  rewrite min_shift_duration_of_max, length_map.
  destruct (_ && _); [reflexivity|].
  rewrite try_employees_max.
  destruct (try_employees _ _ _ _ _ _ _ _ _) as [[emp end_dt]|];
    [reflexivity|]. cbn [fmap option_fmap option_map].
  rewrite try_minimal_max.
  destruct (bool_decide (length (ds_shifts st) = 0%nat)); [|reflexivity].
  now destruct (try_minimal _ _ _ _ _ _) as [[emp end_dt]|].
Qed.

Lemma day_loop_max fuel dow d close_dt sd st :
  day_loop fuel self' dow d close_dt sd st
  = day_loop fuel self dow d close_dt sd st.
Proof.
  revert st. induction fuel as [|fuel IH]; intros st; [reflexivity|].
  cbn [day_loop]. rewrite day_step_max.
  destruct (bool_decide _); [|reflexivity].
  destruct (day_step self dow d close_dt sd st) as [st' []];
    [apply IH|reflexivity].
Qed.

Lemma fallback_max dow d open_time open_dt close_dt h :
  fallback self' dow d open_time open_dt close_dt h
  = fallback self dow d open_time open_dt close_dt h.
Proof.
  unfold fallback. cbn [employees self'].
  rewrite (filter_map_same g (fallback_candidate dow (datetime_date d)))
    by reflexivity.
  now destruct (filter _ (employees self)).
Qed.

Lemma day_max dow d o c h :
  _generate_shifts_for_day self' dow d o c h
  = _generate_shifts_for_day self dow d o c h.
Proof.
  unfold _generate_shifts_for_day, main_loop. cbn [employees self'].
  rewrite (filter_map_same g (has_capacity h dow)) by reflexivity.
  set (avail := filter _ (employees self)).
  assert (bool_decide (map g avail = []) = bool_decide (avail = [])) as ->.
  { apply bool_decide_ext. split; [apply fmap_nil_inv|now intros ->]. }
  now rewrite day_loop_max, fallback_max.
Qed.

Lemma schedule_date_max acc d :
  schedule_date self' acc d = schedule_date self acc d.
Proof.
  unfold schedule_date. cbn [store_hours self'].
  destruct (DayOfWeek_of_value (weekday d)) as [dow|]; [|reflexivity].
  destruct (negb _); [reflexivity|].
  destruct (get_hours _ _ _) as [[o c]|]; [|reflexivity].
  now rewrite day_max.
Qed.

End MaxHoursPerShift.

(** X16.  [max_hours_per_shift] is never read.  Whatever values the
    employees of the roster are given for it, [generate_schedule] returns
    the same schedule. *)
Theorem max_hours_per_shift_is_ignored (self : ShiftScheduler)
    (f : Employee -> Q) (y m : Z) :
  generate_schedule
    {| employees := map (with_max_hours_per_shift f) (employees self);
       store_hours := store_hours self |} y m
  = generate_schedule self y m.
Proof.
  unfold generate_schedule, generate_schedule_state.
  destruct (_get_dates_in_month y m) as [dates|]; [|reflexivity].
  cbn [employees]. unfold initial_hours.
  rewrite map_map. cbn [with_max_hours_per_shift name].
  generalize ({| month := m; year := y; shifts := [] |},
              list_to_map (M := gmap string Q)
                (map (fun emp => (name emp, 0%Q)) (employees self))).
  induction dates as [|d dates IH]; intros acc; [reflexivity|].
  simpl. rewrite schedule_date_max. apply IH.
Qed.

(** * The two sorts *)

Section RankOrder.

Context {A : Type} (R : A -> A -> Prop).

Lemma in_rank_order_nil : in_rank_order R [].
Proof. intros i j a b Hi. discriminate. Qed.

Lemma in_rank_order_cons x l :
  in_rank_order R (x :: l) <-> Forall (R x) l /\ in_rank_order R l.
Proof.
  split.
  - intros H. split.
    + apply Forall_forall. intros b [j Hj]%list_elem_of_lookup_1.
      apply (H 0%nat (S j) x b); [reflexivity|exact Hj|lia].
    + intros i j a b Hi Hj Hij. apply (H (S i) (S j) a b); auto. lia.
  - intros [Hx Hl] i j a b Hi Hj Hij.
    destruct j as [|j]; [lia|]. simpl in Hj.
    destruct i as [|i]; simpl in Hi.
    + injection Hi as <-. rewrite Forall_forall in Hx.
      eapply Hx, list_elem_of_lookup_2; eauto.
    + apply (Hl i j a b); auto. lia.
Qed.

End RankOrder.

Section StableSort.

Context {A : Type} (lt : A -> A -> bool).
Hypothesis lt_asym : forall a b, lt a b = true -> lt b a = false.
Hypothesis lt_trans :
  forall a b c, lt b a = false -> lt c b = false -> lt c a = false.

Let R (a b : A) : Prop := lt b a = false.

Lemma insert_by_elem x l b : b ∈ insert_by lt x l -> b = x \/ b ∈ l.
Proof.
  intros Hb.
  apply (elem_of_Permutation_proper _ _ _ (insert_by_Permutation lt x l))
    in Hb.
  now apply elem_of_cons in Hb.
Qed.

Lemma insert_by_rank_order x l :
  in_rank_order R l -> in_rank_order R (insert_by lt x l).
Proof.
  induction l as [|y l IH]; simpl; intros Hl.
  - apply in_rank_order_cons. split; [apply Forall_nil_2|exact Hl].
  - apply in_rank_order_cons in Hl as [Hy Hl].
    destruct (lt y x) eqn:E; apply in_rank_order_cons.
    + split; [|auto]. apply Forall_forall. intros b [->|Hb]%insert_by_elem.
      * now apply lt_asym.
      * rewrite Forall_forall in Hy. auto.
    + split; [|now apply in_rank_order_cons].
      apply Forall_cons. split; [exact E|].
      eapply Forall_impl; [exact Hy|]. intros b Hb. unfold R in *.
      eapply lt_trans; eauto.
Qed.

Lemma sort_by_rank_order l : in_rank_order R (sort_by lt l).
Proof.
  unfold sort_by. induction l as [|x l IH]; simpl.
  - apply in_rank_order_nil.
  - now apply insert_by_rank_order.
Qed.

End StableSort.

Lemma key_lt_asym k1 k2 : key_lt k1 k2 = true -> key_lt k2 k1 = false.
Proof.
  unfold key_lt. destruct k1 as [[] q1], k2 as [[] q2]; simpl; try easy.
  all: intros H%Qlt_bool_iff; apply Qlt_bool_false_iff; now apply Qlt_le_weak.
Qed.

Lemma key_lt_trans k1 k2 k3 :
  key_lt k2 k1 = false -> key_lt k3 k2 = false -> key_lt k3 k1 = false.
Proof.
  unfold key_lt. destruct k1 as [[] q1], k2 as [[] q2], k3 as [[] q3]; simpl;
    try easy.
  all: rewrite !Qlt_bool_false_iff; intros; now apply (Qle_trans _ q2).
Qed.

(** X17.  The ranking of the employees.  On employees whose monthly cap
    is not zero (the division of the sort key raises on a zero cap),
    [sort_employees] returns the employees it is given, each as often as
    it occurs; an employee who prefers the day never stands behind one who
    does not; and of two employees who agree on preferring the day, the
    one in front has used no larger a share of the monthly cap. *)
Theorem sort_employees_ranks (h : gmap string Q) (dow : DayOfWeek) (d : Z)
    (l : list Employee) :
  Forall (fun emp => ~ (max_hours_per_month emp == 0)%Q) l ->
  sort_employees h dow d l ≡ₚ l
  /\ in_rank_order
       (fun a b =>
          (prefers_day b dow (Some d) = true ->
           prefers_day a dow (Some d) = true)
          /\ (prefers_day a dow (Some d) = prefers_day b dow (Some d) ->
              (hours_get h (name a) / max_hours_per_month a
               <= hours_get h (name b) / max_hours_per_month b)%Q))
       (sort_employees h dow d l).
Proof.
  intros _. split; [apply sort_by_Permutation|].
  intros i j a b Hi Hj Hij.
  pose proof (sort_by_rank_order
                (fun a b => key_lt (sort_key h dow d a) (sort_key h dow d b))
                (fun a b => key_lt_asym _ _)
                (fun a b c => key_lt_trans _ _ _) l i j a b Hi Hj Hij) as H.
  cbv beta in H. unfold key_lt, sort_key in H. cbn [fst snd] in H.
  destruct (prefers_day a dow (Some d)), (prefers_day b dow (Some d));
    cbn [negb] in H; try discriminate; split; try easy.
  all: intros _; now apply Qlt_bool_false_iff.
Qed.

Lemma sort_employees_ranks_witness :
  sort_employees (initial_hours (employees night_shop)) MONDAY jan15
    (employees night_shop) ≡ₚ employees night_shop
  /\ in_rank_order
       (fun a b =>
          (prefers_day b MONDAY (Some jan15) = true ->
           prefers_day a MONDAY (Some jan15) = true)
          /\ (prefers_day a MONDAY (Some jan15)
              = prefers_day b MONDAY (Some jan15) ->
              (hours_get (initial_hours (employees night_shop)) (name a)
               / max_hours_per_month a
               <= hours_get (initial_hours (employees night_shop)) (name b)
                  / max_hours_per_month b)%Q))
       (sort_employees (initial_hours (employees night_shop)) MONDAY jan15
          (employees night_shop)).
Proof.
  apply (sort_employees_ranks (initial_hours (employees night_shop)) MONDAY
           jan15 (employees night_shop)).
  repeat (apply Forall_cons; split; [vm_compute; discriminate|]).
  apply Forall_nil_2.
Defined.

(** * The candidate durations *)

Lemma insert_desc_elem x l b : b ∈ insert_desc x l -> b = x \/ b ∈ l.
Proof.
  induction l as [|y l IH]; simpl.
  - intros ->%list_elem_of_singleton. now left.
  - destruct (Qeq_bool x y); [now right|].
    destruct (Qlt_bool y x).
    + intros [->|Hb]%elem_of_cons; [now left|now right].
    + intros [->|Hb]%elem_of_cons; [right; left|].
      destruct (IH Hb); [now left|right; now right].
Qed.

Lemma insert_desc_rank_order x l :
  in_rank_order (fun a b => (b < a)%Q) l ->
  in_rank_order (fun a b => (b < a)%Q) (insert_desc x l).
Proof.
  induction l as [|y l IH]; simpl; intros Hl.
  - apply in_rank_order_cons. split; [apply Forall_nil_2|exact Hl].
  - destruct (Qeq_bool x y) eqn:Eq; [exact Hl|].
    apply in_rank_order_cons in Hl as [Hy Hl].
    destruct (Qlt_bool y x) eqn:E; apply in_rank_order_cons.
    + apply Qlt_bool_iff in E. split; [|now apply in_rank_order_cons].
      apply Forall_cons. split; [exact E|].
      eapply Forall_impl; [exact Hy|]. intros b Hb.
      now apply (Qlt_trans _ y).
    + split; [|auto]. apply Forall_forall.
      intros b [->|Hb]%insert_desc_elem.
      * apply Qlt_bool_false_iff in E. apply Qle_lt_or_eq in E as [E|E];
          [exact E|].
        apply Qeq_bool_neq in Eq. contradiction.
      * rewrite Forall_forall in Hy. auto.
Qed.

(** X18.  The candidate durations of an employee are tried from the
    largest down.  The list starts with the whole remaining time of the
    day, each later value is strictly smaller than the ones before it, and
    every value is one of the three the code computes. *)
Theorem potential_durations_largest_first (shift_duration remaining_hours
    remaining_time : Q) :
  head (potential_durations shift_duration remaining_hours remaining_time)
    = Some remaining_time
  /\ in_rank_order (fun a b => (b < a)%Q)
       (potential_durations shift_duration remaining_hours remaining_time)
  /\ Forall (fun a =>
               a ∈ [qmin (qmin shift_duration remaining_hours) remaining_time;
                    qmin remaining_hours remaining_time; remaining_time])
       (potential_durations shift_duration remaining_hours remaining_time).
Proof.
  split; [|split].
  - now destruct (potential_durations_head shift_duration remaining_hours
                    remaining_time) as [rest ->].
  - unfold potential_durations, sorted_set_desc. cbn [foldr].
    do 3 apply insert_desc_rank_order. apply in_rank_order_nil.
  - unfold potential_durations, sorted_set_desc. cbn [foldr].
    apply Forall_forall. intros a Ha.
    apply insert_desc_elem in Ha as [->|Ha]; [left|].
    apply insert_desc_elem in Ha as [->|Ha]; [right; left|].
    apply insert_desc_elem in Ha as [->|Ha]; [right; right; left|].
    now apply elem_of_nil in Ha.
Qed.

(** * The calendar *)

Section Calendar.

Lemma div_mod_unique a b q r :
  0 <= r < b -> a = b * q + r -> a / b = q /\ a mod b = r.
Proof.
  intros Hr Ha. split; symmetry.
  - now apply (Z.div_unique_pos a b q r).
  - now apply (Z.mod_unique_pos a b q r).
Qed.

Lemma month_cases m :
  1 <= m <= 12 ->
  m = 1 \/ m = 2 \/ m = 3 \/ m = 4 \/ m = 5 \/ m = 6 \/ m = 7 \/ m = 8
  \/ m = 9 \/ m = 10 \/ m = 11 \/ m = 12.
Proof. lia. Qed.

Lemma days_in_month_table y m :
  1 <= m <= 12 ->
  days_in_month y m
  = table_get _DAYS_IN_MONTH m + (if (m =? 2) && is_leap y then 1 else 0).
Proof.
  intros Hm%month_cases.
  repeat (destruct Hm as [->|Hm]); try subst m; cbn [days_in_month];
    try reflexivity.
  now destruct (is_leap y).
Qed.

Lemma days_before_month_table y m :
  1 <= m <= 12 ->
  days_before_month y m
  = table_get _DAYS_BEFORE_MONTH m
    + (if (2 <? m) && is_leap y then 1 else 0).
Proof.
  intros Hm%month_cases. unfold days_before_month.
  repeat (destruct Hm as [->|Hm]); try subst m;
    cbv -[is_leap]; destruct (is_leap y); reflexivity.
Qed.

Lemma day_cases d :
  1 <= d <= 31 ->
  d = 1 \/ d = 2 \/ d = 3 \/ d = 4 \/ d = 5 \/ d = 6 \/ d = 7 \/ d = 8
  \/ d = 9 \/ d = 10 \/ d = 11 \/ d = 12 \/ d = 13 \/ d = 14 \/ d = 15
  \/ d = 16 \/ d = 17 \/ d = 18 \/ d = 19 \/ d = 20 \/ d = 21 \/ d = 22
  \/ d = 23 \/ d = 24 \/ d = 25 \/ d = 26 \/ d = 27 \/ d = 28 \/ d = 29
  \/ d = 30 \/ d = 31.
Proof. lia. Qed.

Ltac table_values H :=
  repeat match type of H with
         | context [table_get ?l ?i] =>
             let v := eval vm_compute in (table_get l i) in
             change (table_get l i) with v in H
         end.

Ltac table_values_goal :=
  repeat match goal with
         | |- context [table_get ?l ?i] =>
             let v := eval vm_compute in (table_get l i) in
             change (table_get l i) with v
         end.

Lemma month_and_day_inverse (leap : bool) m d :
  1 <= m <= 12 ->
  1 <= d <= table_get _DAYS_IN_MONTH m
            + (if (m =? 2) && leap then 1 else 0) ->
  month_and_day (table_get _DAYS_BEFORE_MONTH m
                 + (if (2 <? m) && leap then 1 else 0) + d - 1) leap
  = (m, d).
Proof.
  intros Hm%month_cases Hd.
  assert (1 <= d <= 31) as Hd'%day_cases.
  { repeat (destruct Hm as [->|Hm]); try subst m; destruct leap;
      table_values Hd; simpl in Hd; lia. }
  repeat (destruct Hm as [->|Hm]); try subst m; destruct leap;
    repeat (destruct Hd' as [->|Hd']); try subst d;
    first [reflexivity | exfalso; table_values Hd; simpl in Hd; lia].
Qed.


Lemma year_split y :
  1 <= y ->
  exists c b a k,
    0 <= c /\ 0 <= b < 4 /\ 0 <= a < 25 /\ 0 <= k < 4
    /\ y = 400 * c + 100 * b + 4 * a + k + 1
    /\ days_before_year y = 146097 * c + 36524 * b + 1461 * a + 365 * k
    /\ is_leap y = (k =? 3) && (negb (a =? 24) || (b =? 3)).
Proof.
  intros Hy.
  exists ((y - 1) / 400), ((y - 1) mod 400 / 100), ((y - 1) mod 100 / 4),
    ((y - 1) mod 4).
  unfold days_before_year, is_leap. cbv zeta.
  repeat split; Z.div_mod_to_equations; lia.
Qed.

Lemma ord2ymd_ymd2ord y m d :
  1 <= y -> 1 <= m <= 12 -> 1 <= d <= days_in_month y m ->
  ord2ymd (ymd2ord y m d) = (y, m, d).
Proof.
  intros Hy Hm Hd.
  destruct (year_split y Hy) as (c & b & a & k & Hc & Hb & Ha & Hk & Ey & Edby
                                 & Eleap).
  rewrite days_in_month_table in Hd by exact Hm.
  pose proof (month_and_day_inverse (is_leap y) m d Hm Hd) as Hmd.
  unfold ymd2ord. rewrite days_before_month_table, Edby by exact Hm.
  set (t := table_get _DAYS_BEFORE_MONTH m
            + (if (2 <? m) && is_leap y then 1 else 0) + d - 1) in *.
  assert (0 <= t < 365 + (if is_leap y then 1 else 0)
          /\ (t = 365 -> m = 12 /\ d = 31)) as [Ht Ht365].
  { subst t. clear Hmd. apply month_cases in Hm.
    repeat (destruct Hm as [->|Hm]); try subst m; destruct (is_leap y);
      table_values Hd; simpl in Hd; table_values_goal; simpl; lia. }
  unfold ord2ymd. cbv zeta.
  replace (146097 * c + 36524 * b + 1461 * a + 365 * k
           + (table_get _DAYS_BEFORE_MONTH m
              + (if (2 <? m) && is_leap y then 1 else 0)) + d - 1)
    with (146097 * c + 36524 * b + 1461 * a + 365 * k + t) by (subst t; lia).
  rewrite Eleap in Ht, Hmd.
  destruct (decide (t = 365)) as [E365|N365].
  - (* the last day of a leap year *)
    destruct (Ht365 E365) as [-> ->].
    assert (k = 3 /\ (a <> 24 \/ b = 3)) as [-> Hab].
    { destruct (Z.eqb_spec k 3); [|simpl in Ht; lia]. split; [assumption|].
      destruct (Z.eqb_spec a 24), (Z.eqb_spec b 3); simpl in Ht; lia. }
    rewrite E365.
    destruct (decide (a = 24)) as [->|Na].
    + assert (b = 3) as -> by lia.
      destruct (div_mod_unique (146097 * c + 36524 * 3 + 1461 * 24 + 365 * 3
                                + 365) 146097 c 146096) as [-> ->]; [lia..|].
      destruct (div_mod_unique 146096 36524 4 0) as [-> ->]; [lia..|].
      simpl. do 2 f_equal. Z.div_mod_to_equations; lia.
    + destruct (div_mod_unique (146097 * c + 36524 * b + 1461 * a + 365 * 3
                                + 365) 146097 c
                  (36524 * b + 1461 * a + 1460)) as [-> ->]; [lia..|].
      destruct (div_mod_unique (36524 * b + 1461 * a + 1460) 36524 b
                  (1461 * a + 1460)) as [-> ->]; [lia..|].
      destruct (div_mod_unique (1461 * a + 1460) 1461 a 1460) as [-> ->];
        [lia..|].
      destruct (div_mod_unique 1460 365 4 0) as [-> ->]; [lia..|].
      simpl. do 2 f_equal. Z.div_mod_to_equations; lia.
  - assert (0 <= t < 365) as Ht'
      by (revert Ht; case ((k =? 3) && (negb (a =? 24) || (b =? 3))); lia).
    destruct (div_mod_unique (146097 * c + 36524 * b + 1461 * a + 365 * k + t)
                146097 c (36524 * b + 1461 * a + 365 * k + t)) as [-> ->];
      [lia..|].
    destruct (div_mod_unique (36524 * b + 1461 * a + 365 * k + t) 36524 b
                (1461 * a + 365 * k + t)) as [-> ->].
    { split; [lia|].
      destruct (Z.eqb_spec k 3), (Z.eqb_spec a 24), (Z.eqb_spec b 3);
        simpl in Ht; lia. }
    { lia. }
    destruct (div_mod_unique (1461 * a + 365 * k + t) 1461 a (365 * k + t))
      as [-> ->]; [lia..|].
    destruct (div_mod_unique (365 * k + t) 365 k t) as [-> ->]; [lia..|].
    assert ((k =? 4) || (b =? 4) = false) as -> by lia.
    rewrite Hmd. do 2 f_equal. lia.
Qed.

Lemma days_in_month_bounds y m : 28 <= days_in_month y m <= 31.
Proof.
  unfold days_in_month. repeat case_match; lia.
Qed.

(** The day after the last day of a month is the first day of the next
    month. *)
Lemma ymd2ord_next_month y m :
  1 <= m <= 12 ->
  ymd2ord y m (days_in_month y m + 1)
  = if m =? 12 then ymd2ord (y + 1) 1 1 else ymd2ord y (m + 1) 1.
Proof.
  intros Hm. unfold ymd2ord.
  destruct (Z.eqb_spec m 12) as [->|Hne].
  - rewrite !days_before_month_table by lia.
    cbn [days_in_month]. table_values_goal.
    destruct (is_leap y) eqn:E; unfold is_leap in E; simpl;
      unfold days_before_year; replace (y + 1 - 1) with y by lia;
      Z.div_mod_to_equations; lia.
  - rewrite days_in_month_table, !days_before_month_table by lia.
    apply month_cases in Hm.
    repeat (destruct Hm as [->|Hm]); try subst m; try lia;
      table_values_goal; destruct (is_leap y); simpl; lia.
Qed.

Lemma ymd2ord_le_max y m d :
  1 <= y <= 9999 -> 1 <= m <= 12 -> d <= days_in_month y m ->
  ymd2ord y m d <= MAXORDINAL.
Proof.
  intros Hy Hm Hd. unfold ymd2ord, MAXORDINAL.
  rewrite days_in_month_table in Hd by exact Hm.
  rewrite days_before_month_table by exact Hm.
  assert (table_get _DAYS_BEFORE_MONTH m
          + (if (2 <? m) && is_leap y then 1 else 0) + d
          <= 365 + (if is_leap y then 1 else 0)) as Ht.
  { apply month_cases in Hm.
    repeat (destruct Hm as [->|Hm]); try subst m; table_values Hd;
      table_values_goal; destruct (is_leap y); simpl in *; lia. }
  revert Ht. unfold days_before_year, is_leap.
  case ((y mod 4 =? 0) && (negb (y mod 100 =? 0) || (y mod 400 =? 0))) eqn:E;
    intros Ht; Z.div_mod_to_equations; lia.
Qed.

Lemma datetime_date_step o k :
  datetime_date (combine o 0 + k * US_PER_DAY) = o + k.
Proof.
  unfold datetime_date, combine, US_PER_DAY.
  replace (o * 86400000000 + 0 + k * 86400000000)
    with ((o + k) * 86400000000) by lia.
  now apply Z.div_mul.
Qed.

Section Loop.

Context (y m : Z).
Hypothesis Hy : 1 <= y <= 9999.
Hypothesis Hm : 1 <= m <= 12.

Let first := combine (ymd2ord y m 1) 0.

Lemma month_of_day k :
  0 <= k < days_in_month y m ->
  datetime_month (first + k * US_PER_DAY) = m.
Proof.
  intros Hk. unfold datetime_month, first. rewrite datetime_date_step.
  replace (ymd2ord y m 1 + k) with (ymd2ord y m (k + 1))
    by (unfold ymd2ord; lia).
  rewrite ord2ymd_ymd2ord; [reflexivity|lia..].
Qed.

Lemma month_after_last_day :
  ~ (y = 9999 /\ m = 12) ->
  datetime_month (first + days_in_month y m * US_PER_DAY) <> m.
Proof.
  intros Hlast. unfold datetime_month, first. rewrite datetime_date_step.
  replace (ymd2ord y m 1 + days_in_month y m)
    with (ymd2ord y m (days_in_month y m + 1)) by (unfold ymd2ord; lia).
  rewrite ymd2ord_next_month by exact Hm.
  destruct (Z.eqb_spec m 12) as [->|Hne].
  - rewrite ord2ymd_ymd2ord; [simpl; lia|lia..|simpl; lia].
  - rewrite ord2ymd_ymd2ord; [simpl; lia|lia..|].
    pose proof (days_in_month_bounds y (m + 1)). lia.
Qed.

Lemma next_day_in_range k :
  ~ (y = 9999 /\ m = 12) -> 0 <= k < days_in_month y m ->
  datetime_date (first + k * US_PER_DAY) + 1 <= MAXORDINAL.
Proof.
  intros Hlast Hk. unfold first. rewrite datetime_date_step.
  assert (ymd2ord y m 1 + k + 1 <= ymd2ord y m (days_in_month y m + 1))
    as Hle by (unfold ymd2ord; lia).
  etransitivity; [exact Hle|]. rewrite ymd2ord_next_month by exact Hm.
  destruct (Z.eqb_spec m 12) as [->|Hne].
  - apply ymd2ord_le_max; [lia..|simpl; lia].
  - apply ymd2ord_le_max; [lia..|].
    pose proof (days_in_month_bounds y (m + 1)). lia.
Qed.

Lemma dates_while_month (n : nat) :
  ~ (y = 9999 /\ m = 12) ->
  forall k fuel,
    0 <= k -> k + Z.of_nat n = days_in_month y m -> (n < fuel)%nat ->
    dates_while fuel m (first + k * US_PER_DAY)
    = Returns (map (fun i => first + i * US_PER_DAY) (seqZ k (Z.of_nat n))).
Proof.
  intros Hlast. induction n as [|n IH]; intros k fuel Hk Hn Hfuel;
    (destruct fuel as [|fuel]; [lia|]); cbn [dates_while].
  - replace k with (days_in_month y m) by lia.
    pose proof (month_after_last_day Hlast) as Hne.
    now destruct (Z.eqb_spec (datetime_month
                                (first + days_in_month y m * US_PER_DAY)) m).
  - rewrite month_of_day, Z.eqb_refl by lia.
    pose proof (next_day_in_range k Hlast ltac:(lia)) as Hmax.
    destruct (Z.ltb_spec MAXORDINAL
                (datetime_date (first + k * US_PER_DAY) + 1)); [lia|].
    replace (first + k * US_PER_DAY + US_PER_DAY)
      with (first + (k + 1) * US_PER_DAY) by lia.
    rewrite (IH (k + 1) fuel) by lia.
    rewrite (seqZ_cons k (Z.of_nat (S n))) by lia.
    replace (Z.pred (Z.of_nat (S n))) with (Z.of_nat n) by lia.
    replace (Z.succ k) with (k + 1) by lia. reflexivity.
Qed.

(** In December 9999 the step past the last day raises, and it does so
    before the fuel runs out when there is fuel for the days left. *)
Lemma dates_while_overflow fuel k :
  y = 9999 -> m = 12 -> 0 <= k < 31 -> (Z.to_nat (31 - k) <= fuel)%nat ->
  dates_while fuel m (first + k * US_PER_DAY) = Raises.
Proof.
  intros Ey Em. revert k. induction fuel as [|fuel IH]; intros k Hk Hfuel;
    [lia|]. cbn [dates_while].
  rewrite month_of_day, Z.eqb_refl by (subst m; simpl; lia).
  destruct (Z.ltb_spec MAXORDINAL
              (datetime_date (first + k * US_PER_DAY) + 1)) as [|Hle];
    [reflexivity|].
  replace (first + k * US_PER_DAY + US_PER_DAY)
    with (first + (k + 1) * US_PER_DAY) by lia.
  unfold first in Hle. rewrite datetime_date_step in Hle. subst y m.
  assert (ymd2ord 9999 12 1 = 3652029) as E by (vm_compute; reflexivity).
  rewrite E in Hle. unfold MAXORDINAL in Hle.
  rewrite IH; [reflexivity|clear - Hk Hle; lia|clear - Hk Hle Hfuel; lia].
Qed.

End Loop.

End Calendar.

(** X19.  The loop of [_get_dates_in_month] collects exactly the days of
    the month: [datetime(year, month, 1)] and the days after it, as many
    as the month has, and it ends within 32 passes.  On a year outside
    1..9999 or a month outside 1..12 it raises, and so it does on
    December 9999, where the step past the last day overflows. *)
Theorem get_dates_in_month_loop_collects_the_month (y m : Z) :
  _get_dates_in_month_loop y m
  = match _get_dates_in_month y m with
    | Some dates => Returns dates
    | None => Raises
    end.
Proof.
  unfold _get_dates_in_month_loop, _get_dates_in_month, first_of_month.
  destruct ((1 <=? y) && (y <=? 9999) && (1 <=? m) && (m <=? 12)) eqn:E;
    [|reflexivity].
  assert (1 <= y <= 9999 /\ 1 <= m <= 12) as [Hy Hm] by lia.
  destruct ((y =? 9999) && (m =? 12)) eqn:El.
  - replace (combine (ymd2ord y m 1) 0)
      with (combine (ymd2ord y m 1) 0 + 0 * US_PER_DAY) by lia.
    apply dates_while_overflow; [lia..|]. simpl. lia.
  - pose proof (days_in_month_bounds y m) as Hb.
    replace (combine (ymd2ord y m 1) 0)
      with (combine (ymd2ord y m 1) 0 + 0 * US_PER_DAY) at 1 by lia.
    rewrite (dates_while_month y m Hy Hm (Z.to_nat (days_in_month y m)))
      by lia.
    now rewrite Z2Nat.id by lia.
Qed.

Lemma dates_of_month_ends first (n : Z) :
  1 <= n ->
  let dates := map (fun i => first + i * US_PER_DAY) (seqZ 0 n) in
  head dates = Some first
  /\ last dates = Some (first + (n - 1) * US_PER_DAY)
  /\ Z.of_nat (length dates) = n.
Proof.
  intros Hn dates. subst dates. repeat split.
  - rewrite (seqZ_cons 0 n) by lia. simpl. f_equal. unfold US_PER_DAY. lia.
  - rewrite last_lookup, length_map, length_seqZ, list_lookup_fmap.
    rewrite lookup_seqZ_lt by lia. simpl. f_equal. unfold US_PER_DAY. lia.
  - rewrite length_map, length_seqZ. lia.
Qed.

(** X20.  [get_month_info] of the calendar views agrees with the dates
    the scheduler enumerates.  It raises on the months on which
    [_get_dates_in_month] raises, and otherwise returns the first and the
    last of the scheduler's dates, their number, and the weekday of the
    first. *)
Theorem get_month_info_agrees_with_the_dates (y m : Z) :
  match get_month_info y m, _get_dates_in_month y m with
  | Some (first_day, last_day, num_days, start_weekday), Some dates =>
      head dates = Some first_day /\ last dates = Some last_day
      /\ num_days = Z.of_nat (length dates)
      /\ start_weekday = weekday first_day
  | None, None => True
  | _, _ => False
  end.
Proof.
  unfold get_month_info, _get_dates_in_month, first_of_month.
  destruct ((1 <=? y) && (y <=? 9999) && (1 <=? m) && (m <=? 12)) eqn:E;
    [|exact I].
  assert (1 <= y <= 9999 /\ 1 <= m <= 12) as [Hy Hm] by lia.
  cbv zeta.
  destruct ((y =? 9999) && (m =? 12)) eqn:El.
  - assert (y = 9999 /\ m = 12) as [-> ->] by lia. exact I.
  - assert ((1 <=? y + (if m =? 12 then 1 else 0))
            && (y + (if m =? 12 then 1 else 0) <=? 9999)
            && (1 <=? m mod 12 + 1) && (m mod 12 + 1 <=? 12) = true) as ->.
    { destruct (Z.eqb_spec m 12); Z.div_mod_to_equations; lia. }
    pose proof (days_in_month_bounds y m) as Hb.
    destruct (dates_of_month_ends (combine (ymd2ord y m 1) 0)
                (days_in_month y m) ltac:(lia)) as (Hh & Hl & Hn).
    assert (combine (ymd2ord (y + (if m =? 12 then 1 else 0))
                       (m mod 12 + 1) 1) 0 - US_PER_DAY
            = combine (ymd2ord y m (days_in_month y m)) 0) as Elast.
    { pose proof (ymd2ord_next_month y m Hm) as Hnext.
      assert (ymd2ord (y + (if m =? 12 then 1 else 0)) (m mod 12 + 1) 1
              = ymd2ord y m (days_in_month y m) + 1) as ->.
      { destruct (Z.eqb_spec m 12) as [->|Hne].
        - change (12 mod 12 + 1) with 1. rewrite <- Hnext.
          unfold ymd2ord. lia.
        - replace (m mod 12 + 1) with (m + 1)
            by (Z.div_mod_to_equations; lia).
          replace (y + 0) with y by lia. rewrite <- Hnext.
          unfold ymd2ord. lia. }
      unfold combine, US_PER_DAY. lia. }
    rewrite Elast. repeat split.
    + exact Hh.
    + rewrite Hl. f_equal. unfold combine, ymd2ord, US_PER_DAY. lia.
    + unfold datetime_day. rewrite datetime_date_combine
        by (unfold valid_time, US_PER_DAY; lia).
      rewrite ord2ymd_ymd2ord by lia. simpl. lia.
Qed.

(** * The preference editor *)

Lemma list_remove_elem x y l :
  y ∈ list_remove x l -> y ∈ l.
Proof.
  induction l as [|z l IH]; simpl; [easy|].
  destruct (decide (z = x)); [now right|].
  intros [->|H]%elem_of_cons; [left|right; auto].
Qed.

Lemma list_remove_other x y l :
  y <> x -> y ∈ l -> y ∈ list_remove x l.
Proof.
  intros Hne. induction l as [|z l IH]; simpl; [easy|].
  destruct (decide (z = x)) as [->|Hz].
  - intros [->|H]%elem_of_cons; [contradiction|exact H].
  - intros [->|H]%elem_of_cons; [left|right; auto].
Qed.

Lemma list_remove_NoDup x l :
  NoDup l -> NoDup (list_remove x l) /\ x ∉ list_remove x l.
Proof.
  induction 1 as [|z l Hz Hl [IH1 IH2]]; simpl.
  - split; [constructor|apply not_elem_of_nil].
  - destruct (decide (z = x)) as [->|Hne]; [now split|]. split.
    + constructor; [|exact IH1]. intros H. now apply list_remove_elem in H.
    + intros [?|?]%elem_of_cons; [congruence|contradiction].
Qed.

Section Removed.

Context (x : Z).

Let removed (l : list Z) : list Z :=
  if bool_decide (x ∈ l) then list_remove x l else l.

Lemma removed_NoDup l : NoDup l -> NoDup (removed l) /\ x ∉ removed l.
Proof.
  intros Hl. unfold removed. case_bool_decide; [|now split].
  now apply list_remove_NoDup.
Qed.

Lemma removed_other y l : y <> x -> y ∈ removed l <-> y ∈ l.
Proof.
  intros Hne. unfold removed. case_bool_decide; [|reflexivity].
  split; [apply list_remove_elem|now apply list_remove_other].
Qed.

End Removed.

Lemma removed_date_has_no_preference emp d :
  NoDup (preferred_dates emp) -> NoDup (unavailable_dates emp) ->
  has_date_preference (remove_preference_from_all_lists emp d) d = false.
Proof.
  intros Hp Hu.
  destruct (removed_NoDup d _ Hp) as [_ Hp'].
  destruct (removed_NoDup d _ Hu) as [_ Hu'].
  unfold has_date_preference, remove_preference_from_all_lists.
  cbn [with_date_preferences preferred_dates unavailable_dates
       preferred_times_by_date unavailable_times_by_date
       available_times_by_date].
  rewrite !lookup_delete_eq.
  rewrite (bool_decide_eq_false_2 _ Hp'), (bool_decide_eq_false_2 _ Hu').
  rewrite (bool_decide_eq_false_2 (is_Some None))
    by (intros [? ?]; discriminate).
  reflexivity.
Qed.

(** X21.  [remove_preference_from_all_lists] clears the date and nothing
    else.  When neither list of dates holds a date twice, the employee has
    no preference left for the date afterwards, and for every other date
    [has_date_preference] answers as before. *)
Theorem remove_preference_clears_the_date (emp : Employee) (d d' : Z) :
  NoDup (preferred_dates emp) -> NoDup (unavailable_dates emp) ->
  has_date_preference (remove_preference_from_all_lists emp d) d = false
  /\ (d' <> d ->
      has_date_preference (remove_preference_from_all_lists emp d) d'
      = has_date_preference emp d').
Proof.
  intros Hp Hu. split; [now apply removed_date_has_no_preference|].
  unfold has_date_preference, remove_preference_from_all_lists.
  cbn [with_date_preferences preferred_dates unavailable_dates
       preferred_times_by_date unavailable_times_by_date
       available_times_by_date].
  intros Hne. rewrite !lookup_delete_ne by auto.
  f_equal. f_equal; apply bool_decide_ext; now apply removed_other.
Qed.

Lemma remove_preference_clears_the_date_witness :
  has_date_preference (remove_preference_from_all_lists marked_employee jan15)
    jan15 = false
  /\ (apr1 <> jan15 ->
      has_date_preference
        (remove_preference_from_all_lists marked_employee jan15) apr1
      = has_date_preference marked_employee apr1).
Proof.
  apply (remove_preference_clears_the_date marked_employee jan15 apr1).
  - constructor.
  - apply NoDup_singleton.
Defined.



(** X23.  Saving a preference replaces what the date had.  When neither
    list of dates holds a date twice, none does after the handler, and the
    date saved has a preference afterwards, except for "Available Only"
    without both hours, which stores nothing. *)
Theorem set_date_preference_replaces (emp : Employee)
    (editing_pref_date : option Z) (date_dt : Z)
    (pref_type : PreferenceType) (pref_start pref_end : option Z) :
  NoDup (preferred_dates emp) -> NoDup (unavailable_dates emp) ->
  let emp' := set_date_preference emp editing_pref_date date_dt pref_type
                pref_start pref_end in
  NoDup (preferred_dates emp') /\ NoDup (unavailable_dates emp')
  /\ (has_date_preference emp' (_normalize_date date_dt) = true
      <-> ~ (pref_type = AvailableOnly
             /\ (pref_start = None \/ pref_end = None))).
Proof.
  intros Hp Hu. unfold set_date_preference. cbv zeta.
  set (emp1 := match editing_pref_date with
               | Some old =>
                   remove_preference_from_all_lists emp (_normalize_date old)
               | None => emp
               end).
  assert (NoDup (preferred_dates emp1) /\ NoDup (unavailable_dates emp1))
    as [Hp1 Hu1].
  { subst emp1. destruct editing_pref_date as [old|]; [|now split].
    split; now apply removed_NoDup. }
  set (d := _normalize_date date_dt).
  destruct (removed_NoDup d _ Hp1) as [Hp2 Hp3].
  destruct (removed_NoDup d _ Hu1) as [Hu2 Hu3].
  pose proof (removed_date_has_no_preference emp1 d Hp1 Hu1) as Hclear.
  set (emp2 := remove_preference_from_all_lists emp1 d) in *.
  assert (forall l, NoDup l -> d ∉ l -> NoDup (l ++ [d])) as Hsnoc.
  { intros l Hl Hd. apply NoDup_app. repeat split; [exact Hl| |].
    - intros x Hx ->%list_elem_of_singleton. contradiction.
    - apply NoDup_singleton. }
  unfold has_date_preference in *.
  destruct pref_start as [s|], pref_end as [e|], pref_type;
    cbn [with_date_preferences preferred_dates unavailable_dates
         preferred_times_by_date unavailable_times_by_date
         available_times_by_date];
    (split; [auto|split; [auto|]]);
    rewrite ?lookup_insert_eq;
    rewrite ?(bool_decide_eq_true_2 (is_Some (Some _))) by eauto;
    rewrite ?(bool_decide_eq_true_2 (d ∈ _ ++ [d]))
      by (apply elem_of_app; right; left);
    rewrite ?orb_true_r; cbn [orb];
    try (split; [intros _ [? [?|?]]; discriminate|reflexivity]);
    try (rewrite Hclear; split; [discriminate|intros H; exfalso; apply H;
                                               auto]).
Qed.

Lemma set_date_preference_replaces_witness :
  let emp' := set_date_preference marked_employee (Some jan15) apr1
                Unavailable None None in
  NoDup (preferred_dates emp') /\ NoDup (unavailable_dates emp')
  /\ (has_date_preference emp' (_normalize_date apr1) = true
      <-> ~ (Unavailable = AvailableOnly
             /\ (@None Z = None \/ @None Z = None))).
Proof.
  apply (set_date_preference_replaces marked_employee (Some jan15) apr1
           Unavailable None None).
  - constructor.
  - apply NoDup_singleton.
Defined.

(** * The colours of the employees *)

Lemma palette_NoDup : NoDup EMPLOYEE_COLOR_PALETTE.
Proof.
  apply (bool_decide_unpack (NoDup EMPLOYEE_COLOR_PALETTE)). vm_compute.
  exact I.
Qed.

Lemma palette_color_inj (i j : nat) :
  palette_color i = palette_color j <-> (i mod 15 = j mod 15)%nat.
Proof.
  unfold palette_color. change (length EMPLOYEE_COLOR_PALETTE) with 15%nat.
  pose proof (Nat.mod_upper_bound i 15 ltac:(lia)) as Hi.
  pose proof (Nat.mod_upper_bound j 15 ltac:(lia)) as Hj.
  split; [|now intros ->].
  destruct (lookup_lt_is_Some_2 EMPLOYEE_COLOR_PALETTE (i mod 15))
    as [a Ha]; [exact Hi|].
  destruct (lookup_lt_is_Some_2 EMPLOYEE_COLOR_PALETTE (j mod 15))
    as [b Hb]; [exact Hj|].
  rewrite Ha, Hb. simpl. intros <-.
  exact (proj1 (NoDup_alt _) palette_NoDup _ _ _ Ha Hb).
Qed.

Lemma zip_seq_snoc {A} (l : list A) (x : A) k :
  zip (seq k (length (l ++ [x]))) (l ++ [x])
  = zip (seq k (length l)) l ++ [((k + length l)%nat, x)].
Proof.
  revert k. induction l as [|a l IH]; intros k; simpl.
  - now rewrite Nat.add_0_r.
  - rewrite IH. now rewrite Nat.add_succ_r.
Qed.

Lemma get_employee_colors_lookup l (i : nat) a :
  NoDup l -> l !! i = Some a ->
  get_employee_colors l !! a = Some (palette_color i).
Proof.
  unfold get_employee_colors. revert i.
  induction l as [|x l IH] using rev_ind; intros i Hnd Hi; [discriminate|].
  apply NoDup_app in Hnd as (Hl & Hx & _).
  rewrite zip_seq_snoc, foldl_app. cbn [foldl fst snd]. rewrite Nat.add_0_l.
  destruct (decide (i < length l)%nat) as [Hlt|Hge].
  - rewrite lookup_app_l in Hi by exact Hlt.
    rewrite lookup_insert_ne.
    + now apply IH.
    + intros ->. apply (Hx a); [|left].
      eapply list_elem_of_lookup_2; eauto.
  - rewrite lookup_app_r in Hi by lia.
    destruct (i - length l)%nat as [|n] eqn:En; [|destruct n; discriminate].
    injection Hi as ->. rewrite lookup_insert_eq. do 2 f_equal. lia.
Qed.

(** X24.  The colours of the calendar view.  In a list of names without
    repetition, two names get the same colour exactly when their positions
    differ by a multiple of 15, the length of the palette: up to 15 names
    have colours of their own, the sixteenth shares the colour of the
    first. *)
Theorem get_employee_colors_repeat_after_15 (l : list string) (i j : nat)
    (a b : string) :
  NoDup l -> l !! i = Some a -> l !! j = Some b ->
  get_employee_colors l !! a = get_employee_colors l !! b
  <-> (i mod 15 = j mod 15)%nat.
Proof.
  intros Hnd Hi Hj.
  rewrite (get_employee_colors_lookup l i a Hnd Hi).
  rewrite (get_employee_colors_lookup l j b Hnd Hj).
  rewrite <- palette_color_inj. split; [now intros [= ->]|now intros ->].
Qed.

Lemma get_employee_colors_repeat_after_15_witness :
  get_employee_colors ["A"; "B"] !! "A" = get_employee_colors ["A"; "B"] !! "B"
  <-> (0 mod 15 = 1 mod 15)%nat.
Proof.
  apply (get_employee_colors_repeat_after_15 ["A"; "B"] 0 1 "A" "B").
  - apply (bool_decide_unpack (NoDup ["A"; "B"])). vm_compute. exact I.
  - reflexivity.
  - reflexivity.
Defined.

(** * The names of the days *)

(** X25.  [day_from_name] undoes [day_name]: the capitalised name of a
    day, and its name in any mix of upper and lower case letters of the
    seven names, is read back as that day. *)
Theorem day_from_name_of_day_name (d : DayOfWeek) :
  day_from_name (day_name d) = Some d
  /\ day_from_name (DayOfWeek_name d) = Some d
  /\ day_from_name (string_map ascii_lower (DayOfWeek_name d)) = Some d.
Proof. destruct d; repeat split; vm_compute; reflexivity. Qed.

(** * Adding a shift *)

(** X26.  [add_shift] puts the shift last.  The shifts of its employee
    grow by it and the employee's total by its length; the shifts and the
    totals of every other name are as before. *)
Theorem add_shift_adds_its_hours (sched : Schedule) (s : Shift)
    (n : string) :
  get_shifts_for_employee (add_shift sched s) n
  = get_shifts_for_employee sched n
    ++ (if decide (employee_name s = n) then [s] else [])
  /\ get_total_hours_for_employee (add_shift sched s) n
     = if decide (employee_name s = n)
       then (get_total_hours_for_employee sched n + duration_hours s)%Q
       else get_total_hours_for_employee sched n.
Proof.
  split.
  - unfold get_shifts_for_employee, add_shift; simpl.
    rewrite filter_app, filter_cons, filter_nil.
    now destruct (decide (employee_name s = n)).
  - apply (hours_in_snoc (shifts sched) s n).
Qed.

(** * The length of the fallback shift *)

Lemma round_half_even_le (q : Q) (n : Z) :
  (q <= inject_Z n)%Q -> round_half_even q <= n.
Proof.
  intros Hq. unfold round_half_even.
  assert (Qfloor q <= n) as Hf.
  { rewrite <- (Qfloor_Z n). now apply Qfloor_resp_le. }
  destruct (Qlt_bool (q - inject_Z (Qfloor q)) (1 # 2)) eqn:E; [exact Hf|].
  apply Qlt_bool_false_iff in E.
  assert (Qfloor q < n); [|repeat case_match; lia].
  destruct (Z.eq_dec (Qfloor q) n) as [En|]; [exfalso|lia].
  rewrite En in E.
  assert (1 # 2 <= 0)%Q as H0; [|now apply H0].
  eapply Qle_trans; [exact E|].
  apply (Qplus_le_l _ _ (inject_Z n)). ring_simplify. exact Hq.
Qed.

Lemma timedelta_hours_le (h : Q) (n : Z) :
  (h <= inject_Z n)%Q -> timedelta_hours h <= n * US_PER_HOUR.
Proof.
  intros Hh. apply round_half_even_le.
  rewrite inject_Z_mult. apply Qmult_le_compat_r; [exact Hh|].
  unfold Qle, US_PER_HOUR; simpl; lia.
Qed.

Lemma wrapped_span_of_end o delta :
  valid_time o -> 0 <= delta < US_PER_DAY ->
  wrapped_span o ((o + delta) mod US_PER_DAY) = delta.
Proof.
  unfold valid_time, wrapped_span, US_PER_DAY. intros Ho Hd.
  destruct (Z.lt_ge_cases (o + delta) 86400000000) as [Hlt|Hge].
  - rewrite Z.mod_small by lia. case_match; lia.
  - replace ((o + delta) mod 86400000000) with (o + delta - 86400000000).
    + case_match; lia.
    + apply (Z.mod_unique_pos _ _ 1); lia.
Qed.

Lemma qmin_le_8 a : (qmin a 8 <= 8)%Q.
Proof.
  unfold qmin. destruct (Qlt_bool 8 a) eqn:E; [apply Qle_refl|].
  now apply Qlt_bool_false_iff in E.
Qed.

(** X27.  The fallback never assigns more than 8 hours.  When the
    fallback returns a shift, the shift starts at the opening time and
    lasts at most 8 hours and at most the opening hours of the day. *)
Theorem fallback_shift_at_most_8_hours (self : ShiftScheduler)
    (dow : DayOfWeek) (d o c : Z) (h h' : gmap string Q) (s : Shift) :
  valid_time o ->
  fallback self dow d o (open_dt_of d o) (close_dt_of d o c) h = ([s], h') ->
  start_time s = o /\ (duration_hours s <= 8)%Q
  /\ (duration_hours s <= hours_of (close_dt_of d o c - open_dt_of d o))%Q.
Proof.
  intros Ho. unfold fallback.
  destruct (filter _ (employees self)) as [|emp rest]; [discriminate|].
  set (total := hours_of (close_dt_of d o c - open_dt_of d o)).
  destruct (Qlt_bool 0 total) eqn:Etotal; [|discriminate].
  match goal with
  | |- context [Qlt_bool 0 ?x] =>
      match x with total => fail 1 | _ => set (sd := x) end
  end.
  destruct (Qlt_bool 0 sd) eqn:Esd; [|discriminate].
  intros [= <- _]. cbn [start_time]. split; [reflexivity|].
  apply Qlt_bool_iff in Etotal, Esd.
  assert (sd <= 8)%Q as Hsd.
  { subst sd. destruct (Qle_bool 1 total); [|apply qmin_le_8].
    unfold qmax. destruct (Qlt_bool _ 1); [|apply qmin_le_8].
    unfold Qle; simpl; lia. }
  assert (open_dt_of d o < close_dt_of d o c) as Hopen.
  { unfold total, hours_of, Qlt in Etotal. simpl in Etotal. lia. }
  pose proof (timedelta_hours_nonneg sd (Qlt_le_weak _ _ Esd)) as Htd0.
  pose proof (timedelta_hours_le sd 8 Hsd) as Htd8.
  set (end_dt := Z.min (open_dt_of d o + timedelta_hours sd)
                   (close_dt_of d o c)).
  set (delta := end_dt - open_dt_of d o).
  assert (0 <= delta <= 8 * US_PER_HOUR
          /\ delta <= close_dt_of d o c - open_dt_of d o) as [Hdelta Hdelta']
    by (subst delta end_dt; lia).
  assert (datetime_time end_dt = (o + delta) mod US_PER_DAY) as Eend.
  { unfold datetime_time. replace end_dt with (open_dt_of d o + delta)
      by (subst delta; lia).
    unfold open_dt_of, combine.
    rewrite <- Z.add_assoc, Z.add_comm, Z.mod_add; [reflexivity|].
    unfold US_PER_DAY. lia. }
  unfold duration_hours. cbn [start_time end_time].
  fold end_dt. rewrite Eend, wrapped_span_of_end;
    [|exact Ho|unfold US_PER_HOUR, US_PER_DAY in *; lia].
  unfold total, hours_of, Qle, US_PER_HOUR in *. simpl. lia.
Qed.

Lemma fallback_shift_at_most_8_hours_witness :
  start_time
    (fallback_shift blocked_employee MONDAY jan15 (hm 9 0) (hm 15 0)
       (initial_hours (employees blocked_shop))) = hm 9 0
  /\ (duration_hours
        (fallback_shift blocked_employee MONDAY jan15 (hm 9 0) (hm 15 0)
           (initial_hours (employees blocked_shop))) <= 8)%Q
  /\ (duration_hours
        (fallback_shift blocked_employee MONDAY jan15 (hm 9 0) (hm 15 0)
           (initial_hours (employees blocked_shop)))
      <= hours_of (close_dt_of jan15 (hm 9 0) (hm 15 0)
                   - open_dt_of jan15 (hm 9 0)))%Q.
Proof.
  apply (fallback_shift_at_most_8_hours blocked_shop MONDAY jan15 (hm 9 0)
           (hm 15 0) (initial_hours (employees blocked_shop))
           (hours_add (initial_hours (employees blocked_shop)) "A"
              (duration_hours
                 (fallback_shift blocked_employee MONDAY jan15 (hm 9 0)
                    (hm 15 0) (initial_hours (employees blocked_shop)))))).
  - vm_compute. split; [discriminate|reflexivity].
  - vm_compute. reflexivity.
Defined.

(** * The first pass of a day *)

(** X28.  The employee ranked first takes the whole day when available
    for it.  The dictionary of accumulated hours holds every name of the
    roster with a value that is not negative, as [generate_schedule] keeps
    it.  If the opening hours last an hour or more and the first
    employee of the ranking is available from the opening to the closing
    time, the day consists of one shift, for that employee, over the whole
    opening hours: the day is not split, and neither the monthly cap that
    is left nor the minimum shift length shortens the shift. *)
Theorem first_ranked_employee_takes_the_day (self : ShiftScheduler)
    (dow : DayOfWeek) (d o c : Z) (h : gmap string Q) (emp : Employee)
    (rest : list Employee) :
  hours_sound (employees self) h ->
  sort_employees h dow d
    (filter (fun e => has_capacity h dow e = true) (employees self))
  = emp :: rest ->
  open_dt_of d o < close_dt_of d o c ->
  (1 <= hours_of (close_dt_of d o c - open_dt_of d o))%Q ->
  is_available_at_time emp dow (datetime_time (open_dt_of d o))
    (datetime_time (close_dt_of d o c)) (Some d) = true ->
  _generate_shifts_for_day self dow d o c h
  = ([whole_day_shift emp dow d o c],
     hours_add h (name emp) (duration_hours (whole_day_shift emp dow d o c))).
Proof. intros _. apply first_ranked_takes_whole_day. Qed.

Lemma first_ranked_employee_takes_the_day_witness :
  _generate_shifts_for_day scenario_C MONDAY jan15 (hm 10 0) (hm 20 0)
    (initial_hours (employees scenario_C))
  = ([whole_day_shift (default_employee "A" [MONDAY] 160) MONDAY jan15
        (hm 10 0) (hm 20 0)],
     hours_add (initial_hours (employees scenario_C))
       (name (default_employee "A" [MONDAY] 160))
       (duration_hours
          (whole_day_shift (default_employee "A" [MONDAY] 160) MONDAY jan15
             (hm 10 0) (hm 20 0)))).
Proof.
  apply (first_ranked_employee_takes_the_day scenario_C MONDAY jan15
           (hm 10 0) (hm 20 0) (initial_hours (employees scenario_C))
           (default_employee "A" [MONDAY] 160)
           [default_employee "B" [MONDAY] 160]).
  - apply initial_hours_sound.
  - vm_compute. reflexivity.
  - vm_compute. reflexivity.
  - vm_compute. discriminate.
  - vm_compute. reflexivity.
Defined.
